(** * Verification of the tabular record extractor

    A shallow embedding of the heuristic row parser of the repository
    (functions [isNamePart], [parseStringData], [detectSubject] and
    [parseExcelData]) together with the properties its specification states,
    and of three helpers around it: [deleteStudent] of the working set, and
    [callWithRetry] and [normalizeSubjectName] of the generation service.

    Modelling conventions.
    - A JavaScript string is the list of its UTF-16 code units ([jsstring]).
      Literals are written as ordinary (UTF-8) Rocq strings and decoded by
      [js], so that every keyword reads exactly as in the source.
    - A JavaScript number is an exact decimal [Dec m k] (the value
      [m / 10^k]), [NaN] or a signed infinity.  Rounding to binary64, the
      overflow of huge literals to Infinity and the sign of zero are not
      modelled; every comparison of the source is done on the exact value.
    - [toLowerCase] and [toUpperCase] are modelled on the Basic Latin,
      Latin-1, Latin Extended-A and Latin Extended Additional blocks and on
      the letters O-horn and U-horn, which contain the whole Vietnamese
      alphabet; any other code unit is left unchanged.
    - The spreadsheet library is an external collaborator: the outcome of
      [XLSX.read] and of [XLSX.utils.sheet_to_json] is an input of the model,
      and so is the clock read by [Date.now()]. *)

From Stdlib Require Import ZArith NArith List Bool String Ascii Lia.
From Stdlib Require DecimalN.
Import ListNotations.

Local Open Scope N_scope.

(* ------------------------------------------------------------------ *)
(** ** JavaScript strings *)

Definition jsstring := list N.

Fixpoint bytes_of (s : string) : list N :=
  match s with
  | EmptyString => []
  | String a r => N_of_ascii a :: bytes_of r
  end.

(** UTF-16 code units of one code point. *)
Definition units_of_codepoint (cp : N) : jsstring :=
  if cp <? 0x10000 then [cp]
  else let v := cp - 0x10000 in [0xD800 + v / 0x400; 0xDC00 + v mod 0x400].

(** UTF-8 decoding: [pending] continuation bytes are still expected and
    [acc] holds the bits read so far. *)
Fixpoint utf8_units (bs : list N) (pending : nat) (acc : N) : jsstring :=
  match bs with
  | [] => []
  | b :: rest =>
      match pending with
      | O =>
          if b <? 0x80 then b :: utf8_units rest 0 0
          else if b <? 0xE0 then utf8_units rest 1 (N.land b 0x1F)
          else if b <? 0xF0 then utf8_units rest 2 (N.land b 0x0F)
          else utf8_units rest 3 (N.land b 0x07)
      | S p =>
          let acc' := acc * 64 + N.land b 0x3F in
          match p with
          | O => units_of_codepoint acc' ++ utf8_units rest 0 0
          | S _ => utf8_units rest p acc'
          end
      end
  end.

Definition js (s : string) : jsstring := utf8_units (bytes_of s) 0 0.

Fixpoint str_eqb (a b : jsstring) : bool :=
  match a, b with
  | [], [] => true
  | x :: a', y :: b' => (x =? y) && str_eqb a' b'
  | _, _ => false
  end.

Fixpoint startsWith (s p : jsstring) : bool :=
  match p, s with
  | [], _ => true
  | y :: p', x :: s' => (x =? y) && startsWith s' p'
  | _ :: _, [] => false
  end.

Fixpoint includes (s sub : jsstring) : bool :=
  startsWith s sub ||
  match s with
  | [] => false
  | _ :: s' => includes s' sub
  end.

(** [WhiteSpace] and [LineTerminator] code units: what [trim] strips and
    what [\s] matches. *)
Definition isWhiteSpace (c : N) : bool :=
  ((9 <=? c) && (c <=? 13)) || (c =? 32) || (c =? 0xA0) || (c =? 0x1680)
  || ((0x2000 <=? c) && (c <=? 0x200A)) || (c =? 0x2028) || (c =? 0x2029)
  || (c =? 0x202F) || (c =? 0x205F) || (c =? 0x3000) || (c =? 0xFEFF).

(** What [.] refuses in a regular expression without the [s] flag. *)
Definition isLineTerminator (c : N) : bool :=
  (c =? 10) || (c =? 13) || (c =? 0x2028) || (c =? 0x2029).

Fixpoint trimStart (s : jsstring) : jsstring :=
  match s with
  | [] => []
  | c :: s' => if isWhiteSpace c then trimStart s' else s
  end.

Definition trimEnd (s : jsstring) : jsstring := rev (trimStart (rev s)).

Definition trim (s : jsstring) : jsstring := trimEnd (trimStart s).

Definition isDigit (c : N) : bool := (48 <=? c) && (c <=? 57).

(** [/\d/.test(s)] *)
Definition hasDigit (s : jsstring) : bool := existsb isDigit s.

(** [/^\d+$/.test(s)] *)
Definition allDigits (s : jsstring) : bool :=
  match s with
  | [] => false
  | _ => forallb isDigit s
  end.

Definition toLowerUnit (c : N) : N :=
  if (65 <=? c) && (c <=? 90) then c + 32
  else if (0xC0 <=? c) && (c <=? 0xDE) && negb (c =? 0xD7) then c + 32
  else if (0x100 <=? c) && (c <=? 0x137) && N.even c && negb (c =? 0x130) then c + 1
  else if (0x139 <=? c) && (c <=? 0x148) && N.odd c then c + 1
  else if (0x14A <=? c) && (c <=? 0x177) && N.even c then c + 1
  else if c =? 0x178 then 0xFF
  else if (0x179 <=? c) && (c <=? 0x17E) && N.odd c then c + 1
  else if (c =? 0x1A0) || (c =? 0x1AF) then c + 1
  else if (0x1E00 <=? c) && (c <=? 0x1E95) && N.even c then c + 1
  else if (0x1EA0 <=? c) && (c <=? 0x1EFF) && N.even c then c + 1
  else c.

Definition toUpperUnit (c : N) : N :=
  if (97 <=? c) && (c <=? 122) then c - 32
  else if (0xE0 <=? c) && (c <=? 0xFE) && negb (c =? 0xF7) then c - 32
  else if c =? 0xFF then 0x178
  else if c =? 0x131 then 73
  else if (0x100 <=? c) && (c <=? 0x137) && N.odd c then c - 1
  else if (0x139 <=? c) && (c <=? 0x148) && N.even c then c - 1
  else if (0x14A <=? c) && (c <=? 0x177) && N.odd c then c - 1
  else if (0x179 <=? c) && (c <=? 0x17E) && N.even c then c - 1
  else if c =? 0x17F then 83
  else if (c =? 0x1A1) || (c =? 0x1B0) then c - 1
  else if (0x1E00 <=? c) && (c <=? 0x1E95) && N.odd c then c - 1
  else if (0x1EA0 <=? c) && (c <=? 0x1EFF) && N.odd c then c - 1
  else c.

Definition toLowerCase (s : jsstring) : jsstring := map toLowerUnit s.
Definition toUpperCase (s : jsstring) : jsstring := map toUpperUnit s.

(** Case folding of a regular expression with the [i] flag and without the
    [u] flag: the upper-case unit, unless that would send a non-ASCII unit
    to an ASCII one. *)
Definition canonicalize (c : N) : N :=
  let u := toUpperUnit c in
  if (128 <=? c) && (u <? 128) then c else u.

(** [s.replace(',', '.')]: only the first comma is replaced. *)
Fixpoint replaceComma (s : jsstring) : jsstring :=
  match s with
  | [] => []
  | c :: s' => if c =? 44 then 46 :: s' else c :: replaceComma s'
  end.

(** [parts.join(sep)] on strings. *)
Fixpoint join (sep : jsstring) (parts : list jsstring) : jsstring :=
  match parts with
  | [] => []
  | [p] => p
  | p :: rest => p ++ sep ++ join sep rest
  end.

Fixpoint span (p : N -> bool) (s : jsstring) : jsstring * jsstring :=
  match s with
  | [] => ([], [])
  | c :: s' =>
      if p c then let (a, b) := span p s' in (c :: a, b) else ([], s)
  end.

(* ------------------------------------------------------------------ *)
(** ** JavaScript numbers *)

Inductive number :=
| NaN
| Inf (negative : bool)
| Dec (m : Z) (k : nat).

(** Canonical form: no trailing zero after the decimal point. *)
Fixpoint normDec (m : Z) (k : nat) : number :=
  match k with
  | O => Dec m 0
  | S k' => if (m mod 10 =? 0)%Z then normDec (m / 10)%Z k' else Dec m k
  end.

Definition digitVal (c : N) : Z := Z.of_N (c - 48).

Definition digitsVal (ds : jsstring) : Z :=
  fold_left (fun acc d => (acc * 10 + digitVal d)%Z) ds 0%Z.

(** [m * 10^(e - f)] as a canonical decimal. *)
Definition scaleDec (m : Z) (e : Z) (f : nat) : number :=
  let x := (e - Z.of_nat f)%Z in
  if (0 <=? x)%Z then Dec (m * 10 ^ x)%Z 0 else normDec m (Z.to_nat (- x)).

Definition readSign (s : jsstring) : bool * jsstring :=
  match s with
  | 43 :: r => (false, r)
  | 45 :: r => (true, r)
  | _ => (false, s)
  end.

(** The optional [ExponentPart]: its value and what follows it. *)
Definition readExponent (s : jsstring) : Z * jsstring :=
  match s with
  | c :: r =>
      if (c =? 101) || (c =? 69) then
        let (neg, r1) := readSign r in
        let (ds, r2) := span isDigit r1 in
        match ds with
        | [] => (0%Z, s)
        | _ => ((if neg then - digitsVal ds else digitsVal ds)%Z, r2)
        end
      else (0%Z, s)
  | [] => (0%Z, s)
  end.

(** The longest prefix of [s] that is a [StrDecimalLiteral], as a number,
    with the rest of the string; [NaN] when there is none. *)
Definition readDecimalLiteral (s : jsstring) : number * jsstring :=
  let (neg, r0) := readSign s in
  if startsWith r0 (js "Infinity") then (Inf neg, skipn 8 r0)
  else
    let (ip, r1) := span isDigit r0 in
    let '(fp, r2, dot) :=
      match r1 with
      | 46 :: r => let (fp, r2) := span isDigit r in (fp, r2, true)
      | _ => ([], r1, false)
      end in
    match ip, fp with
    | [], [] => (NaN, s)
    | _, _ =>
        let (e, r3) := readExponent r2 in
        let m := digitsVal (ip ++ fp) in
        (scaleDec (if neg then - m else m)%Z e (List.length fp), r3)
    end.

Definition parseFloat (s : jsstring) : number :=
  fst (readDecimalLiteral (trimStart s)).

(** [parseInt(s, 10)] *)
Definition parseInt10 (s : jsstring) : number :=
  let (neg, r0) := readSign (trimStart s) in
  let (ds, _) := span isDigit r0 in
  match ds with
  | [] => NaN
  | _ => Dec (if neg then - digitsVal ds else digitsVal ds)%Z 0
  end.

(** [Number(s)] on a string.  Only decimal literals are modelled (the
    source applies it to strings of digits only). *)
Definition stringToNumber (s : jsstring) : number :=
  match trim s with
  | [] => Dec 0 0
  | t => match readDecimalLiteral t with
         | (x, []) => x
         | _ => NaN
         end
  end.

Definition isNaN (x : number) : bool :=
  match x with NaN => true | _ => false end.

(** [x >= lo] and the like, for an integer bound. *)
Definition num_geb (x : number) (lo : Z) : bool :=
  match x with
  | NaN => false
  | Inf neg => negb neg
  | Dec m k => (lo * 10 ^ Z.of_nat k <=? m)%Z
  end.

Definition num_leb (x : number) (hi : Z) : bool :=
  match x with
  | NaN => false
  | Inf neg => neg
  | Dec m k => (m <=? hi * 10 ^ Z.of_nat k)%Z
  end.

Definition num_gtb (x : number) (lo : Z) : bool :=
  match x with
  | NaN => false
  | Inf neg => negb neg
  | Dec m k => (lo * 10 ^ Z.of_nat k <? m)%Z
  end.

Definition num_ltb (x : number) (hi : Z) : bool :=
  match x with
  | NaN => false
  | Inf neg => neg
  | Dec m k => (m <? hi * 10 ^ Z.of_nat k)%Z
  end.

Fixpoint uint_units (u : Decimal.uint) : jsstring :=
  match u with
  | Decimal.Nil => []
  | Decimal.D0 u => 48 :: uint_units u
  | Decimal.D1 u => 49 :: uint_units u
  | Decimal.D2 u => 50 :: uint_units u
  | Decimal.D3 u => 51 :: uint_units u
  | Decimal.D4 u => 52 :: uint_units u
  | Decimal.D5 u => 53 :: uint_units u
  | Decimal.D6 u => 54 :: uint_units u
  | Decimal.D7 u => 55 :: uint_units u
  | Decimal.D8 u => 56 :: uint_units u
  | Decimal.D9 u => 57 :: uint_units u
  end.

(** Decimal digits of a natural number, without leading zeros. *)
Definition digitsOf (n : N) : jsstring := uint_units (N.to_uint n).

Fixpoint dropZeros (s : jsstring) : jsstring :=
  match s with
  | [] => []
  | c :: s' => if c =? 48 then dropZeros s' else s
  end.

(** [Number::toString] in radix 10. *)
Definition numberToString (x : number) : jsstring :=
  match x with
  | NaN => js "NaN"
  | Inf false => js "Infinity"
  | Inf true => js "-Infinity"
  | Dec m k =>
      if (m =? 0)%Z then js "0"
      else
        let sign := if (m <? 0)%Z then js "-" else [] in
        let ds := digitsOf (Z.abs_N m) in
        let n := (Z.of_nat (List.length ds) - Z.of_nat k)%Z in
        let s := rev (dropZeros (rev ds)) in
        let kk := Z.of_nat (List.length s) in
        sign ++
        (if (kk <=? n)%Z && (n <=? 21)%Z
         then s ++ repeat 48 (Z.to_nat (n - kk))
         else if (0 <? n)%Z && (n <=? 21)%Z
         then firstn (Z.to_nat n) s ++ js "." ++ skipn (Z.to_nat n) s
         else if (-6 <? n)%Z && (n <=? 0)%Z
         then js "0." ++ repeat 48 (Z.to_nat (- n)) ++ s
         else
           let e := (n - 1)%Z in
           let es := (if (e <? 0)%Z then js "-" else js "+")
                     ++ digitsOf (Z.abs_N e) in
           match s with
           | [d] => [d] ++ js "e" ++ es
           | d :: r => [d] ++ js "." ++ r ++ js "e" ++ es
           | [] => []
           end)
  end.

(* ------------------------------------------------------------------ *)
(** ** Data model *)

(** Modelled from the spec: the enumeration [TeacherRole] of the absent
    module [types]; the callers use exactly the members [SUBJECT] and
    [HOMEROOM]. *)
Inductive TeacherRole := SUBJECT | HOMEROOM.

(** Modelled from the spec: the interface [StudentData] of the absent
    module [types], with the fields the parser writes; an optional field
    that was never assigned is [None]. *)
Record StudentData := {
  id : jsstring;
  name : jsstring;
  comment : jsstring;
  isProcessing : bool;
  subjectScore : option number;
  subjectRating : option jsstring;
  academicResult : option jsstring;
  conductRating : option jsstring;
  absences : option number
}.

Record ParseResult := {
  students : list StudentData;
  detectedSubject : option jsstring
}.

(** A cell of the grid returned by [sheet_to_json] with [header: 1]: a
    hole of the (sparse) row array, which reads as [undefined], [null], a
    number, a string or a boolean. *)
Inductive cell :=
| CHole
| CNull
| CNum (x : number)
| CStr (s : jsstring)
| CBool (b : bool).

Definition row := list cell.

(** [row[i]] *)
Definition at_index (r : row) (i : nat) : cell := nth i r CHole.

(** [String(cell)] *)
Definition toString (c : cell) : jsstring :=
  match c with
  | CHole => js "undefined"
  | CNull => js "null"
  | CNum x => numberToString x
  | CStr s => s
  | CBool true => js "true"
  | CBool false => js "false"
  end.

(** [Number(cell)] *)
Definition toNumber (c : cell) : number :=
  match c with
  | CHole => NaN
  | CNull => Dec 0 0
  | CNum x => x
  | CStr s => stringToNumber s
  | CBool true => Dec 1 0
  | CBool false => Dec 0 0
  end.

(* ------------------------------------------------------------------ *)
(** ** isNamePart *)

Definition keywords : list jsstring := map js [
  "stt"; "họ"; "tên"; "thứ"; "ngày"; "tháng"; "năm"; "lớp"; "trường";
  "dân"; "tộc"; "nữ"; "nam"; "điểm"; "trung"; "bình"; "xếp"; "loại";
  "ghi"; "chú"; "kết"; "quả"; "học"; "kỳ"; "môn";
  "gdcd"; "công"; "nghệ"; "tin"; "thể";
  "giáo"; "viên"; "người"; "lập"; "biểu"; "thống"; "kê";
  "tbm"; "đtb"; "hk1"; "hk2"; "cn"; "tốt"; "khá";
  "ubnd"; "thcs"; "thpt"; "tiểu"; "phòng"; "sở"; "đào"; "tạo"; "cộng"; "hòa";
  "xã"; "huyện"; "tỉnh"; "thành"; "phố"; "độc"; "lập"; "tự"; "do";
  "đđg"; "tx"; "đgtx"; "đđgc"; "nhận"; "xét"; "khối";
  "số"; "lượng"; "tỉ"; "lệ"; "tỷ"; "phần"; "trăm"; "tổng";
  "sinh"; "đạt"; "chưa"
]%string.

(** [list.some(k => s === k)] *)
Definition someEq (l : list string) (s : jsstring) : bool :=
  existsb (fun k => str_eqb s (js k)) l.

(** [list.some(k => s.includes(k))] *)
Definition someIncluded (l : list string) (s : jsstring) : bool :=
  existsb (fun k => includes s (js k)) l.

(** [/^(T|K|TB|Y|G|Đ|CĐ|TX\d|HK\d)$/.test(u)] *)
Definition isAbbreviation (u : jsstring) : bool :=
  someEq ["T"; "K"; "TB"; "Y"; "G"; "Đ"; "CĐ"]%string u
  || match u with
     | [a; b; d] =>
         (str_eqb [a; b] (js "TX") || str_eqb [a; b] (js "HK")) && isDigit d
     | _ => false
     end.

Definition isNamePartStr (val : jsstring) : bool :=
  let str := trim val in
  if (List.length str =? 0)%nat then false
  else if hasDigit str then false
  else if (List.length str <? 2)%nat && negb (str_eqb (toUpperCase str) (js "Ý"))
  then false
  else
    let lower := toLowerCase str in
    if someEq ["stt"; "đđgtx"; "đđgck"; "đtbmhk"]%string lower then false
    else if includes lower (js "số lượng") || includes lower (js "tỉ lệ")
            || includes lower (js "tỷ lệ") || includes lower (js "thống kê")
    then false
    else if includes lower (js "số học sinh") || str_eqb lower (js "đạt")
            || str_eqb lower (js "chưa đạt")
    then false
    else if existsb (fun k => str_eqb lower k) keywords then false
    else if someIncluded ["trường"; "phòng"; "ủy"; "ban"; "cộng hòa"]%string lower
    then false
    else if isAbbreviation (toUpperCase str) then false
    else true.

Definition isNamePart (val : cell) : bool :=
  match val with
  | CStr s => isNamePartStr s
  | _ => false
  end.

(* ------------------------------------------------------------------ *)
(** ** detectSubject *)

(** [headers.flat()]: one level is flattened and the holes of the rows are
    dropped. *)
Definition flat (headers : list row) : list cell :=
  filter (fun c => match c with CHole => false | _ => true end)
         (List.concat headers).

(** [cells.join(sep)]: [null] and [undefined] give the empty string. *)
Definition joinCells (sep : jsstring) (cells : list cell) : jsstring :=
  join sep (map (fun c => match c with
                          | CHole | CNull => []
                          | _ => toString c
                          end) cells).

Definition flatHeadersOf (headers : list row) : jsstring :=
  toLowerCase (joinCells (js " ") (flat headers)).

(** The keyword groups of [detectSubject] with their labels, in the order
    of its [if] statements. *)
Definition subjectTable : list (list string * string) := [
  (["toán"], "Toán");
  (["văn"; "việt"; "ngữ"], "Văn");
  (["lịch sử"; "địa lý"; "sử"; "địa"], "LS & ĐL");
  (["khoa học tự nhiên"; "khtn"; "lý"; "hóa"; "sinh"; "vật lý"; "vật lí";
    "sinh học"; "hóa học"], "KHTN");
  (["tin"; "tin học"], "Tin học");
  (["anh"; "ngoại ngữ"; "tiếng anh"], "Ng.ngữ");
  (["gdcd"; "công dân"], "GDCD");
  (["công nghệ"], "C.nghệ");
  (["thể dục"; "gdtc"; "thể chất"], "GDTC");
  (["nhạc"; "mỹ thuật"; "âm nhạc"; "nghệ thuật"], "Nghệ thuật");
  (["địa phương"; "ndgdcđp"], "NDGDCĐP");
  (["trải nghiệm"; "hướng nghiệp"; "hđtn"], "HĐTN&HN")
]%string.

Fixpoint firstGroup (flatHeaders : jsstring)
    (table : list (list string * string)) : option jsstring :=
  match table with
  | [] => None
  | (keys, label) :: rest =>
      if someIncluded keys flatHeaders then Some (js label)
      else firstGroup flatHeaders rest
  end.

Definition detectSubject (headers : list row) : option jsstring :=
  firstGroup (flatHeadersOf headers) subjectTable.

(* ------------------------------------------------------------------ *)
(** ** parseExcelData: one row *)

(** [typeof cell === 'number' ||
     (typeof cell === 'string' && /^\d+$/.test(cell.trim()))] *)
Definition isIndexLike (c : cell) : bool :=
  match c with
  | CNum _ => true
  | CStr s => allDigits (trim s)
  | _ => false
  end.

(** [cell === undefined || cell === null || String(cell).trim() === ''] *)
Definition isBlank (c : cell) : bool :=
  match c with
  | CHole | CNull => true
  | _ => str_eqb (trim (toString c)) []
  end.

(** The STT check on the first cell. *)
Definition hasIndexOf (r : row) : bool :=
  let firstCell := at_index r 0 in
  if isIndexLike firstCell then
    let val := toNumber firstCell in
    num_gtb val 0 && num_ltb val 1000
  else false.

(** The name loop, from column [i] on: [cells] are the cells [row[i]],
    [row[i+1]], ... still to visit, so that [row[i+1]] is the head of the
    tail (or [undefined] past the end).  Returns [nameParts] and
    [nameEndIndex]. *)
Fixpoint nameLoop (cells : list cell) (i : Z)
    (nameParts : list jsstring) (nameEndIndex : Z) : list jsstring * Z :=
  match cells with
  | [] => (nameParts, nameEndIndex)
  | c :: rest =>
      if (List.length nameParts =? 0)%nat && isIndexLike c then
        nameLoop rest (i + 1)%Z nameParts nameEndIndex
      else if (List.length nameParts =? 0)%nat then
        if isNamePart c
        then nameLoop rest (i + 1)%Z (nameParts ++ [trim (toString c)]) i
        else nameLoop rest (i + 1)%Z nameParts nameEndIndex
      else if isNamePart c
      then nameLoop rest (i + 1)%Z (nameParts ++ [trim (toString c)]) i
      else if isBlank c then
        let nextCell := at_index rest 0 in
        if isNamePart nextCell
        then nameLoop rest (i + 1)%Z nameParts nameEndIndex
        else (nameParts, nameEndIndex)
      else (nameParts, nameEndIndex)
  end.

Definition findName (r : row) : list jsstring * Z := nameLoop r 0%Z [] (-1)%Z.

(** The filters applied to the assembled name: [true] when the row is
    kept. *)
Definition nameFilter (fullName : jsstring) : bool :=
  if ((List.length fullName =? 0)%nat || (List.length fullName <? 2)%nat)
     && negb (str_eqb fullName (js "Ý"))
  then false
  else
    let upperName := toUpperCase fullName in
    if someIncluded ["TRƯỜNG"; "THCS"; "THPT"; "UBND"; "CỘNG HÒA"; "ĐỘC LẬP"]%string
         upperName
    then false
    else if someIncluded ["SỐ LƯỢNG"; "TỈ LỆ"; "TỶ LỆ"; "TỔNG CỘNG"; "THỐNG KÊ"]%string
              upperName
            || startsWith upperName (js "SỐ HỌC SINH")
            || str_eqb upperName (js "ĐẠT")
            || str_eqb upperName (js "CHƯA ĐẠT")
    then false
    else if includes fullName (js "%")
            || (includes fullName (js "-") && (5 <? List.length fullName)%nat
                && negb (includes fullName (js " ")))
    then false
    else true.

(** [/^(T|K|Đ|CĐ|TB|G|Y|ĐẠT|CHƯA ĐẠT)$/.test(upper)] *)
Definition isSubjectRating (upper : jsstring) : bool :=
  someEq ["T"; "K"; "Đ"; "CĐ"; "TB"; "G"; "Y"; "ĐẠT"; "CHƯA ĐẠT"]%string upper.

(** [/^(T|K|Đ|CĐ|G|TB|Y|TỐT|KHÁ|ĐẠT|CHƯA ĐẠT|GIỎI|YẾU|TRUNG BÌNH|KÉM)$/.test(upper)] *)
Definition isHomeroomRating (upper : jsstring) : bool :=
  someEq ["T"; "K"; "Đ"; "CĐ"; "G"; "TB"; "Y"; "TỐT"; "KHÁ"; "ĐẠT"; "CHƯA ĐẠT";
          "GIỎI"; "YẾU"; "TRUNG BÌNH"; "KÉM"]%string upper.

(** The backward loop of the subject teacher,
    [for (j = row.length - 1; j > nameEndIndex; j--)]: [n] is [j + 1].
    Returns [subjectScore] and [subjectRating]. *)
Fixpoint subjectLoop (r : row) (nameEndIndex : Z) (n : nat)
    : option number * option jsstring :=
  match n with
  | O => (None, None)
  | S j =>
      if (Z.of_nat j >? nameEndIndex)%Z then
        let cell := at_index r j in
        if isBlank cell then subjectLoop r nameEndIndex j
        else
          let cellStr := replaceComma (trim (toString cell)) in
          let cellNum := parseFloat cellStr in
          if negb (isNaN cellNum) then
            if num_geb cellNum 0 && num_leb cellNum 10
            then (Some cellNum, None)
            else subjectLoop r nameEndIndex j
          else
            let upper := toUpperCase cellStr in
            if isSubjectRating upper
            then (None, Some upper)
            else subjectLoop r nameEndIndex j
      else (None, None)
  end.

(** The forward loop of the homeroom teacher over the cells
    [row[nameEndIndex + 1]], ...: returns [ratingsFound] and [absences]. *)
Fixpoint homeroomLoop (cells : list cell) (ratingsFound : list jsstring)
    (absences : option number) : list jsstring * option number :=
  match cells with
  | [] => (ratingsFound, absences)
  | cell :: rest =>
      if isBlank cell then homeroomLoop rest ratingsFound absences
      else
        let str := trim (toString cell) in
        let upper := toUpperCase str in
        if isHomeroomRating upper
        then homeroomLoop rest (ratingsFound ++ [upper]) absences
        else if allDigits str then
          let n := parseInt10 str in
          if num_geb n 0 && num_ltb n 60
          then homeroomLoop rest ratingsFound (Some n)
          else homeroomLoop rest ratingsFound absences
        else homeroomLoop rest ratingsFound absences
  end.

Definition isSome {A : Type} (o : option A) : bool :=
  match o with Some _ => true | None => false end.

(** [`student-xls-${Date.now()}-${rowIndex}`] *)
Definition xlsId (time : Z) (rowIndex : nat) : jsstring :=
  js "student-xls-" ++ numberToString (Dec time 0) ++ js "-"
  ++ numberToString (Dec (Z.of_nat rowIndex) 0).

(** The callback of [rawData.forEach]: the record it pushes, if any.
    [now rowIndex] is what [Date.now()] returns while this row is
    processed. *)
Definition parseRow (role : TeacherRole) (now : nat -> Z) (rowIndex : nat)
    (r : row) : option StudentData :=
  if (List.length r =? 0)%nat then None
  else
    let hasIndex := hasIndexOf r in
    let (nameParts, nameEndIndex) := findName r in
    let fullName := trim (join (js " ") nameParts) in
    if negb (nameFilter fullName) then None
    else
      let '(subjectScore, subjectRating, academicResult, conductRating, absences) :=
        match role with
        | SUBJECT =>
            let (score, rating) := subjectLoop r nameEndIndex (List.length r) in
            (score, rating, None, None, None)
        | HOMEROOM =>
            let (ratingsFound, absences) :=
              homeroomLoop (skipn (Z.to_nat (nameEndIndex + 1)) r) [] None in
            match ratingsFound with
            | a :: c :: _ => (None, None, Some a, Some c, absences)
            | [a] => (None, None, Some a, None, absences)
            | [] => (None, None, None, None, absences)
            end
        end in
      let hasData :=
        match role with
        | SUBJECT => isSome subjectScore || isSome subjectRating
        | HOMEROOM =>
            isSome academicResult || isSome conductRating || isSome absences
        end in
      if negb hasIndex && negb hasData then None
      else Some {|
        id := xlsId (now rowIndex) rowIndex;
        name := fullName;
        comment := [];
        isProcessing := false;
        subjectScore := subjectScore;
        subjectRating := subjectRating;
        academicResult := academicResult;
        conductRating := conductRating;
        absences := absences
      |}.

(* ------------------------------------------------------------------ *)
(** ** parseExcelData: the whole function *)

(** What a call of the spreadsheet library does: it returns or throws. *)
Inductive outcome (A : Type) :=
| Returns (a : A)
| Throws.
Arguments Returns {A} a.
Arguments Throws {A}.

Definition bind {A B : Type} (o : outcome A) (f : A -> outcome B) : outcome B :=
  match o with
  | Returns a => f a
  | Throws => Throws
  end.

Notation "x <- c ;; k" := (bind c (fun x => k))
  (at level 61, c at next level, right associativity).

(** A worksheet is known by what [XLSX.utils.sheet_to_json] makes of it:
    the grid, [None] for a nullish result, or an exception. *)
Record WorkSheet := { sheet_to_json : outcome (option (list row)) }.

Record WorkBook := {
  SheetNames : option (list jsstring);
  Sheets : list (jsstring * WorkSheet)
}.

(** [workbook.Sheets[sheetName]] *)
Fixpoint lookupSheet (sheets : list (jsstring * WorkSheet)) (key : jsstring)
    : option WorkSheet :=
  match sheets with
  | [] => None
  | (k, w) :: rest => if str_eqb k key then Some w else lookupSheet rest key
  end.

(** [rawData.forEach((row, rowIndex) => ...)], the rows from [rowIndex] on,
    pushing onto [students]. *)
Fixpoint forEachRow (role : TeacherRole) (now : nat -> Z) (rows : list row)
    (rowIndex : nat) (students : list StudentData) : list StudentData :=
  match rows with
  | [] => students
  | r :: rest =>
      forEachRow role now rest (S rowIndex)
        match parseRow role now rowIndex r with
        | Some student => students ++ [student]
        | None => students
        end
  end.

Definition emptyResult : ParseResult :=
  {| students := []; detectedSubject := None |}.

(** The body of the [try] block; [read] is the outcome of
    [XLSX.read(fileData, ...)]. *)
Definition tryBlock (read : outcome WorkBook) (role : TeacherRole)
    (now : nat -> Z) : outcome ParseResult :=
  workbook <- read ;;
  match SheetNames workbook with
  | None | Some [] => Returns emptyResult
  | Some (sheetName :: _) =>
      match lookupSheet (Sheets workbook) sheetName with
      | None => Returns emptyResult
      | Some worksheet =>
          json <- sheet_to_json worksheet ;;
          match json with
          | None | Some [] => Returns emptyResult
          | Some rawData =>
              let headerRows := firstn 5 rawData in
              let detected := detectSubject headerRows in
              Returns {| students := forEachRow role now rawData 0 [];
                         detectedSubject := detected |}
          end
      end
  end.

Definition parseExcelData (read : outcome WorkBook) (role : TeacherRole)
    (now : nat -> Z) : ParseResult :=
  match tryBlock read role now with
  | Returns result => result
  | Throws => emptyResult
  end.

(** A workbook whose first sheet holds the given grid. *)
Definition workbookOf (rawData : list row) : outcome WorkBook :=
  Returns {| SheetNames := Some [js "Sheet1"];
             Sheets := [(js "Sheet1",
                         {| sheet_to_json := Returns (Some rawData) |})] |}.

(* ------------------------------------------------------------------ *)
(** ** parseStringData *)

(** [text.split(/\n+/)]: [cur] is the piece being read and [inSep] tells
    that the previous unit was a line feed. *)
Fixpoint splitLines (s : jsstring) (cur : jsstring) (inSep : bool)
    : list jsstring :=
  match s with
  | [] => [cur]
  | c :: r =>
      if c =? 10 then
        if inSep then splitLines r [] true else cur :: splitLines r [] true
      else splitLines r (cur ++ [c]) false
  end.

(** [s.split('\t')] *)
Fixpoint splitTabs (s : jsstring) (cur : jsstring) : list jsstring :=
  match s with
  | [] => [cur]
  | c :: r => if c =? 9 then cur :: splitTabs r [] else splitTabs r (cur ++ [c])
  end.

(** [a-zA-ZĐđC] *)
Definition isCodeLetter (c : N) : bool :=
  ((97 <=? c) && (c <=? 122)) || ((65 <=? c) && (c <=? 90))
  || (c =? 0x110) || (c =? 0x111).

(** The whole of [s] matches [\d+[\.,]?\d*|[a-zA-ZĐđC]+]. *)
Definition isTrailingToken (s : jsstring) : bool :=
  (let (ds, r) := span isDigit s in
   match ds, r with
   | [], _ => false
   | _, [] => true
   | _, c :: r' => ((c =? 46) || (c =? 44)) && forallb isDigit r'
   end)
  || match s with
     | [] => false
     | _ => forallb isCodeLetter s
     end.

(** [s.match(/^(.*?)(\d+[\.,]?\d*|[a-zA-ZĐđC]+)$/)] after the prefix [pre]
    was consumed by the lazy group: the two captured groups. *)
Fixpoint matchTrailing (pre s : jsstring) : option (jsstring * jsstring) :=
  if isTrailingToken s then Some (pre, s)
  else match s with
       | [] => None
       | c :: r =>
           if isLineTerminator c then None else matchTrailing (pre ++ [c]) r
       end.

(** [name.replace(/^\d+[\.\)\s]+/, '')] *)
Definition stripOrdinal (name : jsstring) : jsstring :=
  let (ds, r) := span isDigit name in
  let (seps, r') :=
    span (fun c => (c =? 46) || (c =? 41) || isWhiteSpace c) r in
  match ds, seps with
  | _ :: _, _ :: _ => r'
  | _, _ => name
  end.

(** [/^(T|K|Đ|CĐ|G|TB|Y)$/i.test(s)] *)
Definition isTextRating (s : jsstring) : bool :=
  existsb (fun k => str_eqb (map canonicalize s) (map canonicalize (js k)))
          ["T"; "K"; "Đ"; "CĐ"; "G"; "TB"; "Y"]%string.

(** The line-level header and footer filter: [true] when the line is
    skipped. *)
Definition isHeaderLine (lower : jsstring) : bool :=
  includes lower (js "họ và tên") || startsWith lower (js "stt")
  || includes lower (js "người lập") || includes lower (js "ngày")
  || includes lower (js "thcs") || includes lower (js "ubnd")
  || includes lower (js "số lượng") || includes lower (js "tỉ lệ")
  || includes lower (js "số học sinh").

(** The columns recovered from a trimmed line. *)
Definition partsOf (trimmed : jsstring) : list jsstring :=
  let parts := splitTabs trimmed [] in
  if (List.length parts <? 2)%nat then
    match matchTrailing [] trimmed with
    | Some (g1, g2) => [g1; g2]
    | None => [trimmed]
    end
  else parts.

(** [parts.length > 1 ? parts[parts.length - 1].trim().replace(',', '.')
     : undefined] *)
Definition lastPartOf (parts : list jsstring) : option jsstring :=
  if (1 <? List.length parts)%nat
  then Some (replaceComma (trim (last parts [])))
  else None.

(** [`student-txt-${Date.now()}-${idx}`] *)
Definition txtId (time : Z) (idx : nat) : jsstring :=
  js "student-txt-" ++ numberToString (Dec time 0) ++ js "-"
  ++ numberToString (Dec (Z.of_nat idx) 0).

(** [student.subjectScore = x] and the like: the assignment of one field. *)
Definition setSubjectScore (s : StudentData) (x : number) : StudentData :=
  {| id := id s; name := name s; comment := comment s;
     isProcessing := isProcessing s;
     subjectScore := Some x; subjectRating := subjectRating s;
     academicResult := academicResult s; conductRating := conductRating s;
     absences := absences s |}.

Definition setSubjectRating (s : StudentData) (x : jsstring) : StudentData :=
  {| id := id s; name := name s; comment := comment s;
     isProcessing := isProcessing s;
     subjectScore := subjectScore s; subjectRating := Some x;
     academicResult := academicResult s; conductRating := conductRating s;
     absences := absences s |}.

Definition setAcademicResult (s : StudentData) (x : jsstring) : StudentData :=
  {| id := id s; name := name s; comment := comment s;
     isProcessing := isProcessing s;
     subjectScore := subjectScore s; subjectRating := subjectRating s;
     academicResult := Some x; conductRating := conductRating s;
     absences := absences s |}.

(** The callback of [lines.forEach]: the record it pushes, if any. *)
Definition parseLine (role : TeacherRole) (now : nat -> Z) (idx : nat)
    (line : jsstring) : option StudentData :=
  let trimmed := trim line in
  match trimmed with
  | [] => None
  | _ =>
      let lower := toLowerCase trimmed in
      if isHeaderLine lower then None
      else
        let parts := partsOf trimmed in
        let name := trim (nth 0 parts []) in
        match name with
        | [] => None
        | _ =>
            if allDigits name then None
            else
              let cleanName := trim (stripOrdinal name) in
              let student := {|
                id := txtId (now idx) idx;
                name := cleanName;
                comment := [];
                isProcessing := false;
                subjectScore := None;
                subjectRating := None;
                academicResult := None;
                conductRating := None;
                absences := None
              |} in
              match lastPartOf parts with
              | None | Some [] => Some student
              | Some lastPart =>
                  match role with
                  | SUBJECT =>
                      if negb (isNaN (parseFloat lastPart)) then
                        Some (setSubjectScore student (parseFloat lastPart))
                      else
                        Some (setSubjectRating student (toUpperCase lastPart))
                  | HOMEROOM =>
                      if isTextRating lastPart then
                        Some (setAcademicResult student (toUpperCase lastPart))
                      else Some student
                  end
              end
        end
  end.

Fixpoint forEachLine (role : TeacherRole) (now : nat -> Z)
    (lines : list jsstring) (idx : nat) (students : list StudentData)
    : list StudentData :=
  match lines with
  | [] => students
  | line :: rest =>
      forEachLine role now rest (S idx)
        match parseLine role now idx line with
        | Some student => students ++ [student]
        | None => students
        end
  end.

Definition parseStringData (text : jsstring) (role : TeacherRole)
    (now : nat -> Z) : list StudentData :=
  forEachLine role now (splitLines text [] false) 0 [].

(* ------------------------------------------------------------------ *)
(** ** The working set and the retry wrapper *)

(** [setStudents(prev => prev.filter(s => s.id !== id))], as a function of
    the previous list. *)
Definition deleteStudent (id0 : jsstring) (prev : list StudentData)
    : list StudentData :=
  filter (fun s => negb (str_eqb (id s) id0)) prev.

(** A thrown value, known by its [message] property ([None] when it has
    none). *)
Definition error := option jsstring.

(** How a promise settles. *)
Inductive settled (T : Type) :=
| Fulfilled (v : T)
| Rejected (e : error).
Arguments Fulfilled {T} v.
Arguments Rejected {T} e.

(** [error.message || ""] *)
Definition messageOf (e : error) : jsstring :=
  match e with
  | Some m => m
  | None => []
  end.

(** [msg.includes("429") || msg.includes("503") ||
     msg.includes("overloaded") || msg.includes("quota")] *)
Definition isTransient (msg : jsstring) : bool :=
  includes msg (js "429") || includes msg (js "503")
  || includes msg (js "overloaded") || includes msg (js "quota").

(** What a run of [callWithRetry] did: how its promise settled, how many
    times [fn] was called and the delays it slept, in order. *)
Record retryRun (T : Type) := {
  settledAs : settled T;
  calls : nat;
  waits : list Z
}.
Arguments settledAs {T} r.
Arguments calls {T} r.
Arguments waits {T} r.

(** The loop of [callWithRetry] from iteration [i] on, [fuel] iterations
    being left before [i] reaches [retries]; [fn i] is how the call of [fn]
    made in iteration [i] settles.  [retries] and [baseDelay] are whole
    numbers. *)
Fixpoint retryLoop {T : Type} (fn : nat -> settled T) (retries baseDelay : Z)
    (fuel i : nat) (slept : list Z) : retryRun T :=
  match fuel with
  | O => {| settledAs := Rejected (Some (js "Retry failed"));
            calls := i; waits := slept |}
  | S fuel' =>
      match fn i with
      | Fulfilled v =>
          {| settledAs := Fulfilled v; calls := S i; waits := slept |}
      | Rejected e =>
          let msg := messageOf e in
          if negb (isTransient msg) || (Z.of_nat i =? retries - 1)%Z
          then {| settledAs := Rejected e; calls := S i; waits := slept |}
          else
            let waitTime := (baseDelay * (Z.of_nat i + 1))%Z in
            retryLoop fn retries baseDelay fuel' (S i) (slept ++ [waitTime])
      end
  end.

Definition callWithRetry {T : Type} (fn : nat -> settled T)
    (retries baseDelay : Z) : retryRun T :=
  retryLoop fn retries baseDelay (Z.to_nat retries) 0 [].

(** Iteration [i] ends the loop: the call succeeds, or fails for good. *)
Definition endsLoop {T : Type} (fn : nat -> settled T) (retries : Z)
    (i : nat) : bool :=
  match fn i with
  | Fulfilled _ => true
  | Rejected e =>
      negb (isTransient (messageOf e)) || (Z.of_nat i =? retries - 1)%Z
  end.


(** The delays slept before the call number [c]: [baseDelay], twice
    [baseDelay], ... *)
Definition backoff (baseDelay : Z) (c : nat) : list Z :=
  map (fun j => (baseDelay * (Z.of_nat j + 1))%Z) (seq 0 c).

(* ------------------------------------------------------------------ *)
(** ** normalizeSubjectName *)

(** The keyword groups of [normalizeSubjectName] with their labels, in the
    order of its [if] statements. *)
Definition normalizeTable : list (list string * string) := [
  (["toán"], "Toán");
  (["văn"; "việt"; "ngữ"], "Văn");
  (["ls"; "lịch sử"; "địa"], "LS & ĐL");
  (["khtn"; "khoa học tự nhiên"; "lý"; "hóa"; "sinh"; "vật"], "KHTN");
  (["tin"], "Tin học");
  (["anh"; "ngoại ngữ"], "Ng.ngữ");
  (["gdcd"; "công dân"], "GDCD");
  (["công nghệ"; "c.nghệ"], "C.nghệ");
  (["thể"; "gdtc"], "GDTC");
  (["nhạc"; "mỹ thuật"; "nghệ thuật"], "Nghệ thuật");
  (["địa phương"; "ndgdcđp"], "NDGDCĐP");
  (["trải nghiệm"; "hướng nghiệp"; "hđtn"], "HĐTN&HN")
]%string.

(** [rawName] is [None] when the argument is [undefined]. *)
Definition normalizeSubjectName (rawName : option jsstring)
    : option jsstring :=
  match rawName with
  | None | Some [] => None
  | Some raw => firstGroup (toLowerCase raw) normalizeTable
  end.

(* ------------------------------------------------------------------ *)
(** ** Definitions used to state the properties *)

(** The grid of the first sheet, when the workbook was read, names a
    sheet, holds it and the grid conversion returned an array. *)
Definition firstGrid (read : outcome WorkBook) : option (list row) :=
  match read with
  | Throws => None
  | Returns workbook =>
      match SheetNames workbook with
      | Some (sheetName :: _) =>
          match lookupSheet (Sheets workbook) sheetName with
          | Some worksheet =>
              match sheet_to_json worksheet with
              | Returns (Some rawData) => Some rawData
              | _ => None
              end
          | None => None
          end
      | _ => None
      end
  end.

(** The extracted content of a record: everything but its [id]. *)
Definition fieldsOf (s : StudentData)
    : jsstring * option number * option jsstring * option jsstring
      * option jsstring * option number :=
  (name s, subjectScore s, subjectRating s, academicResult s,
   conductRating s, absences s).

Definition sameContent (a b : StudentData) : Prop :=
  name a = name b /\ subjectScore a = subjectScore b
  /\ subjectRating a = subjectRating b
  /\ academicResult a = academicResult b
  /\ conductRating a = conductRating b /\ absences a = absences b
  /\ comment a = comment b /\ isProcessing a = isProcessing b.

(** Every keyword [detectSubject] looks for. *)
Definition subjectKeywords : list string := flat_map fst subjectTable.

(** The canonical labels, as the specification lists them. *)
Definition subjectLabels : list jsstring := map js [
  "Toán"; "Văn"; "LS & ĐL"; "KHTN"; "Tin học"; "Ng.ngữ"; "GDCD"; "C.nghệ";
  "GDTC"; "Nghệ thuật"; "NDGDCĐP"; "HĐTN&HN"
]%string.

(** The column where the name span of a row ends ([nameEndIndex]). *)
Definition nameEndOf (r : row) : Z := snd (findName r).

(** The assembled name of a row ([fullName]). *)
Definition fullNameOf (r : row) : jsstring :=
  trim (join (js " ") (fst (findName r))).

(** The cells strictly to the right of the name span, left to right. *)
Definition rightOfName (r : row) : list cell :=
  skipn (Z.to_nat (nameEndOf r + 1)) r.

(** A cell that holds a score: it is not blank and its text, the first
    comma read as a decimal point, parses as a number in [0, 10]. *)
Definition scoreOf (c : cell) : option number :=
  if isBlank c then None
  else
    let x := parseFloat (replaceComma (trim (toString c))) in
    if negb (isNaN x) && num_geb x 0 && num_leb x 10 then Some x else None.

(** A cell that holds a subject rating: it is not blank, its text does not
    parse as a number and its upper-cased text is one of the rating codes
    of the subject mode. *)
Definition subjectRatingOf (c : cell) : option jsstring :=
  if isBlank c then None
  else
    let s := replaceComma (trim (toString c)) in
    if isNaN (parseFloat s) && isSubjectRating (toUpperCase s)
    then Some (toUpperCase s) else None.

(** A cell that settles the backward scan of the subject mode. *)
Definition settles (c : cell) : bool :=
  isSome (scoreOf c) || isSome (subjectRatingOf c).

(** The outcome of a backward scan, given the cells in the order they are
    visited: the first cell that settles it decides. *)
Definition firstSettled (visited : list cell)
    : option number * option jsstring :=
  match find settles visited with
  | Some c => (scoreOf c, subjectRatingOf c)
  | None => (None, None)
  end.

(** A cell that holds a homeroom rating: it is not blank and its
    upper-cased text is one of the rating codes of the homeroom mode. *)
Definition homeroomRatingOf (c : cell) : option jsstring :=
  if isBlank c then None
  else
    let upper := toUpperCase (trim (toString c)) in
    if isHomeroomRating upper then Some upper else None.

(** A cell that holds an absence count: a bare integer [n] with
    [0 <= n < 60]. *)
Definition absenceOf (c : cell) : option number :=
  if isBlank c then None
  else
    let str := trim (toString c) in
    if allDigits str && num_geb (parseInt10 str) 0
       && num_ltb (parseInt10 str) 60
    then Some (parseInt10 str) else None.

(** The values a list of cells holds, in encounter order. *)
Fixpoint collect {A : Type} (f : cell -> option A) (cells : list cell)
    : list A :=
  match cells with
  | [] => []
  | c :: rest =>
      match f c with
      | Some a => a :: collect f rest
      | None => collect f rest
      end
  end.

(** The last element of a list, if any. *)
Definition lastOf {A : Type} (l : list A) : option A :=
  match rev l with
  | [] => None
  | a :: _ => Some a
  end.

(** A number that is a whole number. *)
Definition isWhole (x : number) : bool :=
  match x with
  | Dec m k => (m mod 10 ^ Z.of_nat k =? 0)%Z
  | _ => false
  end.

(** The first cell holds a positive integer smaller than 1000: a whole
    number, or a string of digits, with such a value. *)
Definition holdsSmallPositiveInteger (c : cell) : bool :=
  match c with
  | CNum x => isWhole x && num_gtb x 0 && num_ltb x 1000
  | CStr s =>
      allDigits (trim s) && (0 <? digitsVal (trim s))%Z
      && (digitsVal (trim s) <? 1000)%Z
  | _ => false
  end.

(** What the STT check accepts: a number, whole or not, strictly between 0
    and 1000, or a string of digits with such a value. *)
Definition holdsLeadingIndex (c : cell) : bool :=
  match c with
  | CNum x => num_gtb x 0 && num_ltb x 1000
  | CStr s =>
      allDigits (trim s) && (0 <? digitsVal (trim s))%Z
      && (digitsVal (trim s) <? 1000)%Z
  | _ => false
  end.

(** At least one data field of the mode is set. *)
Definition hasDataFields (role : TeacherRole) (s : StudentData) : bool :=
  match role with
  | SUBJECT => isSome (subjectScore s) || isSome (subjectRating s)
  | HOMEROOM =>
      isSome (academicResult s) || isSome (conductRating s)
      || isSome (absences s)
  end.

(** The name span goes on at column [i]: the cell is a name-part
    candidate, or it is blank and the next cell is one. *)
Definition continuesName (r : row) (i : nat) : bool :=
  isNamePart (at_index r i)
  || (isBlank (at_index r i) && isNamePart (at_index r (S i))).

(** The name parts held by a list of cells. *)
Definition namePartsOf (cells : list cell) : list jsstring :=
  map (fun c => trim (toString c)) (filter isNamePart cells).

(** A row of text cells. *)
Definition textRow (l : list string) : row := map (fun s => CStr (js s)) l.

Definition clock0 : nat -> Z := fun _ => 1730592000000%Z.

(** The rows and the line of the worked examples. *)
Definition rowAn : row := textRow ["1"; "Nguyễn"; "Văn"; "An"; "8.5"]%string.

Definition rowCuong : row := textRow ["3"; "Lê Văn Cường"; "T"; "Đ"; "2"]%string.

Definition rowScoreThenRating : row :=
  textRow ["1"; "Nguyễn Văn An"; "8.5"; "K"]%string.

Definition rowIndexOnly : row := textRow ["1"; "Nguyễn Văn An"]%string.

Definition rowFractionalIndex : row :=
  [CNum (Dec 25 1); CStr (js "Nguyễn Văn An")].

Definition rowTitle : row := textRow [""; "Danh sách"; ""]%string.

(** Two grids that agree on their first five rows only. *)
Definition gridShort : list row :=
  [textRow ["Môn Toán"]%string; rowAn; rowCuong; rowIndexOnly; rowTitle;
   rowScoreThenRating].

Definition gridLong : list row :=
  [textRow ["Môn Toán"]%string; rowAn; rowCuong; rowIndexOnly; rowTitle;
   textRow ["Tin học"]%string; rowFractionalIndex].

(** "Nguyễn Văn An", a tab, "85". *)
Definition lineAn85 : jsstring := js "Nguyễn Văn An" ++ [9] ++ js "85".

(** A cell with the white space around its text removed. *)
Definition trimCell (c : cell) : cell :=
  match c with
  | CStr s => CStr (trim s)
  | _ => c
  end.

(** The rating words that [isNamePart] turns down, in upper case. *)
Definition refusedCodes : list string :=
  ["T"; "K"; "TB"; "Y"; "G"; "Đ"; "CĐ"; "TỐT"; "KHÁ"; "ĐẠT"; "CHƯA ĐẠT"]%string.

(** The homeroom rating words that [isNamePart] lets through. *)
Definition nameLikeRatings : list string :=
  ["GIỎI"; "YẾU"; "TRUNG BÌNH"; "KÉM"]%string.

(** The units of the words of [refusedCodes]. *)
Definition codeUnits : jsstring := js "TKBYGĐCỐHÁẠƯA ".

(** The rating codes of the two modes, as their regular expressions list
    them. *)
Definition subjectCodes : list string :=
  ["T"; "K"; "Đ"; "CĐ"; "TB"; "G"; "Y"; "ĐẠT"; "CHƯA ĐẠT"]%string.

Definition homeroomCodes : list string :=
  ["T"; "K"; "Đ"; "CĐ"; "G"; "TB"; "Y"; "TỐT"; "KHÁ"; "ĐẠT"; "CHƯA ĐẠT";
   "GIỎI"; "YẾU"; "TRUNG BÌNH"; "KÉM"]%string.

(** The rating codes of the pasted-text path. *)
Definition textCodes : list string :=
  ["T"; "K"; "Đ"; "CĐ"; "G"; "TB"; "Y"]%string.

(** How many data fields of a record are set. *)
Definition countSet (s : StudentData) : nat :=
  (if isSome (subjectScore s) then 1 else 0)
  + (if isSome (subjectRating s) then 1 else 0)
  + (if isSome (academicResult s) then 1 else 0)
  + (if isSome (conductRating s) then 1 else 0)
  + (if isSome (absences s) then 1 else 0).

(** The lines [parseStringData] goes through. *)
Definition linesOf (text : jsstring) : list jsstring :=
  splitLines text [] false.

(** The text of a decimal numeral: an optional minus sign, the digits of
    the integer part, an optional fraction and an optional exponent. *)
Definition expText (ex : option Z) : jsstring :=
  match ex with
  | None => []
  | Some e => 101 :: (if (e <? 0)%Z then 45 else 43) :: digitsOf (Z.abs_N e)
  end.

Definition fracText (fp : option jsstring) : jsstring :=
  match fp with
  | None => []
  | Some f => 46 :: f
  end.

Definition numeral (neg : bool) (ip : jsstring) (fp : option jsstring)
    (ex : option Z) : jsstring :=
  (if neg then [45] else []) ++ ip ++ fracText fp ++ expText ex.

(** The value such a numeral denotes. *)
Definition numeralValue (neg : bool) (ip : jsstring) (fp : option jsstring)
    (ex : option Z) : number :=
  let f := match fp with None => [] | Some f => f end in
  let v := digitsVal (ip ++ f) in
  scaleDec (if neg then - v else v)%Z
           (match ex with None => 0 | Some e => e end)%Z (List.length f).

(** A number in canonical form: the decimals of a finite one do not end
    with a zero. *)
Definition canonical (x : number) : Prop :=
  match x with
  | Dec m k => k = 0%nat \/ (m mod 10 <> 0)%Z
  | _ => True
  end.

(** The layout [Number::toString] gives to the significant digits [s] of
    a positive number whose decimal point is [n] digits from the left. *)
Definition formatBody (s : jsstring) (n : Z) : jsstring :=
  let kk := Z.of_nat (List.length s) in
  if (kk <=? n)%Z && (n <=? 21)%Z
  then s ++ repeat 48 (Z.to_nat (n - kk))
  else if (0 <? n)%Z && (n <=? 21)%Z
  then firstn (Z.to_nat n) s ++ js "." ++ skipn (Z.to_nat n) s
  else if (-6 <? n)%Z && (n <=? 0)%Z
  then js "0." ++ repeat 48 (Z.to_nat (- n)) ++ s
  else
    let e := (n - 1)%Z in
    let es := (if (e <? 0)%Z then js "-" else js "+")
              ++ digitsOf (Z.abs_N e) in
    match s with
    | [d] => [d] ++ js "e" ++ es
    | d :: r => [d] ++ js "." ++ r ++ js "e" ++ es
    | [] => []
    end.

(** A value with its sign. *)
Definition signed (neg : bool) (v : Z) : Z := if neg then (- v)%Z else v.

(** A service that is busy twice and then answers 7, and one that
    refuses the key. *)
Definition busyTwice : nat -> settled Z :=
  fun i => if (i <? 2)%nat then Rejected (Some (js "429 Too Many Requests"))
           else Fulfilled 7%Z.


(** What [/[\.\)\s]/] matches: a full stop, a closing parenthesis or a
    white space. *)
Definition isOrdinalMark (c : N) : bool :=
  (c =? 46) || (c =? 41) || isWhiteSpace c.

(** The first column of a line, trimmed ([name] in [parseStringData]). *)
Definition firstColumn (line : jsstring) : jsstring :=
  trim (nth 0 (partsOf (trim line)) []).

(* ------------------------------------------------------------------ *)
(** ** Basic facts about strings *)

Lemma str_eqb_eq (a b : jsstring) : str_eqb a b = true <-> a = b.
Proof.
  revert b; induction a as [|x a IH]; intros [|y b]; simpl;
    try (split; [discriminate | discriminate]); try tauto.
  rewrite andb_true_iff, N.eqb_eq, IH.
  split; [intros [-> ->]; reflexivity | intros H; inversion H; auto].
Qed.

Lemma str_eqb_refl (a : jsstring) : str_eqb a a = true.
Proof. apply str_eqb_eq; reflexivity. Qed.

Lemma someEq_In (l : list string) (s : jsstring) :
  someEq l s = true -> exists k, In k l /\ s = js k.
Proof.
  unfold someEq; rewrite existsb_exists.
  intros [k [Hin Heq]]; exists k; split; [assumption|].
  apply str_eqb_eq; assumption.
Qed.

Lemma span_all (p : N -> bool) (s : jsstring) :
  forallb p s = true -> span p s = (s, []).
Proof.
  induction s as [|c s IH]; simpl; [reflexivity|].
  rewrite andb_true_iff; intros [Hc Hs].
  rewrite Hc, (IH Hs); reflexivity.
Qed.

(* ------------------------------------------------------------------ *)
(** ** The row loop *)

Lemma forEachRow_acc role now rows i acc :
  forEachRow role now rows i acc = acc ++ forEachRow role now rows i [].
Proof.
  revert i acc; induction rows as [|r rows IH]; intros i acc; simpl.
  - rewrite app_nil_r; reflexivity.
  - destruct (parseRow role now i r) as [st|]; simpl.
    + rewrite (IH _ (acc ++ [st])), (IH _ [st]), app_assoc; reflexivity.
    + apply IH.
Qed.

(** Every pushed record comes from one row of the grid. *)
Lemma forEachRow_In role now rows i st :
  In st (forEachRow role now rows i []) ->
  exists j r, nth_error rows j = Some r
              /\ parseRow role now (i + j) r = Some st.
Proof.
  revert i; induction rows as [|r rows IH]; intros i; simpl; [tauto|].
  rewrite forEachRow_acc, in_app_iff.
  intros [H | H].
  - destruct (parseRow role now i r) as [s|] eqn:E; simpl in H; [|tauto].
    destruct H as [<- | []].
    exists 0%nat, r; split; [reflexivity|].
    rewrite Nat.add_0_r; assumption.
  - destruct (IH _ H) as [j [r' [Hn Hp]]].
    exists (S j), r'; split; [assumption|].
    rewrite Nat.add_succ_r; assumption.
Qed.

Lemma forEachRow_none role now rows i :
  (forall j r, nth_error rows j = Some r -> parseRow role now (i + j) r = None) ->
  forEachRow role now rows i [] = [].
Proof.
  revert i; induction rows as [|r rows IH]; intros i H; simpl; [reflexivity|].
  pose proof (H 0%nat r eq_refl) as H0.
  rewrite Nat.add_0_r in H0; rewrite H0.
  apply IH; intros j r' Hj.
  specialize (H (S j) r' Hj); rewrite Nat.add_succ_r in H; assumption.
Qed.

(** What [parseExcelData] returns once the grid of the first sheet is
    known. *)
Lemma parseExcelData_grid read role now g :
  firstGrid read = Some g ->
  parseExcelData read role now =
    match g with
    | [] => emptyResult
    | _ => {| students := forEachRow role now g 0 [];
              detectedSubject := detectSubject (firstn 5 g) |}
    end.
Proof.
  unfold firstGrid, parseExcelData, tryBlock, bind.
  destruct read as [wb|]; [|discriminate].
  destruct (SheetNames wb) as [[|n ns]|]; try discriminate.
  destruct (lookupSheet (Sheets wb) n) as [ws|]; [|discriminate].
  destruct (sheet_to_json ws) as [[raw|]|]; try discriminate.
  intros H; injection H as <-.
  destruct raw; reflexivity.
Qed.

(** Without such a grid the result is the empty one. *)
Lemma parseExcelData_nogrid read role now :
  firstGrid read = None -> parseExcelData read role now = emptyResult.
Proof.
  unfold firstGrid, parseExcelData, tryBlock, bind.
  destruct read as [wb|]; [|reflexivity].
  destruct (SheetNames wb) as [[|n ns]|]; try reflexivity.
  destruct (lookupSheet (Sheets wb) n) as [ws|]; [|reflexivity].
  destruct (sheet_to_json ws) as [[raw|]|]; try reflexivity.
  discriminate.
Qed.

(* ------------------------------------------------------------------ *)
(** ** Results that do not depend on the clock *)

Lemma parseRow_content role now1 now2 i r :
  match parseRow role now1 i r, parseRow role now2 i r with
  | Some a, Some b => sameContent a b
  | None, None => True
  | _, _ => False
  end.
Proof.
  unfold parseRow.
  destruct (List.length r =? 0)%nat; [exact I|].
  destruct (findName r) as [nameParts nameEndIndex].
  destruct (negb (nameFilter _)); [exact I|].
  destruct role.
  - destruct (subjectLoop r nameEndIndex (List.length r)) as [sc ra].
    destruct (negb (hasIndexOf r) && negb (isSome sc || isSome ra));
      [exact I|].
    unfold sameContent; simpl; repeat split; reflexivity.
  - destruct (homeroomLoop _ [] None) as [ratingsFound ab].
    destruct ratingsFound as [|a [|c rest]];
      match goal with
      | |- context [if ?b then _ else _] => destruct b; [exact I|]
      end;
      unfold sameContent; simpl; repeat split; reflexivity.
Qed.

Lemma forEachRow_content role now1 now2 rows i :
  Forall2 sameContent (forEachRow role now1 rows i [])
                      (forEachRow role now2 rows i []).
Proof.
  revert i; induction rows as [|r rows IH]; intros i; simpl; [constructor|].
  rewrite (forEachRow_acc role now1), (forEachRow_acc role now2).
  pose proof (parseRow_content role now1 now2 i r) as H.
  destruct (parseRow role now1 i r), (parseRow role now2 i r);
    try contradiction; simpl.
  - constructor; [assumption | apply IH].
  - apply IH.
Qed.

(** C8. Two runs of [parseExcelData] on the same input and role, reading
    different clocks, return student lists of the same length whose records
    agree pairwise on name, subjectScore, subjectRating, academicResult,
    conductRating and absences (and on comment and isProcessing), and the
    same detectedSubject: only the ids, which embed the timestamp, may
    differ. *)
Theorem parseExcelData_deterministic_content :
  forall (read : outcome WorkBook) (role : TeacherRole) (now1 now2 : nat -> Z),
    let r1 := parseExcelData read role now1 in
    let r2 := parseExcelData read role now2 in
    List.length (students r1) = List.length (students r2)
    /\ Forall2 sameContent (students r1) (students r2)
    /\ map fieldsOf (students r1) = map fieldsOf (students r2)
    /\ detectedSubject r1 = detectedSubject r2.
Proof.
  intros read role now1 now2 r1 r2.
  assert (HF : Forall2 sameContent (students r1) (students r2)
               /\ detectedSubject r1 = detectedSubject r2).
  { subst r1 r2.
    destruct (firstGrid read) as [g|] eqn:E.
    - rewrite !(parseExcelData_grid _ _ _ _ E).
      destruct g as [|r g]; [split; [constructor | reflexivity]|].
      split; [exact (forEachRow_content role now1 now2 (r :: g) 0)
             | reflexivity].
    - rewrite !(parseExcelData_nogrid _ _ _ E); simpl.
      split; [constructor | reflexivity]. }
  destruct HF as [HF HD].
  repeat split; try assumption.
  - eapply Forall2_length; eassumption.
  - clear HD; induction HF as [|a b la lb Hab _ IH]; simpl; [reflexivity|].
    rewrite IH; f_equal.
    destruct Hab as (H1 & H2 & H3 & H4 & H5 & H6 & _).
    unfold fieldsOf; rewrite H1, H2, H3, H4, H5, H6; reflexivity.
Qed.

(** C10. The detected subject depends on the first five rows of the grid
    only: two workbooks whose first sheets agree on rows 0 to 4 give the
    same detectedSubject, whatever the other rows, the roles and the clocks
    are. *)
Theorem detectedSubject_first_five_rows :
  forall (read1 read2 : outcome WorkBook) (g1 g2 : list row)
         (role1 role2 : TeacherRole) (now1 now2 : nat -> Z),
    firstGrid read1 = Some g1 ->
    firstGrid read2 = Some g2 ->
    firstn 5 g1 = firstn 5 g2 ->
    detectedSubject (parseExcelData read1 role1 now1)
    = detectedSubject (parseExcelData read2 role2 now2).
Proof.
  intros read1 read2 g1 g2 role1 role2 now1 now2 H1 H2 H5.
  rewrite (parseExcelData_grid _ _ _ _ H1), (parseExcelData_grid _ _ _ _ H2).
  destruct g1 as [|a g1], g2 as [|b g2]; simpl in *; try discriminate;
    try reflexivity.
  rewrite H5; reflexivity.
Qed.

(* ------------------------------------------------------------------ *)
(** ** Subject detection *)

Lemma firstGroup_label fh table s :
  firstGroup fh table = Some s -> In s (map (fun p => js (snd p)) table).
Proof.
  induction table as [|[keys label] table IH]; simpl; [discriminate|].
  destruct (someIncluded keys fh).
  - intros H; injection H as <-; left; reflexivity.
  - intros H; right; apply IH; assumption.
Qed.

Lemma firstGroup_none fh table :
  (forall k, In k (flat_map fst table) -> includes fh (js k) = false) ->
  firstGroup fh table = None.
Proof.
  induction table as [|[keys label] table IH]; simpl; intros H;
    [reflexivity|].
  assert (Hk : someIncluded keys fh = false).
  { unfold someIncluded.
    destruct (existsb _ keys) eqn:E; [|reflexivity].
    apply existsb_exists in E; destruct E as [k [Hin Hinc]].
    rewrite H in Hinc; [discriminate | apply in_or_app; left; assumption]. }
  rewrite Hk; apply IH; intros k Hin; apply H, in_or_app; right; assumption.
Qed.

Lemma detectSubject_toan headers :
  includes (flatHeadersOf headers) (js "toán") = true ->
  detectSubject headers = Some (js "Toán").
Proof.
  intros H; unfold detectSubject, subjectTable.
  cbv beta iota delta [firstGroup someIncluded existsb fst snd].
  rewrite H; reflexivity.
Qed.

(** C6. When the lower-cased text of the first five rows contains "toán",
    the detected subject is "Toán"; when it contains none of the keywords
    that are looked for, none is detected; and a detected subject is always
    one of the twelve canonical labels. *)
Theorem detectedSubject_spec :
  forall (read : outcome WorkBook) (role : TeacherRole) (now : nat -> Z),
    (forall g, firstGrid read = Some g ->
       includes (flatHeadersOf (firstn 5 g)) (js "toán") = true ->
       detectedSubject (parseExcelData read role now) = Some (js "Toán"))
    /\ (forall g, firstGrid read = Some g ->
          (forall k, In k subjectKeywords ->
             includes (flatHeadersOf (firstn 5 g)) (js k) = false) ->
          detectedSubject (parseExcelData read role now) = None)
    /\ (forall s, detectedSubject (parseExcelData read role now) = Some s ->
          In s subjectLabels).
Proof.
  intros read role now; repeat split.
  - intros g Hg Hinc.
    rewrite (parseExcelData_grid _ _ _ _ Hg).
    destruct g as [|r g]; [discriminate Hinc|].
    apply detectSubject_toan; assumption.
  - intros g Hg Hnone.
    rewrite (parseExcelData_grid _ _ _ _ Hg).
    destruct g as [|r g]; [reflexivity|].
    apply firstGroup_none; assumption.
  - intros s.
    destruct (firstGrid read) as [g|] eqn:Hg.
    + rewrite (parseExcelData_grid _ _ _ _ Hg).
      destruct g as [|r g]; [discriminate|].
      intros H; apply firstGroup_label in H; exact H.
    + rewrite (parseExcelData_nogrid _ _ _ Hg); discriminate.
Qed.

(* ------------------------------------------------------------------ *)
(** ** Degenerate inputs *)

(** C7. [parseExcelData] returns a result on every input, an exception of
    the spreadsheet library included, and the students list is empty when
    the bytes cannot be read as a workbook, when the workbook names no
    sheet or lacks the sheet it names, when the grid conversion throws or
    gives nothing or an empty grid, and when no row of the grid
    qualifies. *)
Theorem parseExcelData_never_throws :
  forall (read : outcome WorkBook) (role : TeacherRole) (now : nat -> Z),
    (exists result, parseExcelData read role now = result
       /\ (tryBlock read role now = Throws -> result = emptyResult))
    /\ (read = Throws -> students (parseExcelData read role now) = [])
    /\ (forall wb, read = Returns wb ->
          SheetNames wb = None \/ SheetNames wb = Some [] ->
          students (parseExcelData read role now) = [])
    /\ (forall wb n ns, read = Returns wb ->
          SheetNames wb = Some (n :: ns) ->
          lookupSheet (Sheets wb) n = None ->
          students (parseExcelData read role now) = [])
    /\ (forall wb n ns ws, read = Returns wb ->
          SheetNames wb = Some (n :: ns) ->
          lookupSheet (Sheets wb) n = Some ws ->
          sheet_to_json ws = Throws \/ sheet_to_json ws = Returns None
          \/ sheet_to_json ws = Returns (Some []) ->
          students (parseExcelData read role now) = [])
    /\ (forall g, firstGrid read = Some g ->
          (forall i r, nth_error g i = Some r -> parseRow role now i r = None) ->
          students (parseExcelData read role now) = []).
Proof.
  intros read role now; repeat split.
  - eexists; split; [reflexivity|].
    unfold parseExcelData; intros ->; reflexivity.
  - intros ->; reflexivity.
  - intros wb -> [H | H]; unfold parseExcelData, tryBlock, bind;
      rewrite H; reflexivity.
  - intros wb n ns -> Hn Hl; unfold parseExcelData, tryBlock, bind.
    rewrite Hn, Hl; reflexivity.
  - intros wb n ns ws -> Hn Hl [H | [H | H]];
      unfold parseExcelData, tryBlock, bind; rewrite Hn, Hl, H; reflexivity.
  - intros g Hg Hrows.
    rewrite (parseExcelData_grid _ _ _ _ Hg).
    destruct g as [|r g]; [reflexivity|].
    cbn [students]; apply forEachRow_none.
    intros j r' Hj; apply Hrows; assumption.
Qed.

(* ------------------------------------------------------------------ *)
(** ** The backward scan of the subject mode *)

Lemma firstn_snoc (r : row) (j : nat) :
  (j < List.length r)%nat -> firstn (S j) r = firstn j r ++ [at_index r j].
Proof.
  revert j; induction r as [|c r IH]; intros j Hj; simpl in Hj; [lia|].
  destruct j as [|j]; [reflexivity|].
  change (firstn (S (S j)) (c :: r)) with (c :: firstn (S j) r).
  rewrite IH by lia; reflexivity.
Qed.

(** One turn of the loop body, read through [scoreOf] and
    [subjectRatingOf]. *)
Lemma subjectLoop_step (r : row) (e : Z) (j : nat) :
  (Z.of_nat j > e)%Z ->
  subjectLoop r e (S j) =
    if settles (at_index r j)
    then (scoreOf (at_index r j), subjectRatingOf (at_index r j))
    else subjectLoop r e j.
Proof.
  intros Hj; cbn [subjectLoop].
  replace (Z.of_nat j >? e)%Z with true by (symmetry; apply Z.gtb_lt; lia).
  unfold settles, scoreOf, subjectRatingOf.
  destruct (isBlank (at_index r j)); [reflexivity|].
  destruct (isNaN (parseFloat _)); cbn [negb andb].
  - destruct (isSubjectRating _); reflexivity.
  - destruct (num_geb _ 0 && num_leb _ 10); reflexivity.
Qed.

Lemma subjectLoop_spec (r : row) (e : Z) (n : nat) :
  (n <= List.length r)%nat ->
  subjectLoop r e n
  = firstSettled (rev (skipn (Z.to_nat (e + 1)) (firstn n r))).
Proof.
  induction n as [|j IH]; intros Hn.
  - cbn [subjectLoop firstn]. rewrite skipn_nil; reflexivity.
  - destruct (Z.of_nat j >? e)%Z eqn:Hj.
    + apply Z.gtb_lt in Hj.
      rewrite subjectLoop_step by lia.
      rewrite firstn_snoc by lia.
      rewrite skipn_app, length_firstn.
      replace (Z.to_nat (e + 1) - Nat.min j (List.length r))%nat with 0%nat
        by lia.
      cbn [skipn]; rewrite rev_app_distr; cbn [rev app].
      unfold firstSettled at 1; cbn [find].
      destruct (settles (at_index r j)); [reflexivity|].
      rewrite IH by lia; reflexivity.
    + cbn [subjectLoop]; rewrite Hj.
      rewrite skipn_all2; [reflexivity|].
      rewrite length_firstn.
      assert (~ (Z.of_nat j > e)%Z) by (rewrite <- Z.gtb_gt; congruence).
      lia.
Qed.

(** A cell never holds both a score and a subject rating. *)
Lemma score_or_rating (c : cell) :
  scoreOf c = None \/ subjectRatingOf c = None.
Proof.
  unfold scoreOf, subjectRatingOf.
  destruct (isBlank c); [left; reflexivity|].
  destruct (isNaN (parseFloat _)); cbn [negb andb];
    [left | right]; reflexivity.
Qed.

Lemma firstSettled_at_most_one (visited : list cell) :
  fst (firstSettled visited) = None \/ snd (firstSettled visited) = None.
Proof.
  unfold firstSettled; destruct (find settles visited) as [c|]; cbn [fst snd].
  - apply score_or_rating.
  - left; reflexivity.
Qed.

Lemma firstSettled_none (visited : list cell) :
  (forall c, In c visited -> settles c = false) ->
  firstSettled visited = (None, None).
Proof.
  intros H; unfold firstSettled.
  destruct (find settles visited) as [c|] eqn:E; [|reflexivity].
  apply find_some in E; destruct E as [Hin Hs].
  rewrite (H c Hin) in Hs; discriminate.
Qed.

(** In a scored result the score lies in [0, 10]. *)
Lemma scoreOf_range (c : cell) (x : number) :
  scoreOf c = Some x -> num_geb x 0 && num_leb x 10 = true.
Proof.
  unfold scoreOf; destruct (isBlank c); [discriminate|].
  destruct (negb _ && num_geb _ 0 && num_leb _ 10) eqn:E; [|discriminate].
  intros H; injection H as <-.
  apply andb_true_iff in E; destruct E as [E1 E3].
  apply andb_true_iff in E1; destruct E1 as [_ E2].
  rewrite E2, E3; reflexivity.
Qed.

(* ------------------------------------------------------------------ *)
(** ** What one row yields *)

Lemma parseRow_subject (now : nat -> Z) (i : nat) (r : row) :
  parseRow SUBJECT now i r =
    if (List.length r =? 0)%nat then None
    else if negb (nameFilter (fullNameOf r)) then None
    else
      let found := firstSettled (rev (rightOfName r)) in
      if negb (hasIndexOf r) && negb (isSome (fst found) || isSome (snd found))
      then None
      else Some {|
        id := xlsId (now i) i; name := fullNameOf r; comment := [];
        isProcessing := false;
        subjectScore := fst found; subjectRating := snd found;
        academicResult := None; conductRating := None; absences := None |}.
Proof.
  unfold parseRow, fullNameOf, rightOfName, nameEndOf.
  destruct (List.length r =? 0)%nat; [reflexivity|].
  destruct (findName r) as [nameParts nameEndIndex]; cbn [fst snd].
  destruct (negb (nameFilter _)); [reflexivity|].
  rewrite subjectLoop_spec by lia.
  rewrite firstn_all.
  destruct (firstSettled _) as [sc ra]; reflexivity.
Qed.

(* ------------------------------------------------------------------ *)
(** ** The forward scan of the homeroom mode *)

Lemma digit_cases (c : N) :
  isDigit c = true ->
  c = 48 \/ c = 49 \/ c = 50 \/ c = 51 \/ c = 52 \/ c = 53 \/ c = 54
  \/ c = 55 \/ c = 56 \/ c = 57.
Proof.
  unfold isDigit; rewrite andb_true_iff, !N.leb_le; lia.
Qed.

Lemma digit_upper (c : N) : isDigit c = true -> toUpperUnit c = c.
Proof.
  intros H; apply digit_cases in H.
  repeat (destruct H as [-> | H]; [reflexivity|]); subst; reflexivity.
Qed.

(** A rating code is never a string of digits, so that no cell counts both
    as a rating and as an absence. *)
Lemma rating_not_digits (str : jsstring) :
  isHomeroomRating (toUpperCase str) = true -> allDigits str = false.
Proof.
  intros H; apply someEq_In in H; destruct H as [k [Hin Hk]].
  destruct str as [|c s]; [reflexivity|].
  cbn [allDigits forallb].
  destruct (isDigit c) eqn:Hd; [|reflexivity].
  exfalso.
  cbn [toUpperCase map] in Hk; rewrite (digit_upper _ Hd) in Hk.
  cbn [In] in Hin.
  repeat (destruct Hin as [<- | Hin];
          [vm_compute in Hk; injection Hk as -> _; discriminate Hd|]);
    contradiction.
Qed.

Lemma rating_excludes_absence (c : cell) :
  homeroomRatingOf c <> None -> absenceOf c = None.
Proof.
  unfold homeroomRatingOf, absenceOf.
  destruct (isBlank c); [reflexivity|].
  destruct (isHomeroomRating _) eqn:E; [|congruence].
  rewrite (rating_not_digits _ E); reflexivity.
Qed.

Lemma lastOf_cons {A : Type} (a : A) (l : list A) :
  lastOf (a :: l) = match lastOf l with Some x => Some x | None => Some a end.
Proof.
  unfold lastOf; cbn [rev].
  destruct (rev l) as [|x l']; reflexivity.
Qed.

Lemma homeroomLoop_spec (cells : list cell) (found : list jsstring)
    (ab : option number) :
  homeroomLoop cells found ab =
    (found ++ collect homeroomRatingOf cells,
     match lastOf (collect absenceOf cells) with
     | Some n => Some n
     | None => ab
     end).
Proof.
  revert found ab; induction cells as [|c cells IH]; intros found ab.
  - cbn [homeroomLoop collect]; rewrite app_nil_r; reflexivity.
  - cbn [homeroomLoop collect].
    pose proof (rating_excludes_absence c) as Hex.
    unfold homeroomRatingOf, absenceOf in *.
    destruct (isBlank c); [apply IH|].
    destruct (isHomeroomRating _) eqn:Er.
    + rewrite Hex by discriminate.
      rewrite IH, <- app_assoc; reflexivity.
    + destruct (allDigits _); cbn [andb]; [|apply IH].
      destruct (num_geb _ 0 && num_ltb _ 60); [|apply IH].
      rewrite IH, lastOf_cons.
      destruct (lastOf _); reflexivity.
Qed.

Lemma parseRow_homeroom (now : nat -> Z) (i : nat) (r : row) :
  parseRow HOMEROOM now i r =
    if (List.length r =? 0)%nat then None
    else if negb (nameFilter (fullNameOf r)) then None
    else
      let ratings := collect homeroomRatingOf (rightOfName r) in
      let ab := lastOf (collect absenceOf (rightOfName r)) in
      if negb (hasIndexOf r)
         && negb (isSome (nth_error ratings 0) || isSome (nth_error ratings 1)
                  || isSome ab)
      then None
      else Some {|
        id := xlsId (now i) i; name := fullNameOf r; comment := [];
        isProcessing := false;
        subjectScore := None; subjectRating := None;
        academicResult := nth_error ratings 0;
        conductRating := nth_error ratings 1;
        absences := ab |}.
Proof.
  unfold parseRow, fullNameOf, rightOfName, nameEndOf.
  destruct (List.length r =? 0)%nat; [reflexivity|].
  destruct (findName r) as [nameParts nameEndIndex]; cbn [fst snd].
  destruct (negb (nameFilter _)); [reflexivity|].
  rewrite homeroomLoop_spec; cbn [app].
  destruct (collect homeroomRatingOf _) as [|a [|c rest]];
    destruct (lastOf _); reflexivity.
Qed.

(* ------------------------------------------------------------------ *)
(** ** The name span *)

Lemma allDigits_hasDigit (s : jsstring) :
  allDigits s = true -> hasDigit s = true.
Proof.
  destruct s as [|c s]; [discriminate|].
  cbn [allDigits forallb hasDigit existsb].
  rewrite andb_true_iff; intros [-> _]; reflexivity.
Qed.

Lemma namePart_not_index (c : cell) :
  isNamePart c = true -> isIndexLike c = false.
Proof.
  destruct c as [| |x|s|b]; try discriminate.
  cbn [isNamePart isIndexLike]; unfold isNamePartStr.
  destruct (List.length (trim s) =? 0)%nat; [discriminate|].
  destruct (hasDigit (trim s)) eqn:E; [discriminate|].
  intros _; destruct (allDigits (trim s)) eqn:E'; [|reflexivity].
  apply allDigits_hasDigit in E'; congruence.
Qed.

(** Before the first name part, every cell that is not a name-part
    candidate is passed over. *)
Lemma nameLoop_search (pre rest : list cell) (i e : Z) :
  Forall (fun c => isNamePart c = false) pre ->
  nameLoop (pre ++ rest) i [] e
  = nameLoop rest (i + Z.of_nat (List.length pre)) [] e.
Proof.
  intros H; revert i; induction H as [|c pre Hc _ IH]; intros i.
  - cbn [app List.length Z.of_nat]; rewrite Z.add_0_r; reflexivity.
  - cbn [app nameLoop List.length Nat.eqb andb]; rewrite Hc.
    rewrite IH, Nat2Z.inj_succ.
    replace (i + 1 + Z.of_nat (List.length pre))%Z
      with (i + Z.succ (Z.of_nat (List.length pre)))%Z by lia.
    destruct (isIndexLike c); reflexivity.
Qed.

(** Once a name part was found, the span goes on over [n] cells, each a
    name part or a blank followed by one, and stops there. *)
Lemma nameLoop_span (cells : list cell) :
  forall (n : nat) (i : Z) (parts : list jsstring) (e : Z),
    parts <> [] ->
    (n <= List.length cells)%nat ->
    (forall j, (j < n)%nat -> continuesName cells j = true) ->
    ((n < List.length cells)%nat -> continuesName cells n = false) ->
    nameLoop cells i parts e
    = (parts ++ namePartsOf (firstn n cells),
       if (n =? 0)%nat then e else (i + Z.of_nat n - 1)%Z).
Proof.
  induction cells as [|c rest IH]; intros n i parts e Hp Hn Hgo Hstop.
  - assert (n = 0%nat) by (cbn in Hn; lia); subst n.
    cbn; rewrite app_nil_r; reflexivity.
  - assert (Hlen : (List.length parts =? 0)%nat = false).
    { destruct parts; [congruence | reflexivity]. }
    cbn [nameLoop]; rewrite Hlen; cbn [andb].
    destruct n as [|n].
    + assert (H0 : continuesName (c :: rest) 0 = false)
        by (apply Hstop; cbn; lia).
      unfold continuesName in H0.
      change (at_index (c :: rest) 0) with c in H0.
      change (at_index (c :: rest) 1) with (at_index rest 0) in H0.
      apply orb_false_iff in H0; destruct H0 as [Hc Hb]; rewrite Hc.
      cbn [firstn Nat.eqb]; unfold namePartsOf; cbn [filter map].
      rewrite app_nil_r.
      destruct (isBlank c); [|reflexivity].
      cbn [andb] in Hb; rewrite Hb; reflexivity.
    + assert (H0 : continuesName (c :: rest) 0 = true)
        by (apply Hgo; lia).
      assert (Hgo' : forall j, (j < n)%nat -> continuesName rest j = true).
      { intros j Hj; apply (Hgo (S j)); lia. }
      assert (Hstop' : (n < List.length rest)%nat ->
                       continuesName rest n = false).
      { intros Hj; apply (Hstop); cbn; lia. }
      cbn [List.length] in Hn.
      unfold continuesName in H0.
      change (at_index (c :: rest) 0) with c in H0.
      change (at_index (c :: rest) 1) with (at_index rest 0) in H0.
      cbn [firstn Nat.eqb]; unfold namePartsOf; cbn [filter].
      destruct (isNamePart c) eqn:Hc.
      * rewrite (IH n (i + 1)%Z _ i) by
          (try assumption; try lia; intros E;
           apply app_eq_nil in E; destruct E; discriminate).
        cbn [map]; rewrite <- app_assoc; cbn [app].
        unfold namePartsOf; f_equal.
        destruct n; cbn [Nat.eqb]; lia.
      * cbn [orb] in H0; apply andb_true_iff in H0; destruct H0 as [Hb Hnext].
        rewrite Hb, Hnext.
        rewrite (IH n (i + 1)%Z parts e) by (try assumption; lia).
        unfold namePartsOf; f_equal.
        destruct n as [|n]; [|cbn [Nat.eqb]; lia].
        exfalso.
        destruct rest as [|c' rest]; [discriminate Hnext|].
        assert (Hf : continuesName (c' :: rest) 0 = false)
          by (apply Hstop'; cbn; lia).
        unfold continuesName in Hf.
        change (at_index (c' :: rest) 0) with c' in *.
        rewrite Hnext in Hf; discriminate.
Qed.

Lemma at_index_skipn (r : row) (k j : nat) :
  at_index (skipn k r) j = at_index r (k + j).
Proof.
  revert r; induction k as [|k IH]; intros r; [reflexivity|].
  destruct r as [|c r]; [destruct j; reflexivity|].
  cbn [skipn Nat.add]; rewrite IH; reflexivity.
Qed.

Lemma skipn_cons_at (r : row) (s : nat) :
  (s < List.length r)%nat -> skipn s r = at_index r s :: skipn (S s) r.
Proof.
  revert r; induction s as [|s IH]; intros [|c r] H; cbn in H; try lia.
  - reflexivity.
  - cbn [skipn]; rewrite IH by lia; reflexivity.
Qed.

Lemma Forall_firstn_at (P : cell -> Prop) (r : row) (s : nat) :
  (s <= List.length r)%nat ->
  (forall i, (i < s)%nat -> P (at_index r i)) -> Forall P (firstn s r).
Proof.
  revert r; induction s as [|s IH]; intros r Hs H; [constructor|].
  destruct r as [|c r]; [cbn in Hs; lia|].
  cbn [firstn]; constructor.
  - apply (H 0%nat); lia.
  - apply IH; [cbn in Hs; lia|].
    intros i Hi; apply (H (S i)); lia.
Qed.

(** The name span of a row whose first name part is in column [s] and
    whose first later column that does not go on with the name is [t]. *)
Lemma findName_span (r : row) (s t : nat) :
  (forall i, (i < s)%nat -> isNamePart (at_index r i) = false) ->
  isNamePart (at_index r s) = true ->
  (s < t <= List.length r)%nat ->
  (forall i, (s < i < t)%nat -> continuesName r i = true) ->
  ((t < List.length r)%nat -> continuesName r t = false) ->
  findName r = (namePartsOf (firstn (t - s) (skipn s r)), (Z.of_nat t - 1)%Z).
Proof.
  intros Hpre Hs Ht Hgo Hstop.
  unfold findName.
  rewrite <- (firstn_skipn s r) at 1.
  rewrite nameLoop_search by (apply Forall_firstn_at; [lia | assumption]).
  rewrite length_firstn, Nat.min_l by lia.
  rewrite skipn_cons_at by lia.
  cbn [nameLoop List.length Nat.eqb andb].
  rewrite (namePart_not_index _ Hs), Hs; cbn [app].
  replace (t - s)%nat with (S (t - s - 1)) by lia.
  cbn [firstn]; unfold namePartsOf at 1; cbn [filter]; rewrite Hs; cbn [map].
  rewrite (nameLoop_span _ (t - s - 1)).
  - cbn [app]; f_equal.
    destruct (t - s - 1)%nat eqn:E; cbn [Nat.eqb]; lia.
  - discriminate.
  - rewrite length_skipn; lia.
  - intros j Hj; unfold continuesName; rewrite !at_index_skipn.
    replace (S s + S j)%nat with (S (S s + j)) by lia.
    apply (Hgo (S s + j)%nat); lia.
  - rewrite length_skipn; intros Hj.
    unfold continuesName; rewrite !at_index_skipn.
    replace (S s + (t - s - 1))%nat with t by lia.
    replace (S s + S (t - s - 1))%nat with (S t) by lia.
    apply Hstop; lia.
Qed.

(* ------------------------------------------------------------------ *)
(** ** The leading index *)

Lemma readDecimalLiteral_digits (t : jsstring) :
  allDigits t = true -> readDecimalLiteral t = (Dec (digitsVal t) 0, []).
Proof.
  destruct t as [|c t]; [discriminate|].
  cbn [allDigits]; intros H.
  pose proof (span_all _ _ H) as Hspan.
  cbn [forallb] in H; apply andb_true_iff in H; destruct H as [Hc _].
  unfold readDecimalLiteral.
  assert (Hsign : readSign (c :: t) = (false, c :: t)).
  { apply digit_cases in Hc.
    repeat (destruct Hc as [-> | Hc]; [reflexivity|]); subst; reflexivity. }
  assert (Hinf : startsWith (c :: t) (js "Infinity") = false).
  { apply digit_cases in Hc.
    repeat (destruct Hc as [-> | Hc]; [reflexivity|]); subst; reflexivity. }
  rewrite Hsign, Hinf, Hspan.
  cbn [readExponent List.length]; rewrite app_nil_r.
  unfold scaleDec; cbn [Z.of_nat Z.sub Z.opp Z.add Z.leb Z.compare Z.pow Z.pow_pos
                        Pos.iter].
  rewrite Z.mul_1_r; reflexivity.
Qed.

Lemma stringToNumber_digits (s : jsstring) :
  allDigits (trim s) = true -> stringToNumber s = Dec (digitsVal (trim s)) 0.
Proof.
  intros H; unfold stringToNumber.
  destruct (trim s) as [|c t] eqn:E; [discriminate|].
  rewrite (readDecimalLiteral_digits _ H); reflexivity.
Qed.

(** The STT check accepts exactly the first cells described by
    [holdsLeadingIndex]. *)
Lemma hasIndexOf_holds (r : row) :
  hasIndexOf r = holdsLeadingIndex (at_index r 0).
Proof.
  unfold hasIndexOf.
  destruct (at_index r 0) as [| |x|s|b]; try reflexivity.
  cbn [isIndexLike holdsLeadingIndex toNumber].
  destruct (allDigits (trim s)) eqn:E; [|reflexivity].
  rewrite (stringToNumber_digits _ E).
  unfold num_gtb, num_ltb; cbn [andb].
  reflexivity.
Qed.

Lemma findName_no_part (r : row) :
  (forall c, In c r -> isNamePart c = false) -> findName r = ([], (-1)%Z).
Proof.
  intros H; unfold findName.
  rewrite <- (app_nil_r r) at 1.
  rewrite nameLoop_search by (apply Forall_forall; assumption).
  reflexivity.
Qed.

(* ------------------------------------------------------------------ *)
(** ** Subject mode: one score or one rating *)

(** What an emitted record of the subject mode holds. *)
Lemma parseRow_subject_inv (now : nat -> Z) (i : nat) (r : row)
    (st : StudentData) :
  parseRow SUBJECT now i r = Some st ->
  (subjectScore st, subjectRating st) = firstSettled (rev (rightOfName r))
  /\ name st = fullNameOf r /\ nameFilter (fullNameOf r) = true
  /\ academicResult st = None /\ conductRating st = None
  /\ absences st = None
  /\ (hasIndexOf r = false ->
      isSome (subjectScore st) || isSome (subjectRating st) = true).
Proof.
  intros H; rewrite parseRow_subject in H.
  destruct (List.length r =? 0)%nat; [discriminate|].
  destruct (nameFilter _) eqn:Hf; cbn [negb] in H; [|discriminate].
  cbv zeta in H.
  destruct (negb (hasIndexOf r) && _) eqn:Hgate; [discriminate|].
  injection H as <-.
  cbn [subjectScore subjectRating academicResult conductRating absences name].
  repeat split.
  - destruct (firstSettled _); reflexivity.
  - intros Hidx; rewrite Hidx in Hgate.
    cbn [negb andb] in Hgate; apply negb_false_iff in Hgate; exact Hgate.
Qed.

(** C1 (as the code has it). In SUBJECT mode the cells strictly to the
    right of the name span are visited from the last one backward, blank
    cells being passed over, and the first cell that either parses as a
    number in [0, 10] or, not parsing as a number, matches the rating
    codes decides: the former sets subjectScore, the latter sets
    subjectRating, and the search stops there.  At most one of the two is
    set, and a score lies in [0, 10]. *)
Theorem subject_scan_first_settling_cell :
  forall (now : nat -> Z) (i : nat) (r : row) (st : StudentData),
    parseRow SUBJECT now i r = Some st ->
    (subjectScore st, subjectRating st) = firstSettled (rev (rightOfName r))
    /\ (subjectScore st = None \/ subjectRating st = None)
    /\ (forall x, subjectScore st = Some x ->
          num_geb x 0 && num_leb x 10 = true).
Proof.
  intros now i r st H.
  destruct (parseRow_subject_inv _ _ _ _ H) as [Hsc _].
  split; [exact Hsc|].
  pose proof (firstSettled_at_most_one (rev (rightOfName r))) as Hone.
  rewrite <- Hsc in Hone; cbn [fst snd] in Hone.
  split; [exact Hone|].
  intros x Hx; revert Hsc; rewrite Hx; unfold firstSettled.
  destruct (find settles _) as [c|]; intros E; [|discriminate E].
  injection E as E _; symmetry in E; exact (scoreOf_range _ _ E).
Qed.

Lemma subject_scan_first_settling_cell_witness :
  exists st, parseRow SUBJECT clock0 0 rowAn = Some st
    /\ (subjectScore st, subjectRating st)
       = firstSettled (rev (rightOfName rowAn))
    /\ (subjectScore st = None \/ subjectRating st = None)
    /\ (forall x, subjectScore st = Some x ->
          num_geb x 0 && num_leb x 10 = true).
Proof.
  destruct (parseRow SUBJECT clock0 0 rowAn) as [st|] eqn:E;
    [|vm_compute in E; discriminate E].
  exists st; split; [reflexivity|].
  exact (subject_scan_first_settling_cell clock0 0 rowAn st E).
Defined.

(** C1, as stated, fails: in the row ["1", "Nguyễn Văn An", "8.5", "K"]
    the name span ends in column 1 and column 2 holds a number in
    [0, 10], yet the rating "K" of the last column is taken and no score
    is set. *)
Lemma subject_scan_rating_hides_score :
  nameEndOf rowScoreThenRating = 1%Z
  /\ scoreOf (at_index rowScoreThenRating 2) = Some (Dec 85 1)
  /\ map (fun s => (subjectScore s, subjectRating s))
         (students (parseExcelData (workbookOf [rowScoreThenRating])
                                   SUBJECT clock0))
     = [(None, Some (js "K"))].
Proof. vm_compute; repeat split. Qed.

(** C4 (as the code has it). Every record emitted in SUBJECT mode comes
    from a row of the grid, carries at most one of subjectScore and
    subjectRating, namely what the first settling cell met from the last
    column backward gives, and none of the homeroom fields; exactly one of
    the two is set when the row has no leading index, and both may be
    unset when it has one. *)
Theorem subject_records_at_most_one :
  forall (read : outcome WorkBook) (now : nat -> Z) (st : StudentData),
    In st (students (parseExcelData read SUBJECT now)) ->
    (subjectScore st = None \/ subjectRating st = None)
    /\ academicResult st = None /\ conductRating st = None
    /\ absences st = None
    /\ exists g i r,
         firstGrid read = Some g /\ nth_error g i = Some r
         /\ (subjectScore st, subjectRating st)
            = firstSettled (rev (rightOfName r))
         /\ (holdsLeadingIndex (at_index r 0) = false ->
             isSome (subjectScore st) || isSome (subjectRating st) = true).
Proof.
  intros read now st Hin.
  destruct (firstGrid read) as [g|] eqn:Hg.
  2:{ rewrite (parseExcelData_nogrid _ _ _ Hg) in Hin; destruct Hin. }
  rewrite (parseExcelData_grid _ _ _ _ Hg) in Hin.
  destruct g as [|r0 g]; [destruct Hin|].
  cbn [students] in Hin.
  apply forEachRow_In in Hin; destruct Hin as [j [r [Hn Hp]]].
  cbn [Nat.add] in Hp.
  destruct (parseRow_subject_inv _ _ _ _ Hp)
    as (Hsc & _ & _ & Ha & Hc & Hab & Hgate).
  pose proof (firstSettled_at_most_one (rev (rightOfName r))) as Hone.
  rewrite <- Hsc in Hone; cbn [fst snd] in Hone.
  repeat split; try assumption.
  exists (r0 :: g), j, r; repeat split; try assumption.
  intros Hidx; apply Hgate; rewrite hasIndexOf_holds; exact Hidx.
Qed.

Lemma subject_records_at_most_one_witness :
  exists st,
    In st (students (parseExcelData (workbookOf [rowAn]) SUBJECT clock0))
    /\ (subjectScore st = None \/ subjectRating st = None)
    /\ subjectScore st = Some (Dec 85 1).
Proof.
  destruct (students (parseExcelData (workbookOf [rowAn]) SUBJECT clock0))
    as [|st l] eqn:E; [vm_compute in E; discriminate E|].
  exists st; split; [left; reflexivity|].
  split.
  - apply (subject_records_at_most_one (workbookOf [rowAn]) clock0 st).
    rewrite E; left; reflexivity.
  - vm_compute in E; injection E as <- _; reflexivity.
Defined.

(** C4, as stated, fails: the row ["1", "Nguyễn Văn An"] is emitted in
    SUBJECT mode with neither a score nor a rating. *)
Lemma subject_record_with_neither :
  map (fun s => (name s, subjectScore s, subjectRating s))
      (students (parseExcelData (workbookOf [rowIndexOnly]) SUBJECT clock0))
  = [(js "Nguyễn Văn An", None, None)].
Proof. vm_compute; reflexivity. Qed.

(* ------------------------------------------------------------------ *)
(** ** Homeroom mode: ratings by position and the absence count *)

(** C2. In HOMEROOM mode the cells to the right of the name span are
    visited left to right: the ratings found are the rating cells in
    encounter order, no rating cell is an absence cell, the absence count is
    the last cell that is a bare integer in [0, 60), the first rating found
    becomes academicResult, the second conductRating and the others are
    dropped; and the row ["3", "Lê Văn Cường", "T", "Đ", "2"] yields "T",
    "Đ" and 2. *)
Theorem homeroom_scan_spec :
  (forall (now : nat -> Z) (i : nat) (r : row) (st : StudentData),
     parseRow HOMEROOM now i r = Some st ->
     homeroomLoop (rightOfName r) [] None
     = (collect homeroomRatingOf (rightOfName r),
        lastOf (collect absenceOf (rightOfName r)))
     /\ (forall c, homeroomRatingOf c <> None -> absenceOf c = None)
     /\ academicResult st
        = nth_error (collect homeroomRatingOf (rightOfName r)) 0
     /\ conductRating st
        = nth_error (collect homeroomRatingOf (rightOfName r)) 1
     /\ absences st = lastOf (collect absenceOf (rightOfName r))
     /\ subjectScore st = None /\ subjectRating st = None)
  /\ map fieldsOf
         (students (parseExcelData (workbookOf [rowCuong]) HOMEROOM clock0))
     = [(js "Lê Văn Cường", None, None, Some (js "T"), Some (js "Đ"),
         Some (Dec 2 0))].
Proof.
  split; [|vm_compute; reflexivity].
  intros now i r st H.
  split.
  { rewrite homeroomLoop_spec; cbn [app].
    destruct (lastOf _); reflexivity. }
  split; [exact rating_excludes_absence|].
  rewrite parseRow_homeroom in H.
  destruct (List.length r =? 0)%nat; [discriminate|].
  destruct (negb (nameFilter _)); [discriminate|].
  cbv zeta in H.
  destruct (negb (hasIndexOf r) && _); [discriminate|].
  injection H as <-; repeat split.
Qed.

Lemma homeroom_scan_spec_witness :
  exists st, parseRow HOMEROOM clock0 0 rowCuong = Some st
    /\ academicResult st = Some (js "T")
    /\ conductRating st = Some (js "Đ")
    /\ absences st = Some (Dec 2 0).
Proof.
  destruct (parseRow HOMEROOM clock0 0 rowCuong) as [st|] eqn:E;
    [|vm_compute in E; discriminate E].
  exists st; split; [reflexivity|].
  destruct (proj1 homeroom_scan_spec clock0 0%nat rowCuong st E)
    as (_ & _ & Ha & Hc & Hab & _).
  rewrite Ha, Hc, Hab; vm_compute; repeat split.
Defined.

(* ------------------------------------------------------------------ *)
(** ** The structural-evidence gate *)

Lemma fullName_no_part (r : row) :
  (forall c, In c r -> isNamePart c = false) ->
  nameFilter (fullNameOf r) = false.
Proof.
  intros H; unfold fullNameOf; rewrite (findName_no_part _ H); reflexivity.
Qed.

Lemma collect_none {A : Type} (f : cell -> option A) (cells : list cell) :
  (forall c, In c cells -> f c = None) -> collect f cells = [].
Proof.
  induction cells as [|c cells IH]; intros H; [reflexivity|].
  cbn [collect]; rewrite (H c (or_introl eq_refl)).
  apply IH; intros c' Hc'; apply H; right; assumption.
Qed.

(** C3 (as the code has it). A row produces a record only if its first
    cell is a number strictly between 0 and 1000 or a string of digits with
    such a value, or the scan set at least one data field of the mode.  A
    row without such a first cell emits no record when none of its cells is
    a name-part candidate, and when no cell to the right of its name span
    holds a score or a rating (SUBJECT) or a rating or an absence count
    (HOMEROOM).  A row with such a first cell and a name that passes the
    filters, but no score or rating to the right of the name, is still
    emitted in SUBJECT mode, with subjectScore and subjectRating both
    unset. *)
Theorem structural_evidence_gate :
  forall (now : nat -> Z) (i : nat) (r : row),
    (forall role st, parseRow role now i r = Some st ->
       holdsLeadingIndex (at_index r 0) = true
       \/ hasDataFields role st = true)
    /\ (forall role, (forall c, In c r -> isNamePart c = false) ->
          parseRow role now i r = None)
    /\ (holdsLeadingIndex (at_index r 0) = false ->
        (forall c, In c (rightOfName r) -> settles c = false) ->
        parseRow SUBJECT now i r = None)
    /\ (holdsLeadingIndex (at_index r 0) = false ->
        (forall c, In c (rightOfName r) ->
           homeroomRatingOf c = None /\ absenceOf c = None) ->
        parseRow HOMEROOM now i r = None)
    /\ (holdsLeadingIndex (at_index r 0) = true ->
        nameFilter (fullNameOf r) = true ->
        (forall c, In c (rightOfName r) -> settles c = false) ->
        exists st, parseRow SUBJECT now i r = Some st
                   /\ name st = fullNameOf r
                   /\ subjectScore st = None /\ subjectRating st = None).
Proof.
  intros now i r.
  assert (Hscan : (forall c, In c (rightOfName r) -> settles c = false) ->
                  firstSettled (rev (rightOfName r)) = (None, None)).
  { intros H; apply firstSettled_none.
    intros c Hc; apply H, in_rev; assumption. }
  repeat split.
  - intros role st H.
    destruct (holdsLeadingIndex (at_index r 0)) eqn:Hidx; [left; reflexivity|].
    right; rewrite <- hasIndexOf_holds in Hidx.
    destruct role.
    + apply parseRow_subject_inv in H.
      destruct H as (_ & _ & _ & _ & _ & _ & Hgate); exact (Hgate Hidx).
    + rewrite parseRow_homeroom in H.
      destruct (List.length r =? 0)%nat; [discriminate|].
      destruct (negb (nameFilter _)); [discriminate|].
      cbv zeta in H; rewrite Hidx in H; cbn [negb andb] in H.
      destruct (isSome _ || isSome _ || isSome _) eqn:Hd;
        cbn [negb] in H; [|discriminate].
      injection H as <-; exact Hd.
  - intros role H.
    pose proof (fullName_no_part _ H) as Hf.
    destruct role; [rewrite parseRow_subject | rewrite parseRow_homeroom];
      rewrite Hf; destruct (List.length r =? 0)%nat; reflexivity.
  - intros Hidx H.
    rewrite parseRow_subject, hasIndexOf_holds, Hidx, (Hscan H).
    destruct (List.length r =? 0)%nat; [reflexivity|].
    destruct (negb (nameFilter _)); reflexivity.
  - intros Hidx H.
    rewrite parseRow_homeroom, hasIndexOf_holds, Hidx.
    rewrite (collect_none homeroomRatingOf), (collect_none absenceOf)
      by (intros c Hc; apply H; assumption).
    destruct (List.length r =? 0)%nat; [reflexivity|].
    destruct (negb (nameFilter _)); reflexivity.
  - intros Hidx Hf H.
    rewrite parseRow_subject, hasIndexOf_holds, Hidx, Hf, (Hscan H).
    destruct r as [|c r]; [discriminate Hidx|].
    cbn [List.length Nat.eqb negb andb fst snd].
    eexists; split; [reflexivity|]; repeat split.
Qed.

Lemma structural_evidence_gate_witness :
  (exists st, parseRow SUBJECT clock0 0 rowIndexOnly = Some st
              /\ name st = js "Nguyễn Văn An"
              /\ subjectScore st = None /\ subjectRating st = None)
  /\ parseRow SUBJECT clock0 0 rowTitle = None
  /\ parseRow HOMEROOM clock0 0 rowTitle = None.
Proof.
  destruct (structural_evidence_gate clock0 0 rowIndexOnly)
    as (_ & _ & _ & _ & H5).
  destruct (structural_evidence_gate clock0 0 rowTitle)
    as (_ & _ & H3 & H4 & _).
  split; [|split].
  - apply H5; [reflexivity | reflexivity |].
    intros c Hc; vm_compute in Hc; destruct Hc.
  - apply H3; [reflexivity|].
    intros c Hc; vm_compute in Hc.
    destruct Hc as [<- | []]; reflexivity.
  - apply H4; [reflexivity|].
    intros c Hc; vm_compute in Hc.
    destruct Hc as [<- | []]; split; reflexivity.
Defined.

(** C3, as stated, fails: the row [2.5, "Nguyễn Văn An"] is emitted in
    SUBJECT mode although its first cell is not an integer and no data
    field was extracted. *)
Lemma fractional_index_emits_record :
  holdsSmallPositiveInteger (at_index rowFractionalIndex 0) = false
  /\ map fieldsOf
         (students (parseExcelData (workbookOf [rowFractionalIndex])
                                   SUBJECT clock0))
     = [(js "Nguyễn Văn An", None, None, None, None, None)].
Proof. vm_compute; split; reflexivity. Qed.

(* ------------------------------------------------------------------ *)
(** ** Name-span reconstruction *)

(** C5. The row ["1", "Nguyễn", "Văn", "An", "8.5"] yields in SUBJECT
    mode exactly one record, named "Nguyễn Văn An" with subjectScore 8.5.
    In general, when the first name-part candidate of a row is in column
    [s] and [t] is the first later column whose cell is neither a
    name-part candidate nor a blank followed by one (or the end of the
    row), the name parts are the candidates of the columns [s] to [t - 1],
    the name is their space-join and the span ends in column [t - 1]. *)
Theorem name_span_reconstruction :
  map fieldsOf (students (parseExcelData (workbookOf [rowAn]) SUBJECT clock0))
  = [(js "Nguyễn Văn An", Some (Dec 85 1), None, None, None, None)]
  /\ forall (r : row) (s t : nat),
       (forall i, (i < s)%nat -> isNamePart (at_index r i) = false) ->
       isNamePart (at_index r s) = true ->
       (s < t <= List.length r)%nat ->
       (forall i, (s < i < t)%nat -> continuesName r i = true) ->
       ((t < List.length r)%nat -> continuesName r t = false) ->
       fst (findName r) = namePartsOf (firstn (t - s) (skipn s r))
       /\ fullNameOf r
          = trim (join (js " ") (namePartsOf (firstn (t - s) (skipn s r))))
       /\ nameEndOf r = (Z.of_nat t - 1)%Z
       /\ isNamePart (at_index r (t - 1)) = true.
Proof.
  split; [vm_compute; reflexivity|].
  intros r s t Hpre Hs Ht Hgo Hstop.
  unfold fullNameOf, nameEndOf.
  rewrite (findName_span r s t Hpre Hs Ht Hgo Hstop); cbn [fst snd].
  repeat split.
  destruct (Nat.eq_dec (t - 1) s) as [-> | Hne]; [exact Hs|].
  assert (Hc : continuesName r (t - 1) = true) by (apply Hgo; lia).
  unfold continuesName in Hc.
  destruct (isNamePart (at_index r (t - 1))); [reflexivity|].
  cbn [orb] in Hc; apply andb_true_iff in Hc; destruct Hc as [_ Hnext].
  replace (S (t - 1)) with t in Hnext by lia.
  destruct (Nat.lt_ge_cases t (List.length r)) as [Hlt | Hge].
  - specialize (Hstop Hlt); unfold continuesName in Hstop.
    rewrite Hnext in Hstop; discriminate.
  - unfold at_index in Hnext; rewrite nth_overflow in Hnext by lia.
    discriminate.
Qed.

Lemma name_span_reconstruction_witness :
  fst (findName rowAn) = [js "Nguyễn"; js "Văn"; js "An"]
  /\ fullNameOf rowAn = js "Nguyễn Văn An"
  /\ nameEndOf rowAn = 3%Z
  /\ isNamePart (at_index rowAn 3) = true.
Proof.
  destruct (proj2 name_span_reconstruction rowAn 1%nat 4%nat)
    as (H1 & H2 & H3 & H4).
  - intros i Hi; assert (i = 0%nat) as -> by lia; reflexivity.
  - reflexivity.
  - vm_compute; lia.
  - intros i Hi.
    assert (i = 2%nat \/ i = 3%nat) as [-> | ->] by lia; reflexivity.
  - intros _; reflexivity.
  - rewrite H1, H2, H3; vm_compute; repeat split; exact H4.
Defined.

(* ------------------------------------------------------------------ *)
(** ** Pasted text: no range check on the score *)

(** C9. In [parseStringData] with role SUBJECT the trailing segment of a
    line, whenever it parses as a finite number, becomes subjectScore
    whatever its value: the line "Nguyễn Văn An", tab, "85" yields the
    score 85, which is above 10, whereas a score extracted from a grid
    always lies in [0, 10]. *)
Theorem text_score_unchecked :
  (forall (now : nat -> Z) (idx : nat) (line : jsstring) (st : StudentData)
          (lastPart : jsstring) (m : Z) (k : nat),
     parseLine SUBJECT now idx line = Some st ->
     lastPartOf (partsOf (trim line)) = Some lastPart ->
     lastPart <> [] ->
     parseFloat lastPart = Dec m k ->
     subjectScore st = Some (Dec m k) /\ subjectRating st = None)
  /\ map fieldsOf (parseStringData lineAn85 SUBJECT clock0)
     = [(js "Nguyễn Văn An", Some (Dec 85 0), None, None, None, None)]
  /\ num_leb (Dec 85 0) 10 = false
  /\ (forall (now : nat -> Z) (i : nat) (r : row) (st : StudentData)
             (x : number),
        parseRow SUBJECT now i r = Some st ->
        subjectScore st = Some x ->
        num_geb x 0 && num_leb x 10 = true).
Proof.
  split; [|split; [vm_compute; reflexivity|split; [reflexivity|]]].
  - intros now idx line st lastPart m k H Hlast Hne Hnum.
    unfold parseLine in H.
    destruct (trim line) as [|c t] eqn:Et; [discriminate|].
    destruct (isHeaderLine _); [discriminate|].
    destruct (trim (nth 0 (partsOf (c :: t)) [])) as [|c' t'] eqn:En;
      [discriminate|].
    destruct (allDigits (c' :: t')); [discriminate|].
    rewrite Hlast in H.
    destruct lastPart as [|l ls]; [congruence|].
    rewrite Hnum in H; cbn [isNaN negb] in H.
    injection H as <-; split; reflexivity.
  - intros now i r st x H Hx.
    destruct (parseRow_subject_inv _ _ _ _ H) as [Hsc _].
    revert Hsc; rewrite Hx; unfold firstSettled.
    destruct (find settles _) as [c|]; intros E; [|discriminate E].
    injection E as E _; symmetry in E; exact (scoreOf_range _ _ E).
Qed.

Lemma text_score_unchecked_witness :
  exists st, parseLine SUBJECT clock0 0 lineAn85 = Some st
    /\ lastPartOf (partsOf (trim lineAn85)) = Some (js "85")
    /\ subjectScore st = Some (Dec 85 0) /\ subjectRating st = None.
Proof.
  destruct (parseLine SUBJECT clock0 0 lineAn85) as [st|] eqn:E;
    [|vm_compute in E; discriminate E].
  exists st; split; [reflexivity|].
  split; [reflexivity|].
  apply (proj1 text_score_unchecked clock0 0%nat lineAn85 st (js "85") 85%Z
               0%nat E).
  - reflexivity.
  - discriminate.
  - reflexivity.
Defined.

(* ------------------------------------------------------------------ *)
(** ** Instances of the conditional statements *)

Lemma detectedSubject_first_five_rows_witness :
  firstn 5 gridShort = firstn 5 gridLong
  /\ detectedSubject (parseExcelData (workbookOf gridShort) SUBJECT clock0)
     = detectedSubject
         (parseExcelData (workbookOf gridLong) HOMEROOM (fun _ => 0%Z)).
Proof.
  split; [reflexivity|].
  apply (detectedSubject_first_five_rows (workbookOf gridShort)
           (workbookOf gridLong) gridShort gridLong); reflexivity.
Defined.

Lemma detectedSubject_spec_witness :
  detectedSubject
    (parseExcelData (workbookOf [textRow ["Bảng điểm môn Toán"]%string; rowAn])
                    SUBJECT clock0) = Some (js "Toán")
  /\ detectedSubject
       (parseExcelData (workbookOf [textRow ["STT"; "Tên"; "TX1"]%string])
                       SUBJECT clock0) = None
  /\ In (js "Toán") subjectLabels.
Proof.
  split; [|split].
  - apply (proj1 (detectedSubject_spec _ SUBJECT clock0)
             [textRow ["Bảng điểm môn Toán"]%string; rowAn]); reflexivity.
  - apply (proj1 (proj2 (detectedSubject_spec _ SUBJECT clock0))
             [textRow ["STT"; "Tên"; "TX1"]%string]); [reflexivity|].
    intros k Hk; vm_compute in Hk.
    repeat (destruct Hk as [<- | Hk]; [reflexivity|]); destruct Hk.
  - apply (proj2 (proj2 (detectedSubject_spec
             (workbookOf [textRow ["Bảng điểm môn Toán"]%string; rowAn])
             SUBJECT clock0))).
    reflexivity.
Defined.

Lemma parseExcelData_never_throws_witness :
  students (parseExcelData Throws SUBJECT clock0) = []
  /\ students (parseExcelData
                 (Returns {| SheetNames := Some []; Sheets := [] |})
                 HOMEROOM clock0) = []
  /\ students (parseExcelData
                 (Returns {| SheetNames := Some [js "Sheet1"]; Sheets := [] |})
                 SUBJECT clock0) = []
  /\ students (parseExcelData
                 (Returns {| SheetNames := Some [js "Sheet1"];
                             Sheets := [(js "Sheet1",
                                         {| sheet_to_json := Throws |})] |})
                 SUBJECT clock0) = []
  /\ students (parseExcelData (workbookOf [rowTitle; []]) SUBJECT clock0) = [].
Proof.
  split; [|split; [|split; [|split]]].
  - destruct (parseExcelData_never_throws Throws SUBJECT clock0)
      as (_ & H & _).
    apply H; reflexivity.
  - destruct (parseExcelData_never_throws
                (Returns {| SheetNames := Some []; Sheets := [] |})
                HOMEROOM clock0) as (_ & _ & H & _).
    eapply H; [reflexivity | right; reflexivity].
  - destruct (parseExcelData_never_throws
                (Returns {| SheetNames := Some [js "Sheet1"]; Sheets := [] |})
                SUBJECT clock0) as (_ & _ & _ & H & _).
    eapply H; reflexivity.
  - destruct (parseExcelData_never_throws
                (Returns {| SheetNames := Some [js "Sheet1"];
                            Sheets := [(js "Sheet1",
                                        {| sheet_to_json := Throws |})] |})
                SUBJECT clock0) as (_ & _ & _ & _ & H & _).
    eapply H; [reflexivity | reflexivity | reflexivity | left; reflexivity].
  - destruct (parseExcelData_never_throws (workbookOf [rowTitle; []])
                SUBJECT clock0) as (_ & _ & _ & _ & _ & H).
    eapply H; [reflexivity|].
    intros i r Hi.
    destruct i as [|[|i]]; cbn in Hi.
    + injection Hi as <-; reflexivity.
    + injection Hi as <-; reflexivity.
    + destruct i; discriminate Hi.
Defined.

(* ------------------------------------------------------------------ *)
(** ** Trimming *)

Lemma trimStart_In (c : N) (s : jsstring) : In c (trimStart s) -> In c s.
Proof.
  induction s as [|x s IH]; cbn [trimStart]; [tauto|].
  destruct (isWhiteSpace x); [right; apply IH; assumption | tauto].
Qed.

Lemma trim_In (c : N) (s : jsstring) : In c (trim s) -> In c s.
Proof.
  unfold trim, trimEnd; intros H.
  apply in_rev, trimStart_In in H; rewrite <- in_rev in H.
  apply trimStart_In; assumption.
Qed.

Lemma trimStart_idem (s : jsstring) : trimStart (trimStart s) = trimStart s.
Proof.
  induction s as [|x s IH]; [reflexivity|].
  cbn [trimStart]; destruct (isWhiteSpace x) eqn:E; [exact IH|].
  cbn [trimStart]; rewrite E; reflexivity.
Qed.

Lemma trimStart_keeps (a b : jsstring) (c : N) :
  isWhiteSpace c = false ->
  trimStart (a ++ c :: b) = trimStart a ++ c :: b.
Proof.
  intros Hc; induction a as [|x a IH]; cbn [app trimStart].
  - rewrite Hc; reflexivity.
  - destruct (isWhiteSpace x); [exact IH | reflexivity].
Qed.

(** Trimming the end of a text that starts with a visible unit leaves
    that unit in front. *)
Lemma trimEnd_head (c : N) (s : jsstring) :
  isWhiteSpace c = false ->
  exists s', trimEnd (c :: s) = c :: s'.
Proof.
  intros Hc; unfold trimEnd; cbn [rev].
  rewrite (trimStart_keeps _ [] _ Hc), rev_app_distr; cbn [rev app].
  eexists; reflexivity.
Qed.

Lemma trim_idem (s : jsstring) : trim (trim s) = trim s.
Proof.
  unfold trim.
  assert (Hs : trimStart (trimEnd (trimStart s)) = trimEnd (trimStart s)).
  { pose proof (trimStart_idem s) as Hi.
    destruct (trimStart s) as [|c t] eqn:E; [reflexivity|].
    assert (Hc : isWhiteSpace c = false).
    { cbn [trimStart] in Hi; destruct (isWhiteSpace c); [|reflexivity].
      exfalso.
      assert (Hlen : (List.length (trimStart t) <= List.length t)%nat).
      { clear; induction t as [|x t IH]; cbn [trimStart]; [lia|].
        destruct (isWhiteSpace x); cbn [List.length]; lia. }
      rewrite Hi in Hlen; cbn [List.length] in Hlen; lia. }
    destruct (trimEnd_head c t Hc) as [t' Ht]; rewrite Ht.
    cbn [trimStart]; rewrite Hc; reflexivity. }
  rewrite Hs; unfold trimEnd.
  rewrite rev_involutive, trimStart_idem; reflexivity.
Qed.

(* ------------------------------------------------------------------ *)
(** ** What a name part is *)

Lemma isNamePartStr_true (s : jsstring) :
  isNamePartStr s = true ->
  trim s <> []
  /\ hasDigit (trim s) = false
  /\ ((2 <= List.length (trim s))%nat \/ toUpperCase (trim s) = js "Ý")
  /\ existsb (fun k => str_eqb (toLowerCase (trim s)) k) keywords = false
  /\ str_eqb (toLowerCase (trim s)) (js "đạt") = false
  /\ str_eqb (toLowerCase (trim s)) (js "chưa đạt") = false
  /\ isAbbreviation (toUpperCase (trim s)) = false.
Proof.
  unfold isNamePartStr; cbv zeta.
  destruct (trim s) as [|c t] eqn:Et; [discriminate|].
  cbn [List.length Nat.eqb].
  destruct (hasDigit (c :: t)); [discriminate|].
  destruct ((S (List.length t) <? 2)%nat
            && negb (str_eqb (toUpperCase (c :: t)) (js "Ý"))) eqn:E1;
    [discriminate|].
  destruct (someEq _ _); [discriminate|].
  destruct (includes _ _ || includes _ _ || includes _ _ || includes _ _);
    [discriminate|].
  destruct (includes _ (js "số học sinh")); [discriminate|]; cbn [orb].
  destruct (str_eqb _ (js "đạt")); [discriminate|]; cbn [orb].
  destruct (str_eqb _ (js "chưa đạt")); [discriminate|].
  destruct (existsb _ keywords); [discriminate|].
  destruct (someIncluded _ _); [discriminate|].
  destruct (isAbbreviation _); [discriminate|].
  intros _; repeat split; try discriminate.
  apply andb_false_iff in E1; destruct E1 as [E1 | E1].
  - left; apply Nat.ltb_ge in E1; exact E1.
  - right; apply negb_false_iff, str_eqb_eq in E1; exact E1.
Qed.

(** From [toUpperUnit c = K], for a literal [K]: the units [c] can be. *)
Ltac upper_cases H :=
  unfold toUpperUnit in H;
  repeat match type of H with
         | context [if ?b then _ else _] =>
             let E := fresh "E" in destruct b eqn:E
         end;
  repeat match goal with
         | E : _ && _ = true |- _ =>
             apply andb_true_iff in E; destruct E
         | E : _ || _ = true |- _ => apply orb_true_iff in E; destruct E
         | E : (_ <=? _) = true |- _ => apply N.leb_le in E
         | E : (_ =? _) = true |- _ => apply N.eqb_eq in E
         | E : (_ =? _) = false |- _ => apply N.eqb_neq in E
         end.

Lemma upper_is_Y_acute (c : N) :
  toUpperUnit c = 0xDD -> c = 0xDD \/ c = 0xFD.
Proof. intros H; upper_cases H; lia. Qed.

(** X1. A name-part candidate is always a text cell: its trimmed text is
    not empty, holds no digit, has at least two units unless it upper-cases
    to "Ý", and its lower-cased form is none of the denylist keywords; such
    a cell is neither blank nor index-like. *)
Theorem namePart_is_text :
  forall c : cell,
    isNamePart c = true ->
    exists s, c = CStr s
      /\ trim s <> []
      /\ hasDigit (trim s) = false
      /\ ((2 <= List.length (trim s))%nat \/ toUpperCase (trim s) = js "Ý")
      /\ ~ In (toLowerCase (trim s)) keywords
      /\ isBlank c = false /\ isIndexLike c = false.
Proof.
  intros c H.
  pose proof (namePart_not_index c H) as Hidx.
  destruct c as [| |x|s|b]; try discriminate H.
  cbn [isNamePart] in H.
  destruct (isNamePartStr_true s H) as (Hne & Hd & Hlen & Hk & _).
  exists s; repeat split; try assumption.
  - intros Hin.
    assert (E : existsb (fun k => str_eqb (toLowerCase (trim s)) k) keywords
                = true).
    { apply existsb_exists; eexists; split; [exact Hin | apply str_eqb_refl]. }
    congruence.
  - cbn [isBlank toString].
    destruct (trim s); [congruence | reflexivity].
Qed.

Lemma namePart_is_text_witness :
  exists s, CStr (js "Nguyễn") = CStr s /\ hasDigit (trim s) = false.
Proof.
  destruct (namePart_is_text (CStr (js "Nguyễn")) eq_refl)
    as (s & Hs & _ & Hd & _).
  exists s; split; assumption.
Defined.

(** X2. The single-letter exception is exactly "Ý": a text whose trimmed
    form has one unit is a name-part candidate if and only if that unit is
    "Ý" or "ý". *)
Theorem single_letter_name :
  forall (s : jsstring) (c : N),
    trim s = [c] ->
    (isNamePart (CStr s) = true <-> (trim s = js "Ý" \/ trim s = js "ý")).
Proof.
  intros s c Ht; split.
  - intros H; cbn [isNamePart] in H.
    destruct (isNamePartStr_true s H) as (_ & _ & Hlen & _).
    rewrite Ht in *; destruct Hlen as [Hlen | Hup].
    + cbn in Hlen; lia.
    + cbn [toUpperCase map] in Hup.
      assert (Hu : toUpperUnit c = 0xDD) by (injection Hup; auto).
      destruct (upper_is_Y_acute c Hu) as [-> | ->]; [left | right];
        reflexivity.
  - intros [H | H]; cbn [isNamePart]; unfold isNamePartStr; rewrite H;
      vm_compute; reflexivity.
Qed.

Lemma single_letter_name_witness :
  isNamePart (CStr (js " ý ")) = true /\ isNamePart (CStr (js "A")) = false.
Proof.
  split.
  - apply (single_letter_name (js " ý ") 0xFD eq_refl); right; reflexivity.
  - destruct (isNamePart (CStr (js "A"))) eqn:E; [|reflexivity].
    apply (single_letter_name (js "A") 65 eq_refl) in E.
    destruct E as [E | E]; vm_compute in E; discriminate E.
Defined.

(* ------------------------------------------------------------------ *)
(** ** White space around the text of a cell *)

Lemma trimCell_text (c : cell) :
  trim (toString (trimCell c)) = trim (toString c).
Proof. destruct c; cbn [trimCell toString]; try reflexivity; apply trim_idem. Qed.

Lemma trimCell_isBlank (c : cell) : isBlank (trimCell c) = isBlank c.
Proof.
  destruct c as [| |x|s|b]; try reflexivity.
  cbn [trimCell isBlank toString]; rewrite trim_idem; reflexivity.
Qed.

Lemma trimCell_isNamePart (c : cell) : isNamePart (trimCell c) = isNamePart c.
Proof.
  destruct c as [| |x|s|b]; try reflexivity.
  cbn [trimCell isNamePart]; unfold isNamePartStr; rewrite trim_idem.
  reflexivity.
Qed.

Lemma trimCell_isIndexLike (c : cell) :
  isIndexLike (trimCell c) = isIndexLike c.
Proof.
  destruct c as [| |x|s|b]; try reflexivity.
  cbn [trimCell isIndexLike]; rewrite trim_idem; reflexivity.
Qed.

Lemma trimCell_toNumber (c : cell) : toNumber (trimCell c) = toNumber c.
Proof.
  destruct c as [| |x|s|b]; try reflexivity.
  cbn [trimCell toNumber]; unfold stringToNumber; rewrite trim_idem.
  reflexivity.
Qed.

Lemma trimCell_scoreOf (c : cell) : scoreOf (trimCell c) = scoreOf c.
Proof.
  unfold scoreOf; rewrite trimCell_isBlank, trimCell_text; reflexivity.
Qed.

Lemma trimCell_subjectRatingOf (c : cell) :
  subjectRatingOf (trimCell c) = subjectRatingOf c.
Proof.
  unfold subjectRatingOf; rewrite trimCell_isBlank, trimCell_text.
  reflexivity.
Qed.

Lemma trimCell_homeroomRatingOf (c : cell) :
  homeroomRatingOf (trimCell c) = homeroomRatingOf c.
Proof.
  unfold homeroomRatingOf; rewrite trimCell_isBlank, trimCell_text.
  reflexivity.
Qed.

Lemma trimCell_absenceOf (c : cell) : absenceOf (trimCell c) = absenceOf c.
Proof.
  unfold absenceOf; rewrite trimCell_isBlank, trimCell_text; reflexivity.
Qed.

Lemma trimCell_at (r : row) (j : nat) :
  at_index (map trimCell r) j = trimCell (at_index r j).
Proof. unfold at_index; apply (map_nth trimCell r CHole j). Qed.

Lemma trimCell_nameLoop (cells : list cell) :
  forall i parts e,
    nameLoop (map trimCell cells) i parts e = nameLoop cells i parts e.
Proof.
  induction cells as [|c rest IH]; intros i parts e; [reflexivity|].
  cbn [map nameLoop].
  rewrite trimCell_isIndexLike, trimCell_isNamePart, trimCell_isBlank,
    trimCell_text, trimCell_at, trimCell_isNamePart, !IH.
  reflexivity.
Qed.

Lemma firstSettled_map (f : cell -> cell) (l : list cell) :
  (forall c, scoreOf (f c) = scoreOf c) ->
  (forall c, subjectRatingOf (f c) = subjectRatingOf c) ->
  firstSettled (map f l) = firstSettled l.
Proof.
  intros Hs Hr; unfold firstSettled.
  induction l as [|c l IH]; [reflexivity|].
  cbn [map find].
  assert (Hset : settles (f c) = settles c)
    by (unfold settles; rewrite Hs, Hr; reflexivity).
  rewrite Hset; destruct (settles c); [|exact IH].
  rewrite Hs, Hr; reflexivity.
Qed.

Lemma collect_map {A : Type} (g : cell -> option A) (f : cell -> cell)
    (l : list cell) :
  (forall c, g (f c) = g c) -> collect g (map f l) = collect g l.
Proof.
  intros H; induction l as [|c l IH]; [reflexivity|].
  cbn [map collect]; rewrite H, IH; reflexivity.
Qed.

(** X3. White space around the text of the cells never changes what a
    row yields: the row with every text cell trimmed gives the same
    record, or none, as the row itself. *)
Theorem parseRow_ignores_surrounding_space :
  forall (role : TeacherRole) (now : nat -> Z) (i : nat) (r : row),
    parseRow role now i (map trimCell r) = parseRow role now i r.
Proof.
  intros role now i r.
  assert (Hname : findName (map trimCell r) = findName r)
    by apply trimCell_nameLoop.
  assert (Hfull : fullNameOf (map trimCell r) = fullNameOf r)
    by (unfold fullNameOf; rewrite Hname; reflexivity).
  assert (Hright : rightOfName (map trimCell r)
                   = map trimCell (rightOfName r)).
  { unfold rightOfName, nameEndOf; rewrite Hname; apply skipn_map. }
  assert (Hidx : hasIndexOf (map trimCell r) = hasIndexOf r).
  { unfold hasIndexOf.
    rewrite trimCell_at, trimCell_isIndexLike, trimCell_toNumber.
    reflexivity. }
  destruct role.
  - rewrite !parseRow_subject, Hfull, Hright, Hidx, length_map.
    rewrite <- map_rev.
    rewrite (firstSettled_map trimCell _ trimCell_scoreOf
               trimCell_subjectRatingOf).
    reflexivity.
  - rewrite !parseRow_homeroom, Hfull, Hright, Hidx, length_map.
    rewrite (collect_map _ _ _ trimCell_homeroomRatingOf),
      (collect_map _ _ _ trimCell_absenceOf).
    reflexivity.
Qed.

(* ------------------------------------------------------------------ *)
(** ** Name parts against data cells *)

(** From [toUpperUnit c = K], for a literal [K] of [codeUnits]: [c] is [K]
    or its lower-case unit. *)
Ltac upper_two H :=
  match type of H with
  | toUpperUnit ?c = ?K =>
      let L := eval vm_compute in (toLowerUnit K) in
      let D := fresh "D" in
      assert (D : c = K \/ c = L) by (clear - H; upper_cases H; lia);
      destruct D as [-> | ->]
  end.

Lemma lower_after_upper (c K : N) :
  In K codeUnits -> toUpperUnit c = K -> toLowerUnit c = toLowerUnit K.
Proof.
  intros Hin H; vm_compute in Hin.
  repeat (destruct Hin as [<- | Hin]; [upper_two H; reflexivity|]).
  destruct Hin.
Qed.

Lemma lower_after_upper_word (t w : jsstring) :
  Forall (fun K => In K codeUnits) w ->
  toUpperCase t = w -> toLowerCase t = toLowerCase w.
Proof.
  intros Hw; revert t; induction Hw as [|K w HK _ IH]; intros [|c t] H;
    try discriminate H; [reflexivity|].
  cbn [toUpperCase map] in H; injection H as Hc Ht.
  cbn [toLowerCase map]; f_equal.
  - apply lower_after_upper; assumption.
  - apply IH; exact Ht.
Qed.

(** A text that upper-cases to one of the refused codes is no name
    part. *)
Lemma namePart_not_code (s : jsstring) (k : string) :
  In k refusedCodes -> toUpperCase (trim s) = js k -> isNamePartStr s = false.
Proof.
  intros Hin Hup.
  destruct (isNamePartStr s) eqn:E; [|reflexivity].
  exfalso.
  destruct (isNamePartStr_true s E) as (_ & _ & _ & Hk & H1 & H2 & Ha).
  assert (Hlow : toLowerCase (trim s) = toLowerCase (js k)).
  { apply lower_after_upper_word; [|exact Hup].
    cbn [In refusedCodes] in Hin.
    repeat (destruct Hin as [<- | Hin];
            [apply Forall_forall; intros K HK; vm_compute in HK |- *; tauto|]).
    destruct Hin. }
  rewrite Hlow in Hk, H1, H2; rewrite Hup in Ha.
  cbn [In refusedCodes] in Hin.
  repeat (destruct Hin as [<- | Hin];
          [first [ vm_compute in Ha; discriminate Ha
                 | vm_compute in Hk; discriminate Hk
                 | vm_compute in H2; discriminate H2 ]|]).
  destruct Hin.
Qed.

Lemma span_sound (p : N -> bool) (s a b : jsstring) :
  span p s = (a, b) -> s = a ++ b /\ forallb p a = true.
Proof.
  revert a b; induction s as [|c s IH]; intros a b; cbn [span].
  - intros H; injection H as <- <-; split; reflexivity.
  - destruct (p c) eqn:Hc.
    + destruct (span p s) as [a' b'] eqn:E.
      intros H; injection H as <- <-.
      destruct (IH _ _ eq_refl) as [-> Ha].
      split; [reflexivity | cbn [forallb]; rewrite Hc, Ha; reflexivity].
    + intros H; injection H as <- <-; split; reflexivity.
Qed.

Lemma hasDigit_app (a b : jsstring) :
  hasDigit (a ++ b) = hasDigit a || hasDigit b.
Proof. apply existsb_app. Qed.

Lemma span_digits_head (s a b : jsstring) :
  span isDigit s = (a, b) -> a <> [] -> hasDigit s = true.
Proof.
  intros H Ha; destruct (span_sound _ _ _ _ H) as [-> Hall].
  destruct a as [|c a]; [congruence|].
  cbn [forallb] in Hall; apply andb_true_iff in Hall; destruct Hall as [Hc _].
  cbn [app hasDigit existsb]; rewrite Hc; reflexivity.
Qed.

Lemma readSign_cases (c : N) (r : jsstring) :
  readSign (c :: r) = (false, c :: r) \/ exists b, readSign (c :: r) = (b, r).
Proof.
  destruct c as [|p]; [left; reflexivity|].
  do 6 (destruct p as [p|p|]; try (left; reflexivity));
    right; eexists; reflexivity.
Qed.

Lemma readSign_digits (s : jsstring) :
  hasDigit (snd (readSign s)) = true -> hasDigit s = true.
Proof.
  destruct s as [|c r]; [discriminate|].
  destruct (readSign_cases c r) as [-> | [b ->]]; cbn [snd]; [auto|].
  unfold hasDigit; cbn [existsb]; intros ->; apply orb_true_r.
Qed.

(** A text that parses as a finite number holds a digit. *)
Lemma readDecimalLiteral_has_digit (t : jsstring) (m : Z) (k : nat) :
  fst (readDecimalLiteral t) = Dec m k -> hasDigit t = true.
Proof.
  unfold readDecimalLiteral; intros H.
  apply readSign_digits.
  destruct (readSign t) as [neg r0]; cbn [snd].
  destruct (startsWith r0 (js "Infinity")); [discriminate H|].
  destruct (span isDigit r0) as [ip r1] eqn:E0.
  destruct (span_sound _ _ _ _ E0) as [-> _].
  destruct ip as [|d ip].
  - destruct r1 as [|c r]; [discriminate H|].
    cbn [app].
    destruct c as [|p]; [discriminate H|].
    do 6 (destruct p as [p|p|];
          try (cbv beta iota zeta in H; discriminate H)).
    destruct (span isDigit r) as [fp r2] eqn:E1.
    destruct fp as [|f fp]; [discriminate H|].
    change (isDigit 46 || hasDigit r = true); apply orb_true_iff; right.
    apply (span_digits_head _ _ _ E1); discriminate.
  - apply (span_digits_head _ _ _ E0); discriminate.
Qed.

Lemma replaceComma_digits (s : jsstring) :
  hasDigit (replaceComma s) = hasDigit s.
Proof.
  induction s as [|c s IH]; [reflexivity|].
  cbn [replaceComma].
  destruct (c =? 44) eqn:E.
  - apply N.eqb_eq in E; subst c; reflexivity.
  - cbn [hasDigit existsb]; f_equal; exact IH.
Qed.

Lemma hasDigit_trimStart (s : jsstring) :
  hasDigit (trimStart s) = true -> hasDigit s = true.
Proof.
  unfold hasDigit; rewrite !existsb_exists.
  intros [c [Hin Hc]]; exists c; split; [apply trimStart_In|]; assumption.
Qed.

Lemma replaceComma_cases (s : jsstring) :
  replaceComma s = s \/ In 46 (replaceComma s).
Proof.
  induction s as [|c s IH]; [left; reflexivity|].
  cbn [replaceComma]; destruct (c =? 44).
  - right; left; reflexivity.
  - destruct IH as [-> | IH]; [left; reflexivity | right; right; exact IH].
Qed.

Lemma upper_keeps_dot (s : jsstring) : In 46 s -> In 46 (toUpperCase s).
Proof. intros H; apply (in_map toUpperUnit) in H; exact H. Qed.

(** X4. A name-part candidate never holds a score, a subject rating or an
    absence count: the cells that settle the scan of the subject mode, and
    those counted as absences, are disjoint from the cells a name is made
    of. *)
Theorem namePart_holds_no_data :
  forall c : cell,
    isNamePart c = true ->
    scoreOf c = None /\ subjectRatingOf c = None /\ absenceOf c = None
    /\ settles c = false.
Proof.
  intros c H.
  destruct c as [| |x|s|b]; try discriminate H.
  cbn [isNamePart] in H.
  destruct (isNamePartStr_true s H) as (Hne & Hd & _).
  assert (Hscore : scoreOf (CStr s) = None).
  { unfold scoreOf; destruct (isBlank (CStr s)); [reflexivity|].
    cbn [toString].
    destruct (parseFloat (replaceComma (trim s))) as [|neg|m k] eqn:Ep;
      [reflexivity | destruct neg; reflexivity |].
    exfalso; unfold parseFloat in Ep.
    apply readDecimalLiteral_has_digit, hasDigit_trimStart in Ep.
    rewrite replaceComma_digits in Ep; congruence. }
  assert (Hrating : subjectRatingOf (CStr s) = None).
  { unfold subjectRatingOf; destruct (isBlank (CStr s)); [reflexivity|].
    cbn [toString].
    destruct (isNaN _); [|reflexivity]; cbn [andb].
    destruct (isSubjectRating _) eqn:Er; [|reflexivity].
    exfalso; apply someEq_In in Er; destruct Er as [k [Hin Hk]].
    destruct (replaceComma_cases (trim s)) as [Hsame | Hdot].
    - rewrite Hsame in Hk.
      assert (Hcode : In k refusedCodes).
      { cbn [In] in Hin; unfold refusedCodes; cbn [In]; tauto. }
      rewrite (namePart_not_code s k Hcode Hk) in H; discriminate H.
    - apply upper_keeps_dot in Hdot; rewrite Hk in Hdot.
      cbn [In] in Hin.
      repeat (destruct Hin as [<- | Hin];
              [vm_compute in Hdot;
               repeat (destruct Hdot as [Hdot | Hdot]; [discriminate Hdot|]);
               destruct Hdot|]).
      destruct Hin. }
  assert (Habs : absenceOf (CStr s) = None).
  { unfold absenceOf; destruct (isBlank (CStr s)); [reflexivity|].
    cbn [toString].
    destruct (allDigits (trim s)) eqn:Ea; [|reflexivity].
    apply allDigits_hasDigit in Ea; congruence. }
  unfold settles; rewrite Hscore, Hrating; repeat split; assumption.
Qed.

Lemma namePart_holds_no_data_witness :
  settles (CStr (js "Nguyễn")) = false /\ settles (CStr (js "K")) = true.
Proof.
  split; [|reflexivity].
  apply (namePart_holds_no_data (CStr (js "Nguyễn"))); reflexivity.
Defined.

(** X5. A cell that is both a name-part candidate and a homeroom rating
    holds one of the words GIỎI, YẾU, TRUNG BÌNH, KÉM; each of these words
    is indeed both, so that such a rating next to a name is taken into the
    name. *)
Theorem namePart_homeroom_overlap :
  (forall (c : cell) (u : jsstring),
     isNamePart c = true -> homeroomRatingOf c = Some u ->
     In u (map js nameLikeRatings))
  /\ (forall k, In k nameLikeRatings ->
        isNamePart (CStr (js k)) = true
        /\ homeroomRatingOf (CStr (js k)) = Some (js k)).
Proof.
  split.
  - intros c u H Hr.
    destruct c as [| |x|s|b]; try discriminate H.
    cbn [isNamePart] in H.
    unfold homeroomRatingOf in Hr.
    destruct (isBlank (CStr s)); [discriminate Hr|].
    cbn [toString] in Hr.
    destruct (isHomeroomRating _) eqn:Er; [|discriminate Hr].
    injection Hr as <-.
    apply someEq_In in Er; destruct Er as [k [Hin Hk]].
    rewrite Hk.
    cbn [In] in Hin.
    repeat (destruct Hin as [<- | Hin];
            [first [ (left; reflexivity)
                   | (right; left; reflexivity)
                   | (right; right; left; reflexivity)
                   | (right; right; right; left; reflexivity)
                   | exfalso;
                     match type of Hk with
                     | _ = js ?k =>
                         assert (Hc : In k refusedCodes)
                           by (unfold refusedCodes; cbn [In]; tauto);
                         rewrite (namePart_not_code s k Hc Hk) in H;
                         discriminate H
                     end ]|]).
    destruct Hin.
  - intros k Hin; cbn [In nameLikeRatings] in Hin.
    repeat (destruct Hin as [<- | Hin]; [split; vm_compute; reflexivity|]).
    destruct Hin.
Qed.

Lemma namePart_homeroom_overlap_witness :
  In (js "GIỎI") (map js nameLikeRatings)
  /\ isNamePart (CStr (js "Giỏi")) = true.
Proof.
  split; [|reflexivity].
  apply (proj1 namePart_homeroom_overlap (CStr (js "Giỏi"))); reflexivity.
Defined.

(* ------------------------------------------------------------------ *)
(** ** Invariants of the emitted records *)

(** Every record of the result was pushed for one row of the grid. *)
Lemma students_from_rows read role now st :
  In st (students (parseExcelData read role now)) ->
  exists g i r, firstGrid read = Some g /\ nth_error g i = Some r
                /\ parseRow role now i r = Some st.
Proof.
  intros Hin.
  destruct (firstGrid read) as [g|] eqn:Hg.
  2:{ rewrite (parseExcelData_nogrid _ _ _ Hg) in Hin; destruct Hin. }
  rewrite (parseExcelData_grid _ _ _ _ Hg) in Hin.
  destruct g as [|r0 g]; [destruct Hin|].
  cbn [students] in Hin.
  apply forEachRow_In in Hin; destruct Hin as [j [r [Hn Hp]]].
  exists (r0 :: g), j, r; repeat split; assumption.
Qed.

Lemma parseRow_name role now i r st :
  parseRow role now i r = Some st ->
  name st = fullNameOf r /\ nameFilter (fullNameOf r) = true
  /\ comment st = [] /\ isProcessing st = false
  /\ id st = xlsId (now i) i.
Proof.
  destruct role.
  - rewrite parseRow_subject.
    destruct (List.length r =? 0)%nat; [discriminate|].
    destruct (nameFilter _); cbn [negb]; [|discriminate].
    cbv zeta; destruct (negb (hasIndexOf r) && _); [discriminate|].
    intros H; injection H as <-; repeat split.
  - rewrite parseRow_homeroom.
    destruct (List.length r =? 0)%nat; [discriminate|].
    destruct (nameFilter _); cbn [negb]; [|discriminate].
    cbv zeta; destruct (negb (hasIndexOf r) && _); [discriminate|].
    intros H; injection H as <-; repeat split.
Qed.

Lemma nameLoop_parts_nodigit (cells : list cell) :
  forall i parts e,
    Forall (fun p => hasDigit p = false) parts ->
    Forall (fun p => hasDigit p = false) (fst (nameLoop cells i parts e)).
Proof.
  induction cells as [|c rest IH]; intros i parts e Hp; [exact Hp|].
  assert (Hpush : isNamePart c = true ->
                  Forall (fun p => hasDigit p = false)
                         (parts ++ [trim (toString c)])).
  { intros Hc; apply Forall_app; split; [exact Hp|].
    constructor; [|constructor].
    destruct c as [| |x|s|b]; try discriminate Hc.
    apply (isNamePartStr_true s Hc). }
  cbn [nameLoop].
  destruct ((List.length parts =? 0)%nat && isIndexLike c); [apply IH, Hp|].
  destruct (List.length parts =? 0)%nat.
  - destruct (isNamePart c); [apply IH, Hpush; reflexivity | apply IH, Hp].
  - destruct (isNamePart c); [apply IH, Hpush; reflexivity|].
    destruct (isBlank c); [|exact Hp].
    destruct (isNamePart (at_index rest 0)); [apply IH, Hp | exact Hp].
Qed.

Lemma join_nodigit (parts : list jsstring) :
  Forall (fun p => hasDigit p = false) parts ->
  hasDigit (join (js " ") parts) = false.
Proof.
  induction 1 as [|p rest Hp Hrest IH]; [reflexivity|].
  cbn [join]; destruct rest as [|q rest]; [exact Hp|].
  rewrite !hasDigit_app, Hp, IH; reflexivity.
Qed.

Lemma trim_nodigit (s : jsstring) :
  hasDigit s = false -> hasDigit (trim s) = false.
Proof.
  intros H; destruct (hasDigit (trim s)) eqn:E; [|reflexivity].
  unfold hasDigit in *; apply existsb_exists in E.
  destruct E as [c [Hin Hc]].
  assert (existsb isDigit s = true)
    by (apply existsb_exists; exists c; split; [apply trim_In|]; assumption).
  congruence.
Qed.

(** X6. The name of every emitted record is the assembled name of its
    row: it is not empty, has at least two units unless it is "Ý", holds
    no digit and has no white space around it; the comment is empty and
    the record is not marked as processing. *)
Theorem record_name_invariant :
  forall (read : outcome WorkBook) (role : TeacherRole) (now : nat -> Z)
         (st : StudentData),
    In st (students (parseExcelData read role now)) ->
    name st <> []
    /\ ((2 <= List.length (name st))%nat \/ name st = js "Ý")
    /\ hasDigit (name st) = false
    /\ trim (name st) = name st
    /\ comment st = [] /\ isProcessing st = false.
Proof.
  intros read role now st Hin.
  destruct (students_from_rows _ _ _ _ Hin) as (g & i & r & _ & _ & Hp).
  destruct (parseRow_name _ _ _ _ _ Hp) as (Hn & Hf & Hc & Hip & _).
  rewrite Hn; repeat split; try assumption.
  - intros E; rewrite E in Hf; discriminate Hf.
  - unfold nameFilter in Hf.
    destruct (((List.length (fullNameOf r) =? 0)%nat
               || (List.length (fullNameOf r) <? 2)%nat)
              && negb (str_eqb (fullNameOf r) (js "Ý"))) eqn:E;
      [discriminate Hf|].
    apply andb_false_iff in E; destruct E as [E | E].
    + apply orb_false_iff in E; destruct E as [_ E].
      left; apply Nat.ltb_ge in E; exact E.
    + right; apply negb_false_iff, str_eqb_eq in E; exact E.
  - unfold fullNameOf; apply trim_nodigit, join_nodigit.
    apply nameLoop_parts_nodigit; constructor.
  - unfold fullNameOf; apply trim_idem.
Qed.

Lemma record_name_invariant_witness :
  exists st,
    In st (students (parseExcelData (workbookOf [rowAn]) SUBJECT clock0))
    /\ name st <> [] /\ hasDigit (name st) = false.
Proof.
  destruct (students (parseExcelData (workbookOf [rowAn]) SUBJECT clock0))
    as [|st l] eqn:E; [vm_compute in E; discriminate E|].
  exists st; split; [left; reflexivity|].
  destruct (record_name_invariant (workbookOf [rowAn]) SUBJECT clock0 st)
    as (H1 & _ & H3 & _).
  - rewrite E; left; reflexivity.
  - split; assumption.
Defined.

(* ------------------------------------------------------------------ *)
(** ** Rows are parsed one by one *)

Lemma parseRow_fields role now1 now2 i j r :
  option_map fieldsOf (parseRow role now1 i r)
  = option_map fieldsOf (parseRow role now2 j r).
Proof.
  destruct role.
  - rewrite !parseRow_subject.
    destruct (List.length r =? 0)%nat; [reflexivity|].
    destruct (negb (nameFilter _)); [reflexivity|].
    cbv zeta; destruct (negb (hasIndexOf r) && _); reflexivity.
  - rewrite !parseRow_homeroom.
    destruct (List.length r =? 0)%nat; [reflexivity|].
    destruct (negb (nameFilter _)); [reflexivity|].
    cbv zeta; destruct (negb (hasIndexOf r) && _); reflexivity.
Qed.

Lemma forEachRow_fields role now1 now2 rows :
  forall i j,
    map fieldsOf (forEachRow role now1 rows i [])
    = map fieldsOf (forEachRow role now2 rows j []).
Proof.
  induction rows as [|r rows IH]; intros i j; [reflexivity|].
  cbn [forEachRow].
  rewrite (forEachRow_acc role now1), (forEachRow_acc role now2), !map_app.
  rewrite (IH (S i) (S j)); f_equal.
  pose proof (parseRow_fields role now1 now2 i j r) as H.
  destruct (parseRow role now1 i r) as [a|], (parseRow role now2 j r) as [b|];
    cbn [option_map] in H; try discriminate H; [|reflexivity].
  assert (H' : fieldsOf a = fieldsOf b) by congruence.
  cbn [app map]; rewrite H'; reflexivity.
Qed.

Lemma forEachRow_app role now g1 g2 :
  forall i,
    forEachRow role now (g1 ++ g2) i []
    = forEachRow role now g1 i []
      ++ forEachRow role now g2 (i + List.length g1) [].
Proof.
  induction g1 as [|r g1 IH]; intros i.
  - cbn [app forEachRow List.length]; rewrite Nat.add_0_r; reflexivity.
  - cbn [app forEachRow List.length].
    rewrite (forEachRow_acc _ _ (g1 ++ g2)), (forEachRow_acc _ _ g1), IH.
    rewrite Nat.add_succ_r, app_assoc; reflexivity.
Qed.

Lemma forEachRow_length role now rows :
  forall i, (List.length (forEachRow role now rows i []) <= List.length rows)%nat.
Proof.
  induction rows as [|r rows IH]; intros i; [apply le_n|].
  cbn [forEachRow]; rewrite forEachRow_acc, length_app.
  specialize (IH (S i)); cbn [List.length].
  destruct (parseRow role now i r); cbn [List.length app]; lia.
Qed.

Lemma students_of_grid read role now g :
  firstGrid read = Some g ->
  students (parseExcelData read role now) = forEachRow role now g 0 [].
Proof.
  intros Hg; rewrite (parseExcelData_grid _ _ _ _ Hg).
  destruct g; reflexivity.
Qed.

(** X7. Rows are classified one by one and in order: a row yields at most
    one record, so that there are no more records than rows, and the
    content extracted from a grid made of two blocks of rows is the content
    extracted from the first block followed by that extracted from the
    second. *)
Theorem rows_parsed_independently :
  forall (read1 read2 read : outcome WorkBook) (g1 g2 : list row)
         (role : TeacherRole) (now1 now2 now : nat -> Z),
    firstGrid read1 = Some g1 ->
    firstGrid read2 = Some g2 ->
    firstGrid read = Some (g1 ++ g2) ->
    map fieldsOf (students (parseExcelData read role now))
    = map fieldsOf (students (parseExcelData read1 role now1))
      ++ map fieldsOf (students (parseExcelData read2 role now2))
    /\ (List.length (students (parseExcelData read role now))
        <= List.length g1 + List.length g2)%nat.
Proof.
  intros read1 read2 read g1 g2 role now1 now2 now H1 H2 H.
  rewrite (students_of_grid _ _ _ _ H1), (students_of_grid _ _ _ _ H2),
    (students_of_grid _ _ _ _ H).
  split.
  - rewrite forEachRow_app, map_app; cbn [Nat.add].
    rewrite (forEachRow_fields role now now1 g1 0 0),
      (forEachRow_fields role now now2 g2 (List.length g1) 0).
    reflexivity.
  - rewrite <- length_app; apply forEachRow_length.
Qed.

Lemma rows_parsed_independently_witness :
  map fieldsOf
      (students (parseExcelData (workbookOf ([rowAn; rowTitle] ++ [rowCuong]))
                                SUBJECT clock0))
  = map fieldsOf
        (students (parseExcelData (workbookOf [rowAn; rowTitle])
                                  SUBJECT clock0))
    ++ map fieldsOf
           (students (parseExcelData (workbookOf [rowCuong]) SUBJECT clock0)).
Proof.
  apply (rows_parsed_independently (workbookOf [rowAn; rowTitle])
           (workbookOf [rowCuong])
           (workbookOf ([rowAn; rowTitle] ++ [rowCuong]))
           [rowAn; rowTitle] [rowCuong] SUBJECT clock0 clock0 clock0);
    reflexivity.
Defined.

(* ------------------------------------------------------------------ *)
(** ** The values the data fields take *)

Lemma collect_In {A : Type} (f : cell -> option A) (l : list cell) (a : A) :
  In a (collect f l) -> exists c, In c l /\ f c = Some a.
Proof.
  induction l as [|c l IH]; cbn [collect]; [intros []|].
  destruct (f c) as [b|] eqn:E.
  - intros [<- | H].
    + exists c; split; [left; reflexivity | exact E].
    + destruct (IH H) as [c' [Hin Hc']]; exists c'; split;
        [right|]; assumption.
  - intros H; destruct (IH H) as [c' [Hin Hc']]; exists c'; split;
      [right|]; assumption.
Qed.

Lemma lastOf_In {A : Type} (l : list A) (a : A) : lastOf l = Some a -> In a l.
Proof.
  unfold lastOf; intros H; apply in_rev.
  destruct (rev l) as [|x l']; [discriminate H|].
  injection H as ->; left; reflexivity.
Qed.

Lemma digit_not_space (c : N) : isDigit c = true -> isWhiteSpace c = false.
Proof.
  intros H; apply digit_cases in H.
  repeat (destruct H as [-> | H]; [reflexivity|]); subst; reflexivity.
Qed.

Lemma parseInt10_digits (t : jsstring) :
  allDigits t = true -> parseInt10 t = Dec (digitsVal t) 0.
Proof.
  destruct t as [|c t]; [discriminate|].
  cbn [allDigits]; intros H.
  pose proof (span_all _ _ H) as Hspan.
  cbn [forallb] in H; apply andb_true_iff in H; destruct H as [Hc _].
  unfold parseInt10; cbn [trimStart]; rewrite (digit_not_space c Hc).
  assert (Hsign : readSign (c :: t) = (false, c :: t)).
  { apply digit_cases in Hc.
    repeat (destruct Hc as [-> | Hc]; [reflexivity|]); subst; reflexivity. }
  rewrite Hsign, Hspan; reflexivity.
Qed.

Lemma homeroomRatingOf_code (c : cell) (u : jsstring) :
  homeroomRatingOf c = Some u -> In u (map js homeroomCodes).
Proof.
  unfold homeroomRatingOf; destruct (isBlank c); [discriminate|].
  destruct (isHomeroomRating _) eqn:E; [|discriminate].
  intros H; injection H as <-.
  apply someEq_In in E; destruct E as [k [Hin ->]].
  apply in_map; exact Hin.
Qed.

Lemma absenceOf_range (c : cell) (x : number) :
  absenceOf c = Some x -> exists n, x = Dec n 0 /\ (0 <= n < 60)%Z.
Proof.
  unfold absenceOf; destruct (isBlank c); [discriminate|].
  destruct (allDigits _) eqn:Ea; [|discriminate]; cbn [andb].
  rewrite (parseInt10_digits _ Ea).
  destruct (num_geb _ 0 && num_ltb _ 60) eqn:E; [|discriminate].
  intros H; injection H as <-.
  eexists; split; [reflexivity|].
  apply andb_true_iff in E; destruct E as [E1 E2].
  unfold num_geb in E1; unfold num_ltb in E2.
  apply Z.leb_le in E1; apply Z.ltb_lt in E2.
  cbn in E1, E2; lia.
Qed.

Lemma subjectRatingOf_code (c : cell) (u : jsstring) :
  subjectRatingOf c = Some u -> In u (map js subjectCodes).
Proof.
  unfold subjectRatingOf; destruct (isBlank c); [discriminate|].
  destruct (isNaN _); [|discriminate]; cbn [andb].
  destruct (isSubjectRating _) eqn:E; [|discriminate].
  intros H; injection H as <-.
  apply someEq_In in E; destruct E as [k [Hin ->]].
  apply in_map; exact Hin.
Qed.

Lemma scoreOf_finite (c : cell) (x : number) :
  scoreOf c = Some x ->
  exists m k, x = Dec m k /\ (0 <= m <= 10 * 10 ^ Z.of_nat k)%Z.
Proof.
  intros H; pose proof (scoreOf_range _ _ H) as Hr.
  apply andb_true_iff in Hr; destruct Hr as [H1 H2].
  destruct x as [|neg|m k]; [discriminate H1 | destruct neg; discriminate|].
  exists m, k; split; [reflexivity|].
  unfold num_geb in H1; unfold num_leb in H2.
  apply Z.leb_le in H1; apply Z.leb_le in H2; lia.
Qed.

(** X8. In SUBJECT mode a rating stored in a record is one of the nine
    codes T, K, Đ, CĐ, TB, G, Y, ĐẠT, CHƯA ĐẠT, in upper case, and a score
    stored in a record is a finite number between 0 and 10. *)
Theorem subject_field_values :
  forall (read : outcome WorkBook) (now : nat -> Z) (st : StudentData),
    In st (students (parseExcelData read SUBJECT now)) ->
    (forall u, subjectRating st = Some u -> In u (map js subjectCodes))
    /\ (forall x, subjectScore st = Some x ->
          exists m k, x = Dec m k /\ (0 <= m <= 10 * 10 ^ Z.of_nat k)%Z).
Proof.
  intros read now st Hin.
  destruct (students_from_rows _ _ _ _ Hin) as (g & i & r & _ & _ & Hp).
  destruct (parseRow_subject_inv _ _ _ _ Hp) as [Hsc _].
  unfold firstSettled in Hsc.
  destruct (find settles _) as [c|]; injection Hsc as Hs Hr;
    rewrite Hs, Hr; split; intros ? E; try discriminate E.
  - exact (subjectRatingOf_code _ _ E).
  - exact (scoreOf_finite _ _ E).
Qed.

Lemma subject_field_values_witness :
  exists st,
    In st (students (parseExcelData (workbookOf [rowScoreThenRating])
                                    SUBJECT clock0))
    /\ subjectRating st = Some (js "K")
    /\ In (js "K") (map js subjectCodes).
Proof.
  destruct (students (parseExcelData (workbookOf [rowScoreThenRating])
                                     SUBJECT clock0))
    as [|st l] eqn:E; [vm_compute in E; discriminate E|].
  exists st; split; [left; reflexivity|].
  assert (Hr : subjectRating st = Some (js "K"))
    by (vm_compute in E; injection E as <- _; reflexivity).
  split; [exact Hr|].
  apply (subject_field_values (workbookOf [rowScoreThenRating]) clock0 st);
    [rewrite E; left; reflexivity | exact Hr].
Defined.

(** X9. In HOMEROOM mode academicResult and conductRating, when set, are
    among the fifteen rating codes, conductRating is set only together with
    academicResult, and absences, when set, is a whole number n with
    0 <= n < 60. *)
Theorem homeroom_field_values :
  forall (read : outcome WorkBook) (now : nat -> Z) (st : StudentData),
    In st (students (parseExcelData read HOMEROOM now)) ->
    (forall u, academicResult st = Some u -> In u (map js homeroomCodes))
    /\ (forall u, conductRating st = Some u -> In u (map js homeroomCodes))
    /\ (conductRating st <> None -> academicResult st <> None)
    /\ (forall x, absences st = Some x ->
          exists n, x = Dec n 0 /\ (0 <= n < 60)%Z).
Proof.
  intros read now st Hin.
  destruct (students_from_rows _ _ _ _ Hin) as (g & i & r & _ & _ & Hp).
  rewrite parseRow_homeroom in Hp.
  destruct (List.length r =? 0)%nat; [discriminate|].
  destruct (negb (nameFilter _)); [discriminate|].
  cbv zeta in Hp; destruct (negb (hasIndexOf r) && _); [discriminate|].
  injection Hp as <-; cbn [academicResult conductRating absences].
  assert (Hcode : forall n u,
            nth_error (collect homeroomRatingOf (rightOfName r)) n = Some u ->
            In u (map js homeroomCodes)).
  { intros n u Hn; apply nth_error_In, collect_In in Hn.
    destruct Hn as [c [_ Hc]]; exact (homeroomRatingOf_code _ _ Hc). }
  split; [exact (Hcode 0%nat)|].
  split; [exact (Hcode 1%nat)|].
  split.
  - destruct (collect homeroomRatingOf (rightOfName r)) as [|a [|b l]];
      cbn [nth_error]; congruence.
  - intros x Hx; apply lastOf_In, collect_In in Hx.
    destruct Hx as [c [_ Hc]]; exact (absenceOf_range _ _ Hc).
Qed.

Lemma homeroom_field_values_witness :
  exists st,
    In st (students (parseExcelData (workbookOf [rowCuong]) HOMEROOM clock0))
    /\ absences st = Some (Dec 2 0)
    /\ exists n, Dec 2 0 = Dec n 0 /\ (0 <= n < 60)%Z.
Proof.
  destruct (students (parseExcelData (workbookOf [rowCuong]) HOMEROOM clock0))
    as [|st l] eqn:E; [vm_compute in E; discriminate E|].
  exists st; split; [left; reflexivity|].
  assert (Ha : absences st = Some (Dec 2 0))
    by (vm_compute in E; injection E as <- _; reflexivity).
  split; [exact Ha|].
  apply (homeroom_field_values (workbookOf [rowCuong]) clock0 st);
    [rewrite E; left; reflexivity | exact Ha].
Defined.

(* ------------------------------------------------------------------ *)
(** ** Keywords of detectSubject that an earlier group hides *)

Lemma startsWith_app_l (s a b : jsstring) :
  startsWith s (a ++ b) = true -> startsWith s a = true.
Proof.
  revert s; induction a as [|x a IH]; intros s; [destruct s; reflexivity|].
  destruct s as [|y s]; cbn [app startsWith]; [discriminate|].
  rewrite !andb_true_iff; intros [-> H]; split; [reflexivity | apply IH, H].
Qed.

Lemma includes_app_l (s a b : jsstring) :
  includes s (a ++ b) = true -> includes s a = true.
Proof.
  induction s as [|y s IH]; cbn [includes].
  - rewrite !orb_false_r; apply startsWith_app_l.
  - rewrite !orb_true_iff; intros [H | H];
      [left; exact (startsWith_app_l _ _ _ H) | right; apply IH, H].
Qed.

Lemma includes_tail (s b : jsstring) (y : N) :
  includes s b = true -> includes (y :: s) b = true.
Proof. intros H; cbn [includes]; rewrite H; apply orb_true_r. Qed.

Lemma startsWith_app_r (a : jsstring) :
  forall s b, startsWith s (a ++ b) = true -> includes s b = true.
Proof.
  induction a as [|x a IH]; intros s b.
  - cbn [app]; intros H; destruct s; cbn [includes]; rewrite H; reflexivity.
  - destruct s as [|y s]; cbn [app startsWith]; [discriminate|].
    rewrite andb_true_iff; intros [_ H]; apply includes_tail, (IH _ _ H).
Qed.

Lemma includes_app_r (s a b : jsstring) :
  includes s (a ++ b) = true -> includes s b = true.
Proof.
  induction s as [|y s IH]; cbn [includes].
  - rewrite orb_false_r; apply startsWith_app_r.
  - rewrite orb_true_iff; intros [H | H].
    + exact (startsWith_app_r _ _ _ H).
    + apply includes_tail, IH, H.
Qed.

(** X10. Two keywords of [detectSubject] can never decide: a header text
    that contains "địa phương" also contains "địa", so that it is detected
    as "Toán", "Văn" or "LS & ĐL" and never as "NDGDCĐP" on that
    ground; one that contains "ngoại ngữ" also contains "ngữ" and is
    detected as "Toán" or "Văn", never as "Ng.ngữ". *)
Theorem detectSubject_hidden_keywords :
  forall headers : list row,
    (includes (flatHeadersOf headers) (js "địa phương") = true ->
     In (detectSubject headers)
        [Some (js "Toán"); Some (js "Văn"); Some (js "LS & ĐL")])
    /\ (includes (flatHeadersOf headers) (js "ngoại ngữ") = true ->
        In (detectSubject headers) [Some (js "Toán"); Some (js "Văn")]).
Proof.
  intros headers; unfold detectSubject, subjectTable.
  cbv beta iota delta [firstGroup someIncluded existsb fst snd].
  set (fh := flatHeadersOf headers).
  split; intros H.
  - change (js "địa phương") with (js "địa" ++ js " phương") in H.
    apply includes_app_l in H.
    destruct (includes fh (js "toán")); [left; reflexivity|].
    destruct (includes fh (js "văn")); [right; left; reflexivity|].
    destruct (includes fh (js "việt")); [right; left; reflexivity|].
    destruct (includes fh (js "ngữ")); [right; left; reflexivity|].
    rewrite H, !orb_true_r; cbn [orb].
    right; right; left; reflexivity.
  - change (js "ngoại ngữ") with (js "ngoại " ++ js "ngữ") in H.
    apply includes_app_r in H.
    destruct (includes fh (js "toán")); [left; reflexivity|].
    rewrite H, !orb_true_r; right; left; reflexivity.
Qed.

Lemma detectSubject_hidden_keywords_witness :
  In (detectSubject [textRow ["Giáo dục địa phương"]%string])
     [Some (js "Toán"); Some (js "Văn"); Some (js "LS & ĐL")]
  /\ detectSubject [textRow ["NDGDCĐP"]%string] = Some (js "NDGDCĐP").
Proof.
  split; [|reflexivity].
  apply (proj1 (detectSubject_hidden_keywords
                  [textRow ["Giáo dục địa phương"]%string])).
  reflexivity.
Defined.

(* ------------------------------------------------------------------ *)
(** ** Pasted text: lines and records *)

Lemma forEachLine_acc role now lines i acc :
  forEachLine role now lines i acc = acc ++ forEachLine role now lines i [].
Proof.
  revert i acc; induction lines as [|l lines IH]; intros i acc; simpl.
  - rewrite app_nil_r; reflexivity.
  - destruct (parseLine role now i l) as [st|]; simpl.
    + rewrite (IH _ (acc ++ [st])), (IH _ [st]), app_assoc; reflexivity.
    + apply IH.
Qed.

Lemma forEachLine_In role now lines i st :
  In st (forEachLine role now lines i []) ->
  exists j l, nth_error lines j = Some l
              /\ parseLine role now (i + j) l = Some st.
Proof.
  revert i; induction lines as [|l lines IH]; intros i; simpl; [tauto|].
  rewrite forEachLine_acc, in_app_iff.
  intros [H | H].
  - destruct (parseLine role now i l) as [s|] eqn:E; simpl in H; [|tauto].
    destruct H as [<- | []].
    exists 0%nat, l; split; [reflexivity|].
    rewrite Nat.add_0_r; assumption.
  - destruct (IH _ H) as [j [l' [Hn Hp]]].
    exists (S j), l'; split; [assumption|].
    rewrite Nat.add_succ_r; assumption.
Qed.

Lemma forEachLine_length role now lines :
  forall i,
    (List.length (forEachLine role now lines i []) <= List.length lines)%nat.
Proof.
  induction lines as [|l lines IH]; intros i; [apply le_n|].
  cbn [forEachLine]; rewrite forEachLine_acc, length_app.
  specialize (IH (S i)); cbn [List.length].
  destruct (parseLine role now i l); cbn [List.length app]; lia.
Qed.

Lemma splitLines_no_feed (s : jsstring) :
  forall cur inSep,
    ~ In 10 cur ->
    Forall (fun l => ~ In 10 l) (splitLines s cur inSep).
Proof.
  induction s as [|c r IH]; intros cur inSep Hcur; cbn [splitLines].
  - constructor; [exact Hcur | constructor].
  - destruct (c =? 10) eqn:E.
    + destruct inSep; [apply IH; intros []|].
      constructor; [exact Hcur | apply IH; intros []].
    + apply IH; rewrite in_app_iff; intros [H | [H | []]]; [tauto|].
      apply N.eqb_neq in E; congruence.
Qed.

Lemma canonicalize_upper (c K : N) :
  canonicalize c = K -> toUpperUnit K = K -> toUpperUnit c = K.
Proof.
  unfold canonicalize.
  destruct ((128 <=? c) && (toUpperUnit c <? 128)); [intros ->|]; auto.
Qed.

Lemma canonicalize_upper_word (s w : jsstring) :
  map canonicalize s = w ->
  Forall (fun K => toUpperUnit K = K) w -> toUpperCase s = w.
Proof.
  intros <-; induction s as [|c s IH]; intros H; [reflexivity|].
  cbn [map] in H; inversion H as [|? ? Hc Hs]; subst.
  cbn [toUpperCase map]; f_equal.
  - apply canonicalize_upper; [reflexivity | exact Hc].
  - apply IH; exact Hs.
Qed.

Lemma isTextRating_code (s : jsstring) :
  isTextRating s = true -> In (toUpperCase s) (map js textCodes).
Proof.
  unfold isTextRating; rewrite existsb_exists.
  intros [k [Hin Hk]]; apply str_eqb_eq in Hk.
  assert (Hup : toUpperCase s = js k).
  { cbn [In] in Hin.
    repeat (destruct Hin as [<- | Hin];
            [apply canonicalize_upper_word;
             [exact Hk | repeat constructor]|]).
    destruct Hin. }
  rewrite Hup; apply in_map; exact Hin.
Qed.

(** What a record made from a line of text holds. *)
Lemma parseLine_inv role now idx line st :
  parseLine role now idx line = Some st ->
  trim line <> []
  /\ isHeaderLine (toLowerCase (trim line)) = false
  /\ name st = trim (stripOrdinal (trim (nth 0 (partsOf (trim line)) [])))
  /\ id st = txtId (now idx) idx
  /\ comment st = [] /\ isProcessing st = false
  /\ conductRating st = None /\ absences st = None
  /\ (countSet st <= 1)%nat
  /\ match role with
     | SUBJECT => academicResult st = None
     | HOMEROOM =>
         subjectScore st = None /\ subjectRating st = None
         /\ forall u, academicResult st = Some u -> In u (map js textCodes)
     end.
Proof.
  unfold parseLine.
  destruct (trim line) as [|c t] eqn:Et; [discriminate|].
  destruct (isHeaderLine _) eqn:Eh; [discriminate|].
  destruct (trim (nth 0 (partsOf (c :: t)) [])) as [|c' t'] eqn:En;
    [discriminate|].
  destruct (allDigits (c' :: t')); [discriminate|].
  assert (Hplain : forall s : StudentData,
            s = {| id := txtId (now idx) idx;
                   name := trim (stripOrdinal (c' :: t'));
                   comment := []; isProcessing := false;
                   subjectScore := None; subjectRating := None;
                   academicResult := None; conductRating := None;
                   absences := None |} ->
            Some s = Some st ->
            (c :: t <> [] /\ false = false
             /\ name st = trim (stripOrdinal (c' :: t'))
             /\ id st = txtId (now idx) idx
             /\ comment st = [] /\ isProcessing st = false
             /\ conductRating st = None /\ absences st = None
             /\ (countSet st <= 1)%nat
             /\ match role with
                | SUBJECT => academicResult st = None
                | HOMEROOM =>
                    subjectScore st = None /\ subjectRating st = None
                    /\ forall u, academicResult st = Some u ->
                                 In u (map js textCodes)
                end)).
  { intros s -> H; injection H as <-.
    repeat split; try discriminate; try (cbn; lia).
    destruct role; repeat split; discriminate. }
  destruct (lastPartOf _) as [[|l ls]|]; try (apply Hplain; reflexivity).
  destruct role.
  - destruct (negb (isNaN _)); intros H; injection H as <-;
      repeat split; try discriminate; cbn; lia.
  - destruct (isTextRating (l :: ls)) eqn:Er; [|apply Hplain; reflexivity].
    intros H; injection H as <-.
    repeat split; try discriminate; try (cbn; lia).
    cbn [setAcademicResult academicResult].
    intros u Hu; injection Hu as <-; exact (isTextRating_code (l :: ls) Er).
Qed.

(** X11. Every record made from pasted text comes from one line, which
    holds no line feed, is not blank and is not a header line; there are
    no more records than lines; a record carries at most one data field,
    never a conduct rating nor an absence count, and an empty comment. *)
Theorem text_records_one_field :
  forall (text : jsstring) (role : TeacherRole) (now : nat -> Z),
    (List.length (parseStringData text role now)
     <= List.length (linesOf text))%nat
    /\ forall st, In st (parseStringData text role now) ->
         (exists idx line,
            nth_error (linesOf text) idx = Some line
            /\ parseLine role now idx line = Some st
            /\ ~ In 10 line /\ trim line <> []
            /\ isHeaderLine (toLowerCase (trim line)) = false)
         /\ (countSet st <= 1)%nat
         /\ conductRating st = None /\ absences st = None
         /\ comment st = [] /\ isProcessing st = false.
Proof.
  intros text role now; split; [apply forEachLine_length|].
  intros st Hin; unfold parseStringData in Hin.
  apply forEachLine_In in Hin; destruct Hin as [j [l [Hn Hp]]].
  cbn [Nat.add] in Hp.
  destruct (parseLine_inv _ _ _ _ _ Hp)
    as (H1 & H2 & _ & _ & H5 & H6 & H7 & H8 & H9 & _).
  repeat split; try assumption.
  exists j, l; repeat split; try assumption.
  pose proof (splitLines_no_feed text [] false (fun H => H)) as Hall.
  rewrite Forall_forall in Hall; apply Hall.
  apply nth_error_In in Hn; exact Hn.
Qed.

Lemma text_records_one_field_witness :
  exists st, In st (parseStringData lineAn85 SUBJECT clock0)
             /\ (countSet st <= 1)%nat /\ conductRating st = None.
Proof.
  destruct (parseStringData lineAn85 SUBJECT clock0) as [|st l] eqn:E;
    [vm_compute in E; discriminate E|].
  exists st; split; [left; reflexivity|].
  destruct (proj2 (text_records_one_field lineAn85 SUBJECT clock0) st)
    as (_ & H1 & H2 & _).
  - rewrite E; left; reflexivity.
  - split; assumption.
Defined.

(** X12. In HOMEROOM mode a record made from pasted text has no score and
    no subject rating, and its academicResult, when set, is one of the
    seven codes T, K, Đ, CĐ, G, TB, Y, in upper case whatever the case of
    the text was. *)
Theorem text_homeroom_rating_code :
  forall (text : jsstring) (now : nat -> Z) (st : StudentData),
    In st (parseStringData text HOMEROOM now) ->
    subjectScore st = None /\ subjectRating st = None
    /\ forall u, academicResult st = Some u -> In u (map js textCodes).
Proof.
  intros text now st Hin; unfold parseStringData in Hin.
  apply forEachLine_In in Hin; destruct Hin as [j [l [_ Hp]]].
  destruct (parseLine_inv _ _ _ _ _ Hp) as (_ & _ & _ & _ & _ & _ & _ & _ & _ & H).
  exact H.
Qed.

Lemma text_homeroom_rating_code_witness :
  exists st,
    In st (parseStringData (js "Trần Bình" ++ [9] ++ js "cđ") HOMEROOM clock0)
    /\ academicResult st = Some (js "CĐ")
    /\ In (js "CĐ") (map js textCodes).
Proof.
  destruct (parseStringData (js "Trần Bình" ++ [9] ++ js "cđ") HOMEROOM clock0)
    as [|st l] eqn:E; [vm_compute in E; discriminate E|].
  exists st; split; [left; reflexivity|].
  assert (Ha : academicResult st = Some (js "CĐ"))
    by (vm_compute in E; injection E as <- _; reflexivity).
  split; [exact Ha|].
  apply (text_homeroom_rating_code
           (js "Trần Bình" ++ [9] ++ js "cđ") clock0 st);
    [rewrite E; left; reflexivity | exact Ha].
Defined.

(* ------------------------------------------------------------------ *)
(** ** Digits *)

Lemma uint_units_digits (d : Decimal.uint) :
  forallb isDigit (uint_units d) = true.
Proof. induction d; cbn [uint_units forallb]; try rewrite IHd; reflexivity. Qed.

Lemma digitsVal_acc (d : Decimal.uint) (acc : positive) :
  fold_left (fun a c => (a * 10 + digitVal c)%Z) (uint_units d) (Zpos acc)
  = Zpos (Pos.of_uint_acc d acc).
Proof.
  revert acc; induction d; intros acc;
    cbn [uint_units fold_left Pos.of_uint_acc]; [reflexivity|..];
    rewrite <- IHd; f_equal;
    rewrite ?Pos2Z.inj_add, ?Pos2Z.inj_mul;
    match goal with
    | |- (_ + digitVal ?c = _)%Z =>
        let v := eval cbv in (digitVal c) in
        change (digitVal c) with v
    end; lia.
Qed.

Lemma digitsVal_uint (d : Decimal.uint) :
  digitsVal (uint_units d) = Z.of_N (Pos.of_uint d).
Proof.
  unfold digitsVal; induction d; cbn [uint_units fold_left Pos.of_uint];
    [reflexivity | exact IHd | ..];
    match goal with
    | |- fold_left _ _ ?a = _ =>
        let p := eval cbv in a in
        change a with p
    end; rewrite digitsVal_acc; reflexivity.
Qed.

Lemma digitsOf_val (n : N) : digitsVal (digitsOf n) = Z.of_N n.
Proof.
  unfold digitsOf; rewrite digitsVal_uint.
  change (Pos.of_uint (N.to_uint n)) with (N.of_uint (N.to_uint n)).
  rewrite DecimalN.Unsigned.of_to; reflexivity.
Qed.

Lemma digitsOf_digits (n : N) : forallb isDigit (digitsOf n) = true.
Proof. apply uint_units_digits. Qed.

Lemma digitsOf_nonempty (n : N) : digitsOf n <> [].
Proof.
  unfold digitsOf; destruct n as [|p]; [discriminate|].
  cbn [N.to_uint].
  pose proof (DecimalPos.Unsigned.to_uint_nonnil p) as H.
  destruct (Pos.to_uint p); [congruence | discriminate ..].
Qed.

Lemma digitsVal_app (a b : jsstring) :
  digitsVal (a ++ b)
  = fold_left (fun x c => (x * 10 + digitVal c)%Z) b (digitsVal a).
Proof. unfold digitsVal; apply fold_left_app. Qed.

Lemma digitsVal_zeros_after (a : jsstring) (z : nat) :
  digitsVal (a ++ repeat 48 z) = (digitsVal a * 10 ^ Z.of_nat z)%Z.
Proof.
  rewrite digitsVal_app; generalize (digitsVal a); clear a.
  induction z as [|z IH]; intros v.
  - cbn [repeat fold_left Z.of_nat]; rewrite Z.pow_0_r; lia.
  - cbn [repeat fold_left]; rewrite IH, Nat2Z.inj_succ, Z.pow_succ_r by lia.
    change (digitVal 48) with 0%Z; ring.
Qed.

Lemma digitsVal_zeros_before (z : nat) (a : jsstring) :
  digitsVal (repeat 48 z ++ a) = digitsVal a.
Proof.
  induction z as [|z IH]; [reflexivity|].
  unfold digitsVal in *; cbn [repeat app fold_left]; exact IH.
Qed.

Lemma dropZeros_spec (l : jsstring) :
  exists z, l = repeat 48 z ++ dropZeros l.
Proof.
  induction l as [|c l [z IH]]; [exists 0%nat; reflexivity|].
  cbn [dropZeros]; destruct (c =? 48) eqn:E.
  - apply N.eqb_eq in E; subst c.
    exists (S z); cbn [repeat app]; f_equal; exact IH.
  - exists 0%nat; reflexivity.
Qed.

(** The digits without their trailing zeros, and the zeros. *)
Lemma stripZeros_spec (ds : jsstring) :
  exists z, ds = rev (dropZeros (rev ds)) ++ repeat 48 z.
Proof.
  destruct (dropZeros_spec (rev ds)) as [z Hz].
  exists z.
  rewrite <- (rev_involutive ds) at 1.
  rewrite Hz at 1; rewrite rev_app_distr; f_equal.
  clear; induction z as [|z IH]; [reflexivity|].
  cbn [repeat rev]; rewrite IH.
  clear; induction z as [|z IH]; [reflexivity|].
  cbn [repeat app]; f_equal; exact IH.
Qed.

Lemma normDec_canonical (m : Z) (k : nat) :
  canonical (Dec m k) -> normDec m k = Dec m k.
Proof.
  destruct k as [|k]; [reflexivity|].
  intros [H | H]; [discriminate|].
  cbn [normDec]; apply Z.eqb_neq in H; rewrite H; reflexivity.
Qed.

(* ------------------------------------------------------------------ *)
(** ** Reading a numeral back *)

Lemma readSign_digit (c : N) (t : jsstring) :
  isDigit c = true -> readSign (c :: t) = (false, c :: t).
Proof.
  intros Hc; apply digit_cases in Hc.
  repeat (destruct Hc as [-> | Hc]; [reflexivity|]); subst; reflexivity.
Qed.

Lemma startsWith_digit (c : N) (t : jsstring) :
  isDigit c = true -> startsWith (c :: t) (js "Infinity") = false.
Proof.
  intros Hc; apply digit_cases in Hc.
  repeat (destruct Hc as [-> | Hc]; [reflexivity|]); subst; reflexivity.
Qed.

Lemma span_stop (p : N -> bool) (a b : jsstring) :
  forallb p a = true ->
  match b with [] => True | c :: _ => p c = false end ->
  span p (a ++ b) = (a, b).
Proof.
  intros Ha Hb; induction a as [|x a IH]; cbn [app span].
  - destruct b as [|c b]; [reflexivity | cbn [span]; rewrite Hb; reflexivity].
  - cbn [forallb] in Ha; apply andb_true_iff in Ha; destruct Ha as [Hx Ha].
    rewrite Hx, (IH Ha); reflexivity.
Qed.

Lemma readExponent_expText (ex : option Z) :
  readExponent (expText ex)
  = (match ex with None => 0%Z | Some e => e end, []).
Proof.
  destruct ex as [e|]; [|reflexivity].
  unfold expText, readExponent.
  change ((101 =? 101) || (101 =? 69)) with true; cbv iota.
  pose proof (digitsOf_val (Z.abs_N e)) as Hv.
  pose proof (digitsOf_nonempty (Z.abs_N e)) as Hne.
  pose proof (span_all isDigit _ (digitsOf_digits (Z.abs_N e))) as Hs.
  destruct (e <? 0)%Z eqn:E; cbn [readSign]; rewrite Hs;
    destruct (digitsOf (Z.abs_N e)) as [|d ds]; try congruence;
    rewrite Hv; f_equal.
  - apply Z.ltb_lt in E; lia.
  - apply Z.ltb_ge in E; lia.
Qed.

Lemma expText_head (ex : option Z) :
  match expText ex with [] => True | c :: _ => isDigit c = false end.
Proof. destruct ex; [reflexivity | exact I]. Qed.

(** Reading the text of a numeral gives its value and uses it up. *)
Lemma readDecimalLiteral_numeral (neg : bool) (ip : jsstring)
    (fp : option jsstring) (ex : option Z) :
  ip <> [] ->
  forallb isDigit ip = true ->
  (forall f, fp = Some f -> forallb isDigit f = true) ->
  readDecimalLiteral (numeral neg ip fp ex)
  = (numeralValue neg ip fp ex, []).
Proof.
  intros Hne Hip Hfp.
  destruct ip as [|d ip']; [congruence|].
  assert (Hd : isDigit d = true).
  { cbn [forallb] in Hip; apply andb_true_iff in Hip; tauto. }
  set (r0 := (d :: ip') ++ fracText fp ++ expText ex).
  assert (Hsign : readSign (numeral neg (d :: ip') fp ex) = (neg, r0)).
  { unfold numeral; destruct neg; [reflexivity|].
    cbn [app]; apply readSign_digit; exact Hd. }
  assert (Hinf : startsWith r0 (js "Infinity") = false)
    by (apply startsWith_digit; exact Hd).
  assert (Hspan : span isDigit r0 = (d :: ip', fracText fp ++ expText ex)).
  { apply span_stop; [exact Hip|].
    destruct fp as [f|]; [reflexivity | apply expText_head]. }
  unfold readDecimalLiteral, numeralValue.
  rewrite Hsign, Hinf, Hspan.
  destruct fp as [f|]; cbn [fracText app].
  - rewrite (span_stop isDigit f (expText ex) (Hfp f eq_refl)
               (expText_head ex)).
    rewrite readExponent_expText; reflexivity.
  - assert (Hm : match expText ex with
                 | 46 :: r => let (fp, r2) := span isDigit r in (fp, r2, true)
                 | _ => ([], expText ex, false)
                 end = ([], expText ex, false))
      by (destruct ex; reflexivity).
    rewrite Hm, readExponent_expText; cbn [app]; rewrite ?app_nil_r.
    reflexivity.
Qed.

(* ------------------------------------------------------------------ *)
(** ** The text of a number *)

Lemma forallb_repeat_zero (z : nat) : forallb isDigit (repeat 48 z) = true.
Proof. induction z as [|z IH]; [reflexivity | exact IH]. Qed.

Lemma forallb_firstn (p : N -> bool) (n : nat) (l : jsstring) :
  forallb p l = true -> forallb p (firstn n l) = true.
Proof.
  intros H; rewrite <- (firstn_skipn n l), forallb_app in H.
  apply andb_true_iff in H; tauto.
Qed.

Lemma forallb_skipn (p : N -> bool) (n : nat) (l : jsstring) :
  forallb p l = true -> forallb p (skipn n l) = true.
Proof.
  intros H; rewrite <- (firstn_skipn n l), forallb_app in H.
  apply andb_true_iff in H; tauto.
Qed.

Lemma scaleDec_up (v : Z) (e : Z) (f : nat) (z : nat) :
  (e - Z.of_nat f = Z.of_nat z)%Z ->
  scaleDec v e f = Dec (v * 10 ^ Z.of_nat z)%Z 0.
Proof.
  intros H; unfold scaleDec; cbv zeta; rewrite H.
  replace (0 <=? Z.of_nat z)%Z with true by (symmetry; apply Z.leb_le; lia).
  reflexivity.
Qed.

Lemma scaleDec_down (v : Z) (e : Z) (f : nat) (k : nat) :
  k <> 0%nat -> (e - Z.of_nat f = - Z.of_nat k)%Z ->
  canonical (Dec v k) -> scaleDec v e f = Dec v k.
Proof.
  intros Hk H Hc; unfold scaleDec; cbv zeta; rewrite H.
  replace (0 <=? - Z.of_nat k)%Z with false by (symmetry; apply Z.leb_gt; lia).
  rewrite Z.opp_involutive, Nat2Z.id; apply normDec_canonical; exact Hc.
Qed.

Lemma signed_scale (neg : bool) (v p : Z) :
  (signed neg v * p)%Z = signed neg (v * p).
Proof. destruct neg; cbn [signed]; ring. Qed.

(** The layout of the digits is the text of a numeral that denotes the
    number. *)
Lemma formatBody_numeral (s : jsstring) (z k : nat) (neg : bool) :
  s <> [] ->
  forallb isDigit s = true ->
  (k <> 0%nat -> z = 0%nat) ->
  canonical (Dec (signed neg (digitsVal (s ++ repeat 48 z))) k) ->
  exists ip fp ex,
    formatBody s (Z.of_nat (List.length s + z) - Z.of_nat k)
    = ip ++ fracText fp ++ expText ex
    /\ ip <> [] /\ forallb isDigit ip = true
    /\ (forall f, fp = Some f -> forallb isDigit f = true)
    /\ numeralValue neg ip fp ex
       = Dec (signed neg (digitsVal (s ++ repeat 48 z))) k
    /\ (forall e, ex = Some e -> k = 0%nat -> (0 <= e)%Z).
Proof.
  intros Hne Hs Hzk Hcan.
  set (n := (Z.of_nat (List.length s + z) - Z.of_nat k)%Z).
  assert (Hlen : (0 < List.length s)%nat)
    by (destruct s; [congruence | cbn; lia]).
  unfold formatBody; cbv zeta.
  destruct ((Z.of_nat (List.length s) <=? n)%Z && (n <=? 21)%Z) eqn:C1.
  { (* the digits, padded with zeros *)
    apply andb_true_iff in C1; destruct C1 as [C1 _]; apply Z.leb_le in C1.
    assert (Hk : k = 0%nat).
    { destruct k as [|k]; [reflexivity|].
      assert (z = 0%nat) by (apply Hzk; discriminate); subst n; lia. }
    subst k.
    exists (s ++ repeat 48 z), None, None.
    split.
    { cbn [fracText expText]; rewrite !app_nil_r; do 2 f_equal.
      subst n; lia. }
    split; [destruct s; [congruence | discriminate]|].
    split; [rewrite forallb_app, Hs, forallb_repeat_zero; reflexivity|].
    split; [discriminate|].
    split; [|discriminate].
    unfold numeralValue; cbv zeta; rewrite app_nil_r.
    rewrite (scaleDec_up _ 0 _ 0) by reflexivity.
    change (10 ^ Z.of_nat 0)%Z with 1%Z; rewrite Z.mul_1_r; reflexivity. }
  apply andb_false_iff in C1.
  destruct ((0 <? n)%Z && (n <=? 21)%Z) eqn:C2.
  { (* a decimal point inside the digits *)
    apply andb_true_iff in C2; destruct C2 as [C2 C2'].
    apply Z.ltb_lt in C2; apply Z.leb_le in C2'.
    assert (Hn : (n < Z.of_nat (List.length s))%Z).
    { destruct C1 as [C1 | C1];
        [apply Z.leb_gt in C1 | apply Z.leb_gt in C1]; lia. }
    assert (Hk : k <> 0%nat) by (subst n; lia).
    assert (Hz : z = 0%nat) by (apply Hzk; exact Hk); subst z.
    rewrite app_nil_r in *.
    exists (firstn (Z.to_nat n) s), (Some (skipn (Z.to_nat n) s)), None.
    split; [cbn [fracText expText]; rewrite app_nil_r; reflexivity|].
    split.
    { intros E; apply (f_equal (@List.length N)) in E.
      rewrite length_firstn in E; cbn [List.length] in E; lia. }
    split; [apply forallb_firstn; exact Hs|].
    split; [intros f Hf; injection Hf as <-; apply forallb_skipn; exact Hs|].
    split; [|discriminate].
    unfold numeralValue; cbv zeta; rewrite firstn_skipn.
    apply (scaleDec_down _ _ _ k Hk); [|exact Hcan].
    rewrite length_skipn; subst n; lia. }
  apply andb_false_iff in C2.
  destruct ((-6 <? n)%Z && (n <=? 0)%Z) eqn:C3.
  { (* zeros between the decimal point and the digits *)
    apply andb_true_iff in C3; destruct C3 as [_ C3]; apply Z.leb_le in C3.
    assert (Hk : k <> 0%nat) by (subst n; lia).
    assert (Hz : z = 0%nat) by (apply Hzk; exact Hk); subst z.
    rewrite app_nil_r in *.
    exists [48], (Some (repeat 48 (Z.to_nat (- n)) ++ s)), None.
    split; [cbn [fracText expText]; rewrite app_nil_r; reflexivity|].
    split; [discriminate|].
    split; [reflexivity|].
    split.
    { intros f Hf; injection Hf as <-.
      rewrite forallb_app, forallb_repeat_zero, Hs; reflexivity. }
    split; [|discriminate].
    unfold numeralValue; cbv zeta.
    change ([48] ++ repeat 48 (Z.to_nat (- n)) ++ s)
      with (repeat 48 (S (Z.to_nat (- n))) ++ s).
    rewrite digitsVal_zeros_before.
    apply (scaleDec_down _ _ _ k Hk); [|exact Hcan].
    rewrite length_app, repeat_length; subst n; lia. }
  apply andb_false_iff in C3.
  (* exponent notation *)
  destruct s as [|d r]; [congruence|].
  set (e := (n - 1)%Z).
  assert (Hval : scaleDec (signed neg (digitsVal (d :: r))) e (List.length r)
                 = Dec (signed neg (digitsVal ((d :: r) ++ repeat 48 z))) k).
  { destruct k as [|k].
    - rewrite (scaleDec_up _ _ _ z) by (subst e n; cbn [List.length]; lia).
      rewrite signed_scale, digitsVal_zeros_after; reflexivity.
    - assert (Hz : z = 0%nat) by (apply Hzk; discriminate); subst z.
      rewrite app_nil_r in *.
      apply (scaleDec_down _ _ _ (S k)); [discriminate | | exact Hcan].
      subst e n; cbn [List.length]; lia. }
  assert (He : k = 0%nat -> (0 <= e)%Z).
  { intros ->; subst e n.
    destruct C1 as [C1 | C1]; apply Z.leb_gt in C1; lia. }
  assert (Hd : isDigit d = true).
  { cbn [forallb] in Hs; apply andb_true_iff in Hs; tauto. }
  assert (Hr : forallb isDigit r = true).
  { cbn [forallb] in Hs; apply andb_true_iff in Hs; tauto. }
  assert (Hes : js "e" ++ (if (e <? 0)%Z then js "-" else js "+")
                ++ digitsOf (Z.abs_N e) = expText (Some e)).
  { unfold expText; destruct (e <? 0)%Z; reflexivity. }
  destruct r as [|d' r'].
  - exists [d], None, (Some e).
    split; [rewrite Hes; reflexivity|].
    split; [discriminate|].
    split; [cbn [forallb]; rewrite Hd; reflexivity|].
    split; [discriminate|].
    split; [exact Hval|].
    intros e' E Hk; injection E as <-; exact (He Hk).
  - exists [d], (Some (d' :: r')), (Some e).
    split; [rewrite Hes; reflexivity|].
    split; [discriminate|].
    split; [cbn [forallb]; rewrite Hd; reflexivity|].
    split; [intros f Hf; injection Hf as <-; exact Hr|].
    split; [exact Hval|].
    intros e' E Hk; injection E as <-; exact (He Hk).
Qed.

Lemma numberToString_body (m : Z) (k : nat) :
  m <> 0%Z ->
  numberToString (Dec m k)
  = (if (m <? 0)%Z then [45] else [])
    ++ formatBody (rev (dropZeros (rev (digitsOf (Z.abs_N m)))))
         (Z.of_nat (List.length (digitsOf (Z.abs_N m))) - Z.of_nat k).
Proof.
  intros Hm; unfold numberToString, formatBody.
  apply Z.eqb_neq in Hm; rewrite Hm.
  destruct (m <? 0)%Z; reflexivity.
Qed.

Lemma abs_tenfold (m q : Z) : Z.abs m = (q * 10)%Z -> (m mod 10 = 0)%Z.
Proof.
  intros H.
  assert (E : m = (q * 10)%Z \/ m = (- q * 10)%Z) by lia.
  destruct E as [-> | ->]; apply Z_mod_mult.
Qed.

(** The text of a finite number other than zero is a numeral that denotes
    it. *)
Lemma numberToString_numeral (m : Z) (k : nat) :
  m <> 0%Z -> canonical (Dec m k) ->
  exists ip fp ex,
    numberToString (Dec m k) = numeral (m <? 0)%Z ip fp ex
    /\ ip <> [] /\ forallb isDigit ip = true
    /\ (forall f, fp = Some f -> forallb isDigit f = true)
    /\ numeralValue (m <? 0)%Z ip fp ex = Dec m k
    /\ (forall e, ex = Some e -> k = 0%nat -> (0 <= e)%Z).
Proof.
  intros Hm Hcan.
  rewrite (numberToString_body m k Hm).
  set (ds := digitsOf (Z.abs_N m)).
  assert (Hv : digitsVal ds = Z.abs m)
    by (unfold ds; rewrite digitsOf_val; lia).
  destruct (stripZeros_spec ds) as [z Hz].
  set (s := rev (dropZeros (rev ds))) in *.
  assert (Hds : forallb isDigit (s ++ repeat 48 z) = true)
    by (rewrite <- Hz; apply digitsOf_digits).
  rewrite forallb_app in Hds; apply andb_true_iff in Hds.
  destruct Hds as [Hs _].
  assert (Hne : s <> []).
  { intros E; rewrite E in Hz; cbn [app] in Hz.
    rewrite Hz, <- (app_nil_r (repeat 48 z)), digitsVal_zeros_before in Hv.
    cbn in Hv; lia. }
  assert (Hsg : signed (m <? 0)%Z (digitsVal (s ++ repeat 48 z)) = m).
  { rewrite <- Hz, Hv; unfold signed.
    destruct (m <? 0)%Z eqn:E;
      [apply Z.ltb_lt in E | apply Z.ltb_ge in E]; lia. }
  assert (Hzk : k <> 0%nat -> z = 0%nat).
  { intros Hk; destruct z as [|z]; [reflexivity|]; exfalso.
    destruct Hcan as [Hc | Hc]; [congruence|]; apply Hc.
    rewrite Hz, digitsVal_zeros_after, Nat2Z.inj_succ, Z.pow_succ_r in Hv
      by lia.
    apply (abs_tenfold m (digitsVal s * 10 ^ Z.of_nat z)).
    rewrite <- Hv; ring. }
  assert (Hlen : List.length ds = (List.length s + z)%nat)
    by (rewrite Hz at 1; rewrite length_app, repeat_length; reflexivity).
  destruct (formatBody_numeral s z k (m <? 0)%Z Hne Hs Hzk)
    as (ip & fp & ex & Ht & H1 & H2 & H3 & H4 & H5).
  { rewrite Hsg; exact Hcan. }
  rewrite Hsg in H4.
  exists ip, fp, ex.
  rewrite Hlen, Ht.
  repeat split; assumption.
Qed.

Lemma trimStart_numeral neg ip fp ex :
  ip <> [] -> forallb isDigit ip = true ->
  trimStart (numeral neg ip fp ex) = numeral neg ip fp ex.
Proof.
  intros Hne Hip; unfold numeral.
  destruct neg; [reflexivity|].
  destruct ip as [|d ip]; [congruence|].
  cbn [forallb] in Hip; apply andb_true_iff in Hip; destruct Hip as [Hd _].
  cbn [app trimStart]; rewrite (digit_not_space d Hd); reflexivity.
Qed.

Lemma numberToString_read_back (x : number) :
  canonical x -> parseFloat (numberToString x) = x.
Proof.
  destruct x as [|[|]|m k]; intros Hcan; try reflexivity.
  destruct (Z.eq_dec m 0) as [-> | Hm].
  - destruct Hcan as [-> | Hc]; [reflexivity | exfalso; apply Hc; reflexivity].
  - destruct (numberToString_numeral m k Hm Hcan)
      as (ip & fp & ex & Ht & H1 & H2 & H3 & H4 & _).
    unfold parseFloat.
    rewrite Ht, (trimStart_numeral _ _ _ _ H1 H2),
      (readDecimalLiteral_numeral _ _ _ _ H1 H2 H3).
    exact H4.
Qed.

(** X13. Writing a number and reading the text back gives the number:
    for every number in canonical form, [parseFloat (String x)] is [x],
    whichever of the layouts of [Number::toString] applies (plain digits,
    a decimal point, leading zeros or exponent notation). *)
Theorem parseFloat_numberToString :
  forall x : number, canonical x -> parseFloat (numberToString x) = x.
Proof. exact numberToString_read_back. Qed.

Lemma parseFloat_numberToString_witness :
  parseFloat (numberToString (Dec (-1234567) 11)) = Dec (-1234567) 11
  /\ numberToString (Dec (-1234567) 11) = js "-0.00001234567".
Proof.
  split; [|reflexivity].
  apply (parseFloat_numberToString (Dec (-1234567) 11)).
  right; discriminate.
Defined.

(* ------------------------------------------------------------------ *)
(** ** Number cells *)

Lemma trimStart_clean (t : jsstring) :
  (forall c, In c t -> isWhiteSpace c = false) -> trimStart t = t.
Proof.
  destruct t as [|c t]; [reflexivity|]; intros H.
  cbn [trimStart]; rewrite (H c (or_introl eq_refl)); reflexivity.
Qed.

Lemma trim_clean (t : jsstring) :
  (forall c, In c t -> isWhiteSpace c = false) -> trim t = t.
Proof.
  intros H; unfold trim, trimEnd.
  rewrite (trimStart_clean t H), trimStart_clean, rev_involutive;
    [reflexivity|].
  intros c Hc; apply H, in_rev; exact Hc.
Qed.

Lemma replaceComma_clean (t : jsstring) :
  ~ In 44 t -> replaceComma t = t.
Proof.
  induction t as [|c t IH]; [reflexivity|]; intros H.
  cbn [replaceComma]; destruct (c =? 44) eqn:E.
  - apply N.eqb_eq in E; subst c; exfalso; apply H; left; reflexivity.
  - rewrite IH; [reflexivity | intros Hin; apply H; right; exact Hin].
Qed.

(** The units a numeral is written with. *)
Lemma numeral_units neg ip fp ex (c : N) :
  forallb isDigit ip = true ->
  (forall f, fp = Some f -> forallb isDigit f = true) ->
  In c (numeral neg ip fp ex) ->
  isDigit c = true \/ c = 45 \/ c = 46 \/ c = 101 \/ c = 43.
Proof.
  intros Hip Hfp; unfold numeral; rewrite !in_app_iff.
  assert (Hdig : forall l, forallb isDigit l = true -> In c l ->
                           isDigit c = true).
  { intros l Hl Hin; rewrite forallb_forall in Hl; apply Hl, Hin. }
  intros [H | [H | [H | H]]].
  - destruct neg; [destruct H as [<- | []]; tauto | destruct H].
  - left; exact (Hdig _ Hip H).
  - destruct fp as [f|]; [|destruct H].
    destruct H as [<- | H]; [tauto | left; exact (Hdig _ (Hfp f eq_refl) H)].
  - destruct ex as [e|]; [|destruct H].
    destruct H as [<- | [<- | H]]; [tauto | destruct (e <? 0)%Z; tauto|].
    left; exact (Hdig _ (digitsOf_digits _) H).
Qed.

Lemma numeral_unit_clean (c : N) :
  isDigit c = true \/ c = 45 \/ c = 46 \/ c = 101 \/ c = 43 ->
  isWhiteSpace c = false /\ c <> 44.
Proof.
  intros [H | [-> | [-> | [-> | ->]]]];
    try (split; [reflexivity | discriminate]).
  split; [apply digit_not_space; exact H|].
  intros ->; discriminate H.
Qed.

(** The text of a finite number is not empty and holds neither white
    space nor a comma. *)
Lemma numberToString_clean (m : Z) (k : nat) :
  canonical (Dec m k) ->
  numberToString (Dec m k) <> []
  /\ trim (numberToString (Dec m k)) = numberToString (Dec m k)
  /\ replaceComma (numberToString (Dec m k)) = numberToString (Dec m k).
Proof.
  intros Hcan.
  destruct (Z.eq_dec m 0) as [-> | Hm];
    [repeat split; discriminate|].
  destruct (numberToString_numeral m k Hm Hcan)
    as (ip & fp & ex & -> & H1 & H2 & H3 & _).
  assert (Hc : forall c, In c (numeral (m <? 0)%Z ip fp ex) ->
                         isWhiteSpace c = false /\ c <> 44).
  { intros c Hin; apply numeral_unit_clean.
    exact (numeral_units _ _ _ _ c H2 H3 Hin). }
  split; [|split].
  - unfold numeral; destruct ip; [congruence|].
    destruct (m <? 0)%Z; discriminate.
  - apply trim_clean; intros c Hin; apply (Hc c Hin).
  - apply replaceComma_clean; intros Hin; apply (Hc 44 Hin); reflexivity.
Qed.

Lemma small_whole_cases (m : Z) :
  (0 <= m < 60)%Z ->
  absenceOf (CNum (Dec m 0)) = Some (Dec m 0)
  /\ homeroomRatingOf (CNum (Dec m 0)) = None.
Proof.
  intros H.
  assert (E : exists n : nat, (n < 60)%nat /\ m = Z.of_nat n)
    by (exists (Z.to_nat m); lia).
  destruct E as [n [Hn ->]].
  do 60 (destruct n as [|n]; [split; vm_compute; reflexivity|]).
  lia.
Qed.

(** X14. A number cell is read as its own value.  A cell holding a finite
    number x in canonical form is not blank, is no name part and no rating;
    it holds a score exactly when 0 <= x <= 10, and the score is x; a cell
    holding a whole number n with 0 <= n < 60 holds the absence count n. *)
Theorem number_cell_own_value :
  forall (m : Z) (k : nat),
    canonical (Dec m k) ->
    isBlank (CNum (Dec m k)) = false
    /\ isNamePart (CNum (Dec m k)) = false
    /\ subjectRatingOf (CNum (Dec m k)) = None
    /\ scoreOf (CNum (Dec m k))
       = (if num_geb (Dec m k) 0 && num_leb (Dec m k) 10
          then Some (Dec m k) else None)
    /\ (k = 0%nat -> (0 <= m < 60)%Z ->
        absenceOf (CNum (Dec m k)) = Some (Dec m k)
        /\ homeroomRatingOf (CNum (Dec m k)) = None).
Proof.
  intros m k Hcan.
  destruct (numberToString_clean m k Hcan) as (Hne & Htrim & Hcomma).
  pose proof (numberToString_read_back (Dec m k) Hcan) as Hround.
  assert (Hblank : isBlank (CNum (Dec m k)) = false).
  { cbn [isBlank toString]; rewrite Htrim.
    destruct (numberToString (Dec m k)); [congruence | reflexivity]. }
  split; [exact Hblank|].
  split; [reflexivity|].
  split; [|split].
  - unfold subjectRatingOf; rewrite Hblank; cbn [toString].
    rewrite Htrim, Hcomma, Hround; reflexivity.
  - unfold scoreOf; rewrite Hblank; cbn [toString].
    rewrite Htrim, Hcomma, Hround; reflexivity.
  - intros -> Hm; apply small_whole_cases; exact Hm.
Qed.

Lemma number_cell_own_value_witness :
  scoreOf (CNum (Dec 85 1)) = Some (Dec 85 1)
  /\ scoreOf (CNum (Dec 125 1)) = None
  /\ absenceOf (CNum (Dec 12 0)) = Some (Dec 12 0).
Proof.
  destruct (number_cell_own_value 85 1) as (_ & _ & _ & H1 & _);
    [right; discriminate|].
  destruct (number_cell_own_value 125 1) as (_ & _ & _ & H2 & _);
    [right; discriminate|].
  destruct (number_cell_own_value 12 0) as (_ & _ & _ & _ & H3);
    [left; reflexivity|].
  split; [exact H1 | split; [exact H2 | apply H3; [reflexivity | lia]]].
Defined.

(* ------------------------------------------------------------------ *)
(** ** Identifiers *)

(** The text of a row index. *)
Lemma indexText_no_dash (i : nat) :
  ~ In 45 (numberToString (Dec (Z.of_nat i) 0)).
Proof.
  destruct (Z.eq_dec (Z.of_nat i) 0) as [E | Hm].
  - rewrite E; intros [H | []]; discriminate H.
  - destruct (numberToString_numeral (Z.of_nat i) 0 Hm (or_introl eq_refl))
      as (ip & fp & ex & -> & _ & H2 & H3 & _ & H5).
    replace (Z.of_nat i <? 0)%Z with false
      by (symmetry; apply Z.ltb_ge; lia).
    assert (Hdig : forall l, forallb isDigit l = true -> ~ In 45 l).
    { intros l Hl Hin; rewrite forallb_forall in Hl.
      specialize (Hl 45 Hin); discriminate Hl. }
    unfold numeral; rewrite !in_app_iff.
    intros [[] | [H | [H | H]]].
    + exact (Hdig _ H2 H).
    + destruct fp as [f|]; [|destruct H].
      destruct H as [H | H]; [discriminate H | exact (Hdig _ (H3 f eq_refl) H)].
    + destruct ex as [e|]; [|destruct H].
      specialize (H5 e eq_refl eq_refl).
      cbn [expText] in H.
      replace (e <? 0)%Z with false in H by (symmetry; apply Z.ltb_ge; lia).
      destruct H as [H | [H | H]]; try discriminate H.
      exact (Hdig _ (digitsOf_digits _) H).
Qed.

Lemma indexText_injective (i j : nat) :
  numberToString (Dec (Z.of_nat i) 0) = numberToString (Dec (Z.of_nat j) 0) ->
  i = j.
Proof.
  intros H; apply (f_equal parseFloat) in H.
  rewrite !numberToString_read_back in H by (left; reflexivity).
  injection H as H; lia.
Qed.

Lemma before_first_dash (x y p q : jsstring) :
  ~ In 45 x -> ~ In 45 y -> x ++ 45 :: p = y ++ 45 :: q -> x = y.
Proof.
  revert y; induction x as [|a x IH]; intros [|b y] Hx Hy H;
    cbn [app] in H.
  - reflexivity.
  - injection H as H _; exfalso; apply Hy; left; symmetry; exact H.
  - injection H as H _; exfalso; apply Hx; left; exact H.
  - injection H as -> H; f_equal.
    apply (IH y); [| | exact H]; intros Hin; [apply Hx | apply Hy];
      right; exact Hin.
Qed.

Lemma after_last_dash (a b x y : jsstring) :
  ~ In 45 x -> ~ In 45 y -> a ++ 45 :: x = b ++ 45 :: y -> x = y.
Proof.
  intros Hx Hy H; apply (f_equal (@rev N)) in H.
  rewrite !rev_app_distr in H; cbn [rev] in H; rewrite <- !app_assoc in H.
  cbn [app] in H.
  apply before_first_dash in H; [| rewrite <- in_rev; assumption ..].
  rewrite <- (rev_involutive x), <- (rev_involutive y), H; reflexivity.
Qed.

(** Two identifiers made for different rows differ, whatever the clock
    says. *)
Lemma xlsId_injective (t1 t2 : Z) (i j : nat) :
  xlsId t1 i = xlsId t2 j -> i = j.
Proof.
  unfold xlsId; intros H.
  change (js "-") with [45] in H.
  rewrite !app_assoc in H; rewrite <- !(app_assoc _ [45]) in H.
  cbn [app] in H.
  apply after_last_dash in H; try apply indexText_no_dash.
  apply indexText_injective; exact H.
Qed.

Lemma forEachRow_ids role now rows :
  forall i st,
    In st (forEachRow role now rows i []) ->
    exists j, (i <= j)%nat /\ id st = xlsId (now j) j.
Proof.
  intros i st Hin; apply forEachRow_In in Hin.
  destruct Hin as [j [r [_ Hp]]].
  exists (i + j)%nat; split; [lia|].
  apply (parseRow_name _ _ _ _ _ Hp).
Qed.

Lemma forEachRow_NoDup role now rows :
  forall i, NoDup (map id (forEachRow role now rows i [])).
Proof.
  induction rows as [|r rows IH]; intros i; [constructor|].
  cbn [forEachRow]; rewrite forEachRow_acc.
  destruct (parseRow role now i r) as [st|] eqn:E; [|apply IH].
  cbn [app map]; constructor; [|apply IH].
  intros Hin; apply in_map_iff in Hin; destruct Hin as [st' [Hid Hin]].
  apply forEachRow_ids in Hin; destruct Hin as [j [Hj Hst']].
  destruct (parseRow_name _ _ _ _ _ E) as (_ & _ & _ & _ & Hst).
  rewrite Hst, Hst' in Hid; apply xlsId_injective in Hid; lia.
Qed.

Lemma record_ids_unique_batch read role now :
  NoDup (map id (students (parseExcelData read role now))).
Proof.
  destruct (firstGrid read) as [g|] eqn:Hg.
  - rewrite (students_of_grid _ _ _ _ Hg); apply forEachRow_NoDup.
  - rewrite (parseExcelData_nogrid _ _ _ Hg); constructor.
Qed.

(** X15. The identifiers of the records of one run are pairwise distinct,
    whatever the clock returns while the rows are processed: each embeds
    the index of its row after the last dash. *)
Theorem record_ids_unique :
  forall (read : outcome WorkBook) (role : TeacherRole) (now : nat -> Z),
    NoDup (map id (students (parseExcelData read role now))).
Proof. intros read role now; apply record_ids_unique_batch. Qed.

Lemma txtId_injective (t1 t2 : Z) (i j : nat) :
  txtId t1 i = txtId t2 j -> i = j.
Proof.
  unfold txtId; intros H.
  change (js "-") with [45] in H.
  rewrite !app_assoc in H; rewrite <- !(app_assoc _ [45]) in H.
  cbn [app] in H.
  apply after_last_dash in H; try apply indexText_no_dash.
  apply indexText_injective; exact H.
Qed.

Lemma forEachLine_NoDup role now lines :
  forall i, NoDup (map id (forEachLine role now lines i [])).
Proof.
  induction lines as [|l lines IH]; intros i; [constructor|].
  cbn [forEachLine]; rewrite forEachLine_acc.
  destruct (parseLine role now i l) as [st|] eqn:E; [|apply IH].
  cbn [app map]; constructor; [|apply IH].
  intros Hin; apply in_map_iff in Hin; destruct Hin as [st' [Hid Hin]].
  apply forEachLine_In in Hin; destruct Hin as [j [l' [_ Hp]]].
  destruct (parseLine_inv _ _ _ _ _ E) as (_ & _ & _ & Hst & _).
  destruct (parseLine_inv _ _ _ _ _ Hp) as (_ & _ & _ & Hst' & _).
  rewrite Hst, Hst' in Hid; apply txtId_injective in Hid; lia.
Qed.

(** X16. The identifiers of the records made from one pasted text are
    pairwise distinct, whatever the clock returns: each embeds the index of
    its line after the last dash. *)
Theorem text_record_ids_unique :
  forall (text : jsstring) (role : TeacherRole) (now : nat -> Z),
    NoDup (map id (parseStringData text role now)).
Proof. intros text role now; apply forEachLine_NoDup. Qed.

(* ------------------------------------------------------------------ *)
(** ** The retry wrapper *)

Lemma first_true (P : nat -> bool) (n : nat) :
  P n = true ->
  exists d, (d <= n)%nat /\ P d = true /\ forall j, (j < d)%nat -> P j = false.
Proof.
  revert P; induction n as [|n IH]; intros P Hn.
  - exists 0%nat; repeat split; [lia | exact Hn | intros j Hj; lia].
  - destruct (P 0%nat) eqn:E0.
    + exists 0%nat; repeat split; [lia | exact E0 | intros j Hj; lia].
    + destruct (IH (fun j => P (S j)) Hn) as (d & Hd & Hp & Hlt).
      exists (S d); repeat split; [lia | exact Hp|].
      intros [|j] Hj; [exact E0 | apply Hlt; lia].
Qed.

Lemma backoff_snoc (b : Z) (c : nat) :
  backoff b (S c) = backoff b c ++ [(b * (Z.of_nat c + 1))%Z].
Proof. unfold backoff; rewrite seq_S, map_app; reflexivity. Qed.

(** The loop runs up to the first iteration that ends it. *)
Lemma retryLoop_stops {T : Type} (fn : nat -> settled T) (retries b : Z)
    (d : nat) :
  endsLoop fn retries d = true ->
  forall fuel i,
    (i <= d < i + fuel)%nat ->
    (forall j, (i <= j < d)%nat -> endsLoop fn retries j = false) ->
    retryLoop fn retries b fuel i (backoff b i)
    = {| settledAs := fn d; calls := S d; waits := backoff b d |}.
Proof.
  intros Hd; induction fuel as [|fuel IH]; intros i Hi Hgo; [lia|].
  cbn [retryLoop].
  destruct (Nat.eq_dec i d) as [-> | Hne].
  - unfold endsLoop in Hd.
    destruct (fn d) as [v|e]; [reflexivity|]; cbv zeta; rewrite Hd.
    reflexivity.
  - assert (Hi' : endsLoop fn retries i = false) by (apply Hgo; lia).
    unfold endsLoop in Hi'.
    destruct (fn i) as [v|e]; [discriminate Hi'|]; cbv zeta; rewrite Hi'.
    rewrite <- backoff_snoc; apply IH; [lia|].
    intros j Hj; apply Hgo; lia.
Qed.

Lemma callWithRetry_stops {T : Type} (fn : nat -> settled T) (retries b : Z) :
  (0 < retries)%Z ->
  exists d,
    (Z.of_nat d < retries)%Z
    /\ endsLoop fn retries d = true
    /\ (forall j, (j < d)%nat -> endsLoop fn retries j = false)
    /\ callWithRetry fn retries b
       = {| settledAs := fn d; calls := S d; waits := backoff b d |}.
Proof.
  intros Hr.
  assert (Hlast : endsLoop fn retries (Z.to_nat (retries - 1)) = true).
  { unfold endsLoop; destruct (fn _); [reflexivity|].
    replace (Z.of_nat (Z.to_nat (retries - 1)) =? retries - 1)%Z with true
      by (symmetry; apply Z.eqb_eq; lia).
    apply orb_true_r. }
  destruct (first_true _ _ Hlast) as (d & Hd & Hp & Hlt).
  exists d; repeat split; [lia | exact Hp | exact Hlt|].
  unfold callWithRetry.
  apply (retryLoop_stops fn retries b d Hp (Z.to_nat retries) 0); [lia|].
  intros j Hj; apply Hlt; lia.
Qed.


(** X17. [callWithRetry] calls [fn] at most [retries] times and sleeps
    before each new attempt only: with a budget of zero or less it makes
    no call, sleeps nothing and rejects with "Retry failed"; otherwise it
    makes at least one call, the delays slept are [baseDelay], twice
    [baseDelay], and so on, one per failed attempt that was retried, and
    twice their sum is [baseDelay * c * (c - 1)] for [c] calls. *)
Theorem callWithRetry_budget :
  forall (T : Type) (fn : nat -> settled T) (retries baseDelay : Z),
    let run := callWithRetry fn retries baseDelay in
    (Z.of_nat (calls run) <= Z.max 0 retries)%Z
    /\ waits run = backoff baseDelay (calls run - 1)
    /\ (2 * fold_right Z.add 0 (waits run)
        = baseDelay * Z.of_nat (calls run) * Z.of_nat (calls run - 1))%Z
    /\ ((retries <= 0)%Z ->
        calls run = 0%nat /\ waits run = []
        /\ settledAs run = Rejected (Some (js "Retry failed")))
    /\ ((0 < retries)%Z -> (1 <= calls run)%nat).
Proof.
  intros T fn retries b run.
  assert (Hsum : forall c,
            (2 * fold_right Z.add 0 (backoff b c)
             = b * Z.of_nat (S c) * Z.of_nat c)%Z).
  { induction c as [|c IH]; [cbn; lia|].
    rewrite backoff_snoc, fold_right_app; cbn [fold_right].
    assert (Hacc : forall l a,
              fold_right Z.add a l = (fold_right Z.add 0 l + a)%Z).
    { induction l as [|x l IHl]; intros a; cbn [fold_right]; [lia|].
      rewrite (IHl a); lia. }
    rewrite Hacc; nia. }
  destruct (Z_lt_le_dec 0 retries) as [Hr | Hr].
  - destruct (callWithRetry_stops fn retries b Hr) as (d & Hd & _ & _ & E).
    subst run; rewrite E; cbn [calls waits settledAs].
    replace (S d - 1)%nat with d by lia.
    repeat split; try lia.
    apply Hsum.
  - subst run; unfold callWithRetry.
    replace (Z.to_nat retries) with 0%nat by lia.
    cbn [retryLoop calls waits settledAs].
    repeat split; try reflexivity; try lia.
    cbn; ring.
Qed.


Lemma callWithRetry_budget_witness :
  calls (callWithRetry busyTwice 3 3000) = 3%nat
  /\ waits (callWithRetry busyTwice 3 3000) = [3000; 6000]%Z
  /\ calls (callWithRetry busyTwice 0 3000) = 0%nat
  /\ settledAs (callWithRetry busyTwice 0 3000)
     = Rejected (Some (js "Retry failed")).
Proof.
  destruct (callWithRetry_budget Z busyTwice 0 3000)
    as (_ & _ & _ & H0 & _).
  destruct (H0 ltac:(lia)) as (Hc & _ & Hs).
  destruct (callWithRetry_budget Z busyTwice 3 3000)
    as (_ & Hw & _ & _ & _).
  split; [reflexivity|].
  split; [rewrite Hw; reflexivity|].
  split; [exact Hc | exact Hs].
Defined.


(* ------------------------------------------------------------------ *)
(** ** Deleting a record of the working set *)

Lemma filter_keeps_all (f : StudentData -> bool) (l : list StudentData) :
  (forall s, In s l -> f s = true) -> filter f l = l.
Proof.
  induction l as [|a l IH]; intros H; [reflexivity|].
  cbn [filter]; rewrite (H a (or_introl eq_refl)), IH; [reflexivity|].
  intros s Hs; apply H; right; exact Hs.
Qed.

Lemma deleteStudent_split (st : StudentData) (l1 l2 : list StudentData) :
  NoDup (map id (l1 ++ st :: l2)) ->
  deleteStudent (id st) (l1 ++ st :: l2) = l1 ++ l2.
Proof.
  intros Hnd; unfold deleteStudent.
  rewrite map_app in Hnd; cbn [map] in Hnd.
  pose proof (NoDup_remove_2 _ _ _ Hnd) as Hnot.
  rewrite filter_app; cbn [filter]; rewrite str_eqb_refl; cbn [negb].
  assert (Hkeep : forall s, In s (l1 ++ l2) ->
                            negb (str_eqb (id s) (id st)) = true).
  { intros s Hs; apply negb_true_iff.
    destruct (str_eqb (id s) (id st)) eqn:E; [|reflexivity].
    apply str_eqb_eq in E; exfalso; apply Hnot.
    rewrite <- map_app, <- E; apply in_map; exact Hs. }
  rewrite !filter_keeps_all; [reflexivity | |];
    intros s Hs; apply Hkeep, in_or_app; tauto.
Qed.

(** X19. Deleting a record of a freshly parsed batch by its id removes
    that record and no other: the other records stay, in the same order,
    and the id is gone from the working set. *)
Theorem deleteStudent_removes_one :
  forall (read : outcome WorkBook) (role : TeacherRole) (now : nat -> Z)
         (st : StudentData),
    let batch := students (parseExcelData read role now) in
    In st batch ->
    (exists l1 l2, batch = l1 ++ st :: l2
                   /\ deleteStudent (id st) batch = l1 ++ l2)
    /\ S (List.length (deleteStudent (id st) batch)) = List.length batch
    /\ ~ In (id st) (map id (deleteStudent (id st) batch)).
Proof.
  intros read role now st batch Hin.
  pose proof (record_ids_unique_batch read role now) as Hnd.
  fold batch in Hnd.
  destruct (in_split _ _ Hin) as (l1 & l2 & E).
  rewrite E in Hnd |- *.
  rewrite (deleteStudent_split st l1 l2 Hnd).
  split; [exists l1, l2; split; reflexivity|].
  split; [rewrite !length_app; cbn [List.length]; lia|].
  rewrite map_app in Hnd; cbn [map] in Hnd.
  rewrite map_app; exact (NoDup_remove_2 _ _ _ Hnd).
Qed.

Lemma deleteStudent_removes_one_witness :
  exists st,
    In st (students (parseExcelData (workbookOf gridShort) SUBJECT clock0))
    /\ S (List.length
            (deleteStudent (id st)
               (students (parseExcelData (workbookOf gridShort)
                                         SUBJECT clock0))))
       = 4%nat.
Proof.
  destruct (students (parseExcelData (workbookOf gridShort) SUBJECT clock0))
    as [|st l] eqn:E; [vm_compute in E; discriminate E|].
  exists st; split; [left; reflexivity|].
  destruct (deleteStudent_removes_one (workbookOf gridShort) SUBJECT clock0 st)
    as (_ & Hlen & _); [rewrite E; left; reflexivity|].
  rewrite E in Hlen; rewrite Hlen.
  apply (f_equal (@List.length StudentData)) in E.
  rewrite <- E; vm_compute; reflexivity.
Defined.

(* ------------------------------------------------------------------ *)
(** ** Normalising a subject name *)

(** X20. [normalizeSubjectName] returns nothing for a missing or empty
    name and otherwise one of the twelve canonical labels or nothing; it
    keeps every label [detectSubject] can return, except "Ng.ngữ", which
    it turns into "Văn" because that label contains "ngữ". *)
Theorem normalizeSubjectName_labels :
  normalizeSubjectName None = None
  /\ normalizeSubjectName (Some []) = None
  /\ (forall raw l, normalizeSubjectName raw = Some l -> In l subjectLabels)
  /\ (forall headers l,
        detectSubject headers = Some l ->
        normalizeSubjectName (Some l)
        = if str_eqb l (js "Ng.ngữ") then Some (js "Văn") else Some l).
Proof.
  split; [reflexivity|]; split; [reflexivity|]; split.
  - intros [[|c raw]|] l; try discriminate.
    cbn [normalizeSubjectName]; intros H.
    apply firstGroup_label in H; exact H.
  - intros headers l H; apply firstGroup_label in H.
    cbn [map subjectTable snd In] in H.
    repeat (destruct H as [<- | H]; [vm_compute; reflexivity|]).
    destruct H.
Qed.

Lemma normalizeSubjectName_labels_witness :
  normalizeSubjectName (Some (js "Tiếng Anh")) = Some (js "Ng.ngữ")
  /\ normalizeSubjectName (Some (js "Ng.ngữ")) = Some (js "Văn")
  /\ In (js "Ng.ngữ") subjectLabels.
Proof.
  destruct normalizeSubjectName_labels as (_ & _ & Hin & Hkeep).
  split; [reflexivity|].
  split.
  - exact (Hkeep [textRow ["Tiếng Anh"]%string] (js "Ng.ngữ") eq_refl).
  - exact (Hin (Some (js "Tiếng Anh")) (js "Ng.ngữ") eq_refl).
Defined.

(* ------------------------------------------------------------------ *)
(** ** Pasted text: the ordinal in front of a name *)

Lemma span_rest (p : N -> bool) (s a b : jsstring) :
  span p s = (a, b) -> match b with [] => True | c :: _ => p c = false end.
Proof.
  revert a b; induction s as [|c s IH]; intros a b; cbn [span].
  - intros H; injection H as <- <-; exact I.
  - destruct (p c) eqn:Hc.
    + destruct (span p s) as [a' b'] eqn:E.
      intros H; injection H as <- <-; exact (IH _ _ eq_refl).
    + intros H; injection H as <- <-; exact Hc.
Qed.

Lemma trim_visible_head (c : N) (t : jsstring) :
  isWhiteSpace c = false -> trim (c :: t) <> [].
Proof.
  intros Hc; unfold trim; cbn [trimStart]; rewrite Hc.
  destruct (trimEnd_head c t Hc) as [t' ->]; discriminate.
Qed.

Lemma stripOrdinal_alt (nm : jsstring) :
  stripOrdinal nm
  = let (ds, r) := span isDigit nm in
    let (seps, r') := span isOrdinalMark r in
    match ds, seps with
    | _ :: _, _ :: _ => r'
    | _, _ => nm
    end.
Proof. reflexivity. Qed.

(** X21. The pasted-text path can make a record with an empty name, and
    does so exactly when the first column of the line is an ordinal alone:
    digits followed by full stops, closing parentheses or spaces and
    nothing else (such as "12." or "3)"). *)
Theorem text_record_empty_name :
  forall (role : TeacherRole) (now : nat -> Z) (idx : nat)
         (line : jsstring) (st : StudentData),
    parseLine role now idx line = Some st ->
    (name st = [] <->
     exists ds marks,
       firstColumn line = ds ++ marks
       /\ allDigits ds = true
       /\ marks <> [] /\ forallb isOrdinalMark marks = true).
Proof.
  intros role now idx line st H.
  assert (Hnm : firstColumn line <> [] /\ allDigits (firstColumn line) = false).
  { unfold parseLine in H; unfold firstColumn.
    destruct (trim line) as [|c t]; [discriminate|].
    destruct (isHeaderLine _); [discriminate|].
    destruct (trim (nth 0 (partsOf (c :: t)) [])) as [|c' t'];
      [discriminate|].
    destruct (allDigits (c' :: t')); [discriminate|].
    split; [discriminate | reflexivity]. }
  destruct Hnm as [Hne Hnd].
  destruct (parseLine_inv _ _ _ _ _ H) as (_ & _ & Hname & _).
  fold (firstColumn line) in Hname; rewrite Hname; clear Hname H.
  assert (Htrim : trim (firstColumn line) = firstColumn line)
    by apply trim_idem.
  generalize dependent (firstColumn line); intros nm Hne Hnd Htrim.
  rewrite stripOrdinal_alt.
  destruct (span isDigit nm) as [ds r] eqn:E1.
  destruct (span isOrdinalMark r) as [seps r'] eqn:E2.
  destruct (span_sound _ _ _ _ E1) as [Hnm Hds].
  destruct (span_sound _ _ _ _ E2) as [Hr Hseps].
  pose proof (span_rest _ _ _ _ E1) as Hstop1.
  pose proof (span_rest _ _ _ _ E2) as Hstop2.
  split.
  - intros Hempty.
    destruct ds as [|d ds]; [rewrite Htrim in Hempty; congruence|].
    destruct seps as [|m seps]; [rewrite Htrim in Hempty; congruence|].
    destruct r' as [|c r''].
    + exists (d :: ds), (m :: seps).
      rewrite app_nil_r in Hr; subst r.
      repeat split; [exact Hnm | exact Hds | discriminate | exact Hseps].
    + exfalso; apply (trim_visible_head c r''); [|exact Hempty].
      unfold isOrdinalMark in Hstop2; apply orb_false_iff in Hstop2; tauto.
  - intros (ds' & marks & Heq & Hd' & Hm & Hall).
    assert (Hhead : match marks with
                    | [] => True | c :: _ => isDigit c = false end).
    { destruct marks as [|c marks]; [exact I|].
      cbn [forallb] in Hall; apply andb_true_iff in Hall.
      destruct Hall as [Hc _].
      destruct (isDigit c) eqn:Ed; [|reflexivity].
      exfalso; unfold isOrdinalMark in Hc.
      rewrite (digit_not_space c Ed), orb_false_r in Hc.
      apply digit_cases in Ed.
      repeat (destruct Ed as [-> | Ed]; [discriminate Hc|]).
      subst; discriminate Hc. }
    assert (Hd'' : forallb isDigit ds' = true).
    { destruct ds'; [discriminate Hd' | exact Hd']. }
    rewrite Heq, (span_stop isDigit ds' marks Hd'' Hhead) in E1.
    injection E1 as <- <-.
    rewrite (span_all _ _ Hall) in E2; injection E2 as <- <-.
    destruct ds' as [|d ds']; [discriminate Hd'|].
    destruct marks as [|m marks]; [congruence | reflexivity].
Qed.

Lemma text_record_empty_name_witness :
  exists st,
    parseLine SUBJECT clock0 0 (js "12." ++ [9] ++ js "8") = Some st
    /\ name st = [] /\ subjectScore st = Some (Dec 8 0).
Proof.
  destruct (parseLine SUBJECT clock0 0 (js "12." ++ [9] ++ js "8"))
    as [st|] eqn:E; [|vm_compute in E; discriminate E].
  exists st; split; [reflexivity|].
  split.
  - apply (text_record_empty_name SUBJECT clock0 0%nat
             (js "12." ++ [9] ++ js "8") st E).
    exists (js "12"), (js "."); repeat split; discriminate.
  - vm_compute in E; injection E as <-; reflexivity.
Defined.
